(** * Goods catalogue service (main.go): a shallow embedding and its properties

    The service is one Go file: six HTTP handlers over a relational store
    (database/sql), a Redis cache and a NATS connection.  The handlers are
    embedded as state-passing functions over a [World] (store, open
    transaction, cache, published messages, call log); what the outside
    world decides for one request (driver errors, the clock, the values the
    store assigns to columns an INSERT leaves out) is an [Oracle]. *)

From Stdlib Require Import ZArith List String Ascii Bool Lia.
From stdpp Require Import gmap strings pretty.
Import ListNotations.
Open Scope Z_scope.

Set Warnings "-register-all".

(** ** Go's [int] on a 64-bit target *)

Module GoInt.

Definition min_int : Z := - 2 ^ 63.
Definition max_int : Z := 2 ^ 63 - 1.

Definition in_range (z : Z) : bool := (min_int <=? z) && (z <=? max_int).

(** Two's-complement wrap-around of signed 64-bit arithmetic. *)
Definition wrap (z : Z) : Z := (z + 2 ^ 63) mod 2 ^ 64 - 2 ^ 63.

Definition add (a b : Z) : Z := wrap (a + b).

End GoInt.

(** ** JSON texts

    A [json] is the syntax tree of a JSON text.  String literals and
    number literals keep their source text (what stands between the
    quotes, escapes included; the digits of the number), because
    encoding/json hands exactly that text to a field's decoder. *)

Inductive json : Type :=
| JNull
| JBool (b : bool)
| JNum (lit : string)
| JStr (raw : string)
| JArr (elems : list json)
| JObj (members : list (string * json)).

Module JSONText.

(** The double quote, and texts written with ' in its place. *)
Definition dquote : string := String "034" EmptyString.

Fixpoint dq (s : string) : string :=
  match s with
  | EmptyString => EmptyString
  | String c r => String (if Ascii.eqb c "'" then "034"%char else c) (dq r)
  end.

Definition join (sep : string) (l : list string) : string :=
  match l with
  | [] => ""
  | x :: r => fold_left (fun acc y => acc +:+ sep +:+ y) r x
  end.

(** The compact form written by encoding/json: no white space. *)
Fixpoint render (j : json) : string :=
  match j with
  | JNull => "null"
  | JBool true => "true"
  | JBool false => "false"
  | JNum lit => lit
  | JStr raw => dquote +:+ raw +:+ dquote
  | JArr elems => "[" +:+ join "," (map render elems) +:+ "]"
  | JObj members =>
      "{" +:+ join ","
                (map (fun kv => dquote +:+ fst kv +:+ dquote +:+ ":" +:+ render (snd kv))
                     members)
          +:+ "}"
  end.

Definition is_space (c : ascii) : bool :=
  match c with
  | " "%char | "009"%char | "010"%char | "013"%char => true
  | _ => false
  end.

Fixpoint skip_space (s : string) : string :=
  match s with
  | String c r => if is_space c then skip_space r else s
  | EmptyString => s
  end.

Definition is_digit (c : ascii) : bool :=
  let n := nat_of_ascii c in (48 <=? n)%nat && (n <=? 57)%nat.

Definition is_hex (c : ascii) : bool :=
  let n := nat_of_ascii c in
  is_digit c || ((65 <=? n)%nat && (n <=? 70)%nat)
             || ((97 <=? n)%nat && (n <=? 102)%nat).

(** [digits s] splits off the longest prefix of decimal digits. *)
Fixpoint digits (s : string) : string * string :=
  match s with
  | String c r =>
      if is_digit c then let '(d, rest) := digits r in (String c d, rest)
      else (EmptyString, s)
  | EmptyString => (EmptyString, s)
  end.

(** A number literal: an optional minus sign, an integer part without
    leading zeros, an optional fraction and an optional exponent. *)
Definition scan_int_part (s : string) : option (string * string) :=
  match s with
  | String "0" r => Some ("0"%string, r)
  | String c r =>
      if is_digit c then let '(d, rest) := digits r in Some (String c d, rest)
      else None
  | EmptyString => None
  end.

Definition scan_frac (s : string) : option (string * string) :=
  match s with
  | String "." r =>
      match digits r with
      | (EmptyString, _) => None
      | (d, rest) => Some (String "." d, rest)
      end
  | _ => Some (EmptyString, s)
  end.

Definition scan_exp (s : string) : option (string * string) :=
  match s with
  | String c r =>
      if Ascii.eqb c "e" || Ascii.eqb c "E" then
        let '(sign, r') :=
          match r with
          | String "+" r' => ("+"%string, r')
          | String "-" r' => ("-"%string, r')
          | _ => (EmptyString, r)
          end in
        match digits r' with
        | (EmptyString, _) => None
        | (d, rest) => Some (String c (sign +:+ d), rest)
        end
      else Some (EmptyString, s)
  | EmptyString => Some (EmptyString, s)
  end.

Definition scan_number (s : string) : option (string * string) :=
  let '(sign, s1) :=
    match s with
    | String "-" r => ("-"%string, r)
    | _ => (EmptyString, s)
    end in
  match scan_int_part s1 with
  | None => None
  | Some (i, s2) =>
      match scan_frac s2 with
      | None => None
      | Some (f, s3) =>
          match scan_exp s3 with
          | None => None
          | Some (e, s4) => Some (sign +:+ i +:+ f +:+ e, s4)
          end
      end
  end.

(** The text of a string literal after its opening quote, up to the closing
    quote: control characters are refused, a backslash must start one of
    the escapes of RFC 8259. *)
Fixpoint scan_string (s : string) : option (string * string) :=
  match s with
  | EmptyString => None
  | String "034"%char r => Some (EmptyString, r)
  | String "\" (String c r) =>
      match c with
      | "034"%char | "\"%char | "/"%char | "b"%char | "f"%char
      | "n"%char | "r"%char | "t"%char =>
          match scan_string r with
          | Some (raw, rest) => Some (String "\" (String c raw), rest)
          | None => None
          end
      | "u"%char =>
          match r with
          | String h1 (String h2 (String h3 (String h4 r'))) =>
              if is_hex h1 && is_hex h2 && is_hex h3 && is_hex h4 then
                match scan_string r' with
                | Some (raw, rest) =>
                    Some (String "\" (String "u" (String h1 (String h2
                            (String h3 (String h4 raw))))), rest)
                | None => None
                end
              else None
          | _ => None
          end
      | _ => None
      end
  | String "\" EmptyString => None
  | String c r =>
      if (nat_of_ascii c <? 32)%nat then None
      else match scan_string r with
           | Some (raw, rest) => Some (String c raw, rest)
           | None => None
           end
  end.

Definition expect (word : string) (s : string) : option string :=
  if String.prefix word s
  then Some (String.substring (String.length word)
                              (String.length s - String.length word) s)
  else None.

(** Recursive descent; [fuel] bounds the depth of the calls, and
    [parse_fuel] gives enough of it for any text. *)
Fixpoint parse_value (fuel : nat) (s : string) : option (json * string) :=
  match fuel with
  | O => None
  | S fuel =>
      match skip_space s with
      | String "n" r => option_map (pair JNull) (expect "ull" r)
      | String "t" r => option_map (pair (JBool true)) (expect "rue" r)
      | String "f" r => option_map (pair (JBool false)) (expect "alse" r)
      | String "034"%char r =>
          match scan_string r with
          | Some (raw, rest) => Some (JStr raw, rest)
          | None => None
          end
      | String "[" r =>
          match skip_space r with
          | String "]" rest => Some (JArr [], rest)
          | _ =>
              match parse_elems fuel r with
              | Some (l, rest) => Some (JArr l, rest)
              | None => None
              end
          end
      | String "{" r =>
          match skip_space r with
          | String "}" rest => Some (JObj [], rest)
          | _ =>
              match parse_members fuel r with
              | Some (l, rest) => Some (JObj l, rest)
              | None => None
              end
          end
      | s' =>
          match scan_number s' with
          | Some (lit, rest) => Some (JNum lit, rest)
          | None => None
          end
      end
  end

with parse_elems (fuel : nat) (s : string) : option (list json * string) :=
  match fuel with
  | O => None
  | S fuel =>
      match parse_value fuel s with
      | None => None
      | Some (v, rest) =>
          match skip_space rest with
          | String "]" rest' => Some ([v], rest')
          | String "," rest' =>
              match parse_elems fuel rest' with
              | Some (l, rest'') => Some (v :: l, rest'')
              | None => None
              end
          | _ => None
          end
      end
  end

with parse_members (fuel : nat) (s : string)
  : option (list (string * json) * string) :=
  match fuel with
  | O => None
  | S fuel =>
      match skip_space s with
      | String "034"%char r =>
          match scan_string r with
          | None => None
          | Some (key, r1) =>
              match skip_space r1 with
              | String ":" r2 =>
                  match parse_value fuel r2 with
                  | None => None
                  | Some (v, rest) =>
                      match skip_space rest with
                      | String "}" rest' => Some ([(key, v)], rest')
                      | String "," rest' =>
                          match parse_members fuel rest' with
                          | Some (l, rest'') => Some ((key, v) :: l, rest'')
                          | None => None
                          end
                      | _ => None
                      end
                  end
              | _ => None
              end
          end
      | _ => None
      end
  end.

Definition parse_fuel (s : string) : nat := 2 * String.length s + 2.

(** What [json.NewDecoder(r).Decode] reads: the first JSON value of the
    stream; what follows it is left unread. *)
Definition first_value (s : string) : option json :=
  option_map fst (parse_value (parse_fuel s) s).

(** What [json.Unmarshal] accepts: one JSON value and nothing but white
    space after it. *)
Definition whole_value (s : string) : option json :=
  match parse_value (parse_fuel s) s with
  | Some (j, rest) =>
      match skip_space rest with
      | EmptyString => Some j
      | _ => None
      end
  | None => None
  end.

(** *** Texts the parser reads back

    What a rendered tree must be made of for the parser to return it: number
    literals the number scanner reads as one number, string literals the
    string scanner reads as one literal. *)

(** Texts after which a number literal ends. *)
Definition stops (rest : string) : Prop :=
  match rest with
  | EmptyString => True
  | String c _ =>
      is_digit c = false /\ c <> "."%char /\ c <> "e"%char /\ c <> "E"%char
  end.

Fixpoint all_digits (s : string) : bool :=
  match s with
  | EmptyString => true
  | String c r => is_digit c && all_digits r
  end.

(** The text between the quotes of a string literal: the scanner stops at
    the quote that follows it, and not before. *)
Definition literal_text (raw : string) : Prop :=
  forall rest,
    scan_string (raw +:+ dquote +:+ rest) = Some (raw, rest).

(** The same, as a test: the scanner reads the text and a closing quote as
    that text with nothing left. *)
Definition is_literal (raw : string) : bool :=
  match scan_string (raw +:+ dquote) with
  | Some (r, EmptyString) => String.eqb r raw
  | _ => false
  end.

Definition number_text (lit : string) : Prop :=
  exists c r,
    lit = String c r
    /\ (c = "-"%char \/ is_digit c = true)
    /\ forall rest,
        stops rest -> scan_number (lit +:+ rest) = Some (lit, rest).

Fixpoint well_formed (j : json) : Prop :=
  match j with
  | JNull | JBool _ => True
  | JNum lit => number_text lit
  | JStr raw => literal_text raw
  | JArr l =>
      (fix all (l : list json) : Prop :=
         match l with
         | [] => True
         | e :: r => well_formed e /\ all r
         end) l
  | JObj ms =>
      (fix all (ms : list (string * json)) : Prop :=
         match ms with
         | [] => True
         | kv :: r => literal_text (fst kv) /\ well_formed (snd kv) /\ all r
         end) ms
  end.

(** The number of values, elements and members of a tree: the fuel the
    parser needs for its text. *)
Fixpoint nodes (j : json) : nat :=
  match j with
  | JArr l =>
      S ((fix of_elems (l : list json) : nat :=
            match l with
            | [] => O
            | e :: r => S (nodes e + of_elems r)
            end) l)
  | JObj ms =>
      S ((fix of_members (ms : list (string * json)) : nat :=
            match ms with
            | [] => O
            | kv :: r => S (nodes (snd kv) + of_members r)
            end) ms)
  | _ => 1%nat
  end.

Definition elem_nodes (l : list json) : nat :=
  fold_right (fun e acc => S (nodes e + acc)) O l.

Definition member_nodes (ms : list (string * json)) : nat :=
  fold_right (fun kv acc => S (nodes (snd kv) + acc)) O ms.

(** The characters a rendered value can start with. *)
Definition heads : list ascii :=
  ["n"; "t"; "f"; "034"; "["; "{"; "-";
   "0"; "1"; "2"; "3"; "4"; "5"; "6"; "7"; "8"; "9"]%char.

(** A member as [render] writes it. *)
Definition member_text (kv : string * json) : string :=
  dquote +:+ fst kv +:+ dquote +:+ ":" +:+ render (snd kv).

End JSONText.

(** ** Go slices: [nil] differs from an empty slice when encoded *)

Definition slice (A : Type) : Type := option (list A).

Definition elems {A : Type} (s : slice A) : list A :=
  match s with
  | Some l => l
  | None => []
  end.

(** [append(s, x)]: appending to a nil slice allocates. *)
Definition append {A : Type} (s : slice A) (x : A) : slice A :=
  Some (elems s ++ [x]).

(** ** The program's data and its JSON form

    The parts of the Go libraries whose results the program only passes
    on are taken as they come: the representation of [time.Time], its
    RFC 3339 decoder and encoder (the encoder fails for a year outside
    0..9999), the text encoding/json puts between the quotes for a Go
    string and the string it reads back from such text, and the case
    folding under which encoding/json matches an object key with a field
    name. *)

Section Program.

Context {Time : Type}.
Variable zeroTime : Time.
Variable parseTime : string -> option Time.
Variable formatTime : Time -> option string.
Variable quote : string -> string.
Variable unquote : string -> string.
Variable equal_fold : string -> string -> bool.

(** type Projects struct *)
Record Projects : Type := {
  p_ID : Z;
  p_Name : string;
  p_CreatedAt : Time
}.

(** type Goods struct *)
Record Goods : Type := {
  ID : Z;
  ProjectID : Z;
  Name : string;
  Description : string;
  Priority : Z;
  Removed : bool;
  CreatedAt : Time
}.

(** type NewPriority struct *)
Record NewPriority : Type := { n_NewPriority : Z }.

(** What [fmt.Sprintf] prints for a [[]Goods] under the verb [%s]. *)
Variable sprint_goods : slice Goods -> string.

(** [var good Goods]: every field at its zero value. *)
Definition zeroGoods : Goods :=
  {| ID := 0; ProjectID := 0; Name := ""; Description := "";
     Priority := 0; Removed := false; CreatedAt := zeroTime |}.

Definition zeroNewPriority : NewPriority := {| n_NewPriority := 0 |}.

Definition with_Priority (g : Goods) (p : Z) : Goods :=
  {| ID := ID g; ProjectID := ProjectID g; Name := Name g;
     Description := Description g; Priority := p; Removed := Removed g;
     CreatedAt := CreatedAt g |}.

(** *** Decoding (encoding/json into a struct)

    A value that does not fit a field is skipped and the first such
    mismatch is reported once decoding is complete ([Saved]); an error
    returned by a field's own decoder, here [time.Time]'s, stops decoding
    at once ([Aborted]).  Either way what was decoded so far stays in the
    target. *)

Inductive outcome : Type := Clean | Saved | Aborted.

Definition worse (a b : outcome) : outcome :=
  match a, b with
  | Aborted, _ | _, Aborted => Aborted
  | Saved, _ | _, Saved => Saved
  | Clean, Clean => Clean
  end.

Fixpoint decimal (s : string) (acc : Z) : option Z :=
  match s with
  | EmptyString => Some acc
  | String c r =>
      if JSONText.is_digit c
      then decimal r (10 * acc + Z.of_nat (nat_of_ascii c) - 48)
      else None
  end.

(** [strconv.ParseInt(lit, 10, 64)] on a JSON number literal. *)
Definition parse_int (lit : string) : option Z :=
  let '(neg, ds) :=
    match lit with
    | String "-" r => (true, r)
    | _ => (false, lit)
    end in
  match ds with
  | EmptyString => None
  | _ =>
      match decimal ds 0 with
      | Some n =>
          let z := if neg then - n else n in
          if GoInt.in_range z then Some z else None
      | None => None
      end
  end.

Definition decode_int (cur : Z) (j : json) : Z * outcome :=
  match j with
  | JNull => (cur, Clean)
  | JNum lit =>
      match parse_int lit with
      | Some n => (n, Clean)
      | None => (cur, Saved)
      end
  | _ => (cur, Saved)
  end.

Definition decode_string (cur : string) (j : json) : string * outcome :=
  match j with
  | JNull => (cur, Clean)
  | JStr raw => (unquote raw, Clean)
  | _ => (cur, Saved)
  end.

Definition decode_bool (cur : bool) (j : json) : bool * outcome :=
  match j with
  | JNull => (cur, Clean)
  | JBool b => (b, Clean)
  | _ => (cur, Saved)
  end.

(** [time.Time] decodes itself: [null] is a no-op, a string literal is
    parsed (the target is zeroed when parsing fails), anything else is an
    error. *)
Definition decode_time (cur : Time) (j : json) : Time * outcome :=
  match j with
  | JNull => (cur, Clean)
  | JStr raw =>
      match parseTime raw with
      | Some t => (t, Clean)
      | None => (zeroTime, Aborted)
      end
  | _ => (cur, Aborted)
  end.

(** The json tags of [Goods]. *)
Inductive GoodsField : Type :=
  FID | FProjectID | FName | FDescription | FPriority | FRemoved | FCreatedAt.

Definition goods_fields : list GoodsField :=
  [FID; FProjectID; FName; FDescription; FPriority; FRemoved; FCreatedAt].

Definition tag (f : GoodsField) : string :=
  match f with
  | FID => "id"
  | FProjectID => "project_id"
  | FName => "name"
  | FDescription => "description"
  | FPriority => "priority"
  | FRemoved => "removed"
  | FCreatedAt => "created_at"
  end.

(** An exact match of the key is preferred to a match under case folding. *)
Definition field_named {F : Type} (fields : list F) (tag_of : F -> string)
    (key : string) : option F :=
  match find (fun f => String.eqb (tag_of f) key) fields with
  | Some f => Some f
  | None => find (fun f => equal_fold (tag_of f) key) fields
  end.

Definition store_field (g : Goods) (f : GoodsField) (v : json)
  : Goods * outcome :=
  match f with
  | FID =>
      let '(x, o) := decode_int (ID g) v in
      ({| ID := x; ProjectID := ProjectID g; Name := Name g;
          Description := Description g; Priority := Priority g;
          Removed := Removed g; CreatedAt := CreatedAt g |}, o)
  | FProjectID =>
      let '(x, o) := decode_int (ProjectID g) v in
      ({| ID := ID g; ProjectID := x; Name := Name g;
          Description := Description g; Priority := Priority g;
          Removed := Removed g; CreatedAt := CreatedAt g |}, o)
  | FName =>
      let '(x, o) := decode_string (Name g) v in
      ({| ID := ID g; ProjectID := ProjectID g; Name := x;
          Description := Description g; Priority := Priority g;
          Removed := Removed g; CreatedAt := CreatedAt g |}, o)
  | FDescription =>
      let '(x, o) := decode_string (Description g) v in
      ({| ID := ID g; ProjectID := ProjectID g; Name := Name g;
          Description := x; Priority := Priority g;
          Removed := Removed g; CreatedAt := CreatedAt g |}, o)
  | FPriority =>
      let '(x, o) := decode_int (Priority g) v in
      (with_Priority g x, o)
  | FRemoved =>
      let '(x, o) := decode_bool (Removed g) v in
      ({| ID := ID g; ProjectID := ProjectID g; Name := Name g;
          Description := Description g; Priority := Priority g;
          Removed := x; CreatedAt := CreatedAt g |}, o)
  | FCreatedAt =>
      let '(x, o) := decode_time (CreatedAt g) v in
      ({| ID := ID g; ProjectID := ProjectID g; Name := Name g;
          Description := Description g; Priority := Priority g;
          Removed := Removed g; CreatedAt := x |}, o)
  end.

(** The members of an object are stored in the order of the text, so of
    a repeated key the last one wins; unknown keys are skipped. *)
Fixpoint decode_members (g : Goods) (ms : list (string * json))
  : Goods * outcome :=
  match ms with
  | [] => (g, Clean)
  | (key, v) :: rest =>
      match field_named goods_fields tag (unquote key) with
      | None => decode_members g rest
      | Some f =>
          match store_field g f v with
          | (g', Aborted) => (g', Aborted)
          | (g', o) =>
              let '(g'', o') := decode_members g' rest in (g'', worse o o')
          end
      end
  end.

Definition decode_Goods (cur : Goods) (j : json) : Goods * outcome :=
  match j with
  | JNull => (cur, Clean)
  | JObj ms => decode_members cur ms
  | _ => (cur, Saved)
  end.

(** Into a nil [[]Goods]: every element starts from the zero value; an
    element whose decoding aborts is kept, half filled, as the last one. *)
Fixpoint decode_elements (acc : list Goods) (es : list json)
  : list Goods * outcome :=
  match es with
  | [] => (acc, Clean)
  | e :: rest =>
      match decode_Goods zeroGoods e with
      | (g, Aborted) => (acc ++ [g], Aborted)
      | (g, o) =>
          let '(l, o') := decode_elements (acc ++ [g]) rest in (l, worse o o')
      end
  end.

Definition decode_GoodsList (cur : slice Goods) (j : json)
  : slice Goods * outcome :=
  match j with
  | JNull => (None, Clean)
  | JArr es => let '(l, o) := decode_elements [] es in (Some l, o)
  | _ => (cur, Saved)
  end.

Definition decode_NewPriority (cur : NewPriority) (j : json)
  : NewPriority * outcome :=
  match j with
  | JNull => (cur, Clean)
  | JObj ms =>
      fold_left
        (fun (acc : NewPriority * outcome) (kv : string * json) =>
           match field_named [tt] (fun _ => "newPriority"%string)
                             (unquote (fst kv)) with
           | None => acc
           | Some _ =>
               let '(x, o) := decode_int (n_NewPriority (fst acc)) (snd kv) in
               ({| n_NewPriority := x |}, worse (snd acc) o)
           end)
        ms (cur, Clean)
  | _ => (cur, Saved)
  end.

(** [json.NewDecoder(r.Body).Decode(&good)]: [None] is a non-nil error. *)
Definition Decode_Goods (body : string) : option Goods :=
  match JSONText.first_value body with
  | None => None
  | Some j =>
      match decode_Goods zeroGoods j with
      | (g, Clean) => Some g
      | _ => None
      end
  end.

Definition Decode_NewPriority (body : string) : option NewPriority :=
  match JSONText.first_value body with
  | None => None
  | Some j =>
      match decode_NewPriority zeroNewPriority j with
      | (p, Clean) => Some p
      | _ => None
      end
  end.

(** [json.Unmarshal([]byte(cached), &goods)] with [goods] nil before the
    call: the slice as the call leaves it, and whether [err == nil].  A
    text that is not JSON is refused before anything is stored. *)
Definition Unmarshal_GoodsList (text : string) : slice Goods * bool :=
  match JSONText.whole_value text with
  | None => (None, false)
  | Some j =>
      match decode_GoodsList None j with
      | (s, Clean) => (s, true)
      | (s, _) => (s, false)
      end
  end.

(** *** Encoding *)

Definition json_int (z : Z) : json := JNum (pretty z).

Definition json_Goods (g : Goods) : option json :=
  match formatTime (CreatedAt g) with
  | None => None
  | Some t =>
      Some (JObj [("id"%string, json_int (ID g));
                  ("project_id"%string, json_int (ProjectID g));
                  ("name"%string, JStr (quote (Name g)));
                  ("description"%string, JStr (quote (Description g)));
                  ("priority"%string, json_int (Priority g));
                  ("removed"%string, JBool (Removed g));
                  ("created_at"%string, JStr t)])
  end.

Definition json_Projects (p : Projects) : option json :=
  match formatTime (p_CreatedAt p) with
  | None => None
  | Some t =>
      Some (JObj [("id"%string, json_int (p_ID p));
                  ("name"%string, JStr (quote (p_Name p)));
                  ("created_at"%string, JStr t)])
  end.

Fixpoint json_all {A : Type} (f : A -> option json) (l : list A)
  : option (list json) :=
  match l with
  | [] => Some []
  | x :: r =>
      match f x, json_all f r with
      | Some j, Some js => Some (j :: js)
      | _, _ => None
      end
  end.

(** A nil slice encodes as [null], an empty one as [[]]. *)
Definition json_slice {A : Type} (f : A -> option json) (s : slice A)
  : option json :=
  match s with
  | None => Some JNull
  | Some l => option_map JArr (json_all f l)
  end.

(** [json.Marshal(good)] and [json.Marshal(goods)]. *)
Definition Marshal_Goods (g : Goods) : option string :=
  option_map JSONText.render (json_Goods g).

Definition Marshal_GoodsList (s : slice Goods) : option string :=
  option_map JSONText.render (json_slice json_Goods s).

(** ** The outside world

    [goods] and [projects] are the two relations of the store.  A row of
    [goods] carries what the columns hold; [project_id] may be NULL, since
    the program's INSERT leaves that column to its default. *)

Record GoodsRow : Type := {
  r_id : Z;
  r_project_id : option Z;
  r_name : string;
  r_description : string;
  r_priority : Z;
  r_removed : bool;
  r_created_at : Time
}.

(** The four statements the handlers execute inside a transaction. *)
Inductive Statement : Type :=
| InsertGood (name description : string) (priority : Z) (removed : bool)
             (created_at : Time)
  (* INSERT INTO goods (name, description, priority, removed, created_at)
     VALUES ($1, $2, $3, $4, $5) *)
| UpdateGoods (name description : string) (priority : Z) (removed : bool)
  (* UPDATE goods SET name = $1, description = $2, priority = $3,
     removed = $4 *)
| DeleteGoods
  (* DELETE FROM goods *)
| UpdatePriority (priority : Z).
  (* UPDATE goods SET priority = $1 *)

Inductive error : Type :=
| ErrNoRows                  (* sql.ErrNoRows *)
| DriverError (msg : string) (* reported by the store, cache or broker client *)
| ScanError                  (* database/sql: a column does not fit its target *)
| JSONDecodeError            (* encoding/json, reading a text *)
| JSONEncodeError.           (* encoding/json, writing a value *)

Definition is_ErrNoRows (e : error) : bool :=
  match e with
  | ErrNoRows => true
  | _ => false
  end.

Inductive Call : Type :=
| CacheGet (key : string)
| CacheSet (key value : string) (expiration : Z)
| Query (table : string)
| Begin
| Exec (stmt : Statement)
| Commit
| Rollback
| Publish (subject data : string).

Record World : Type := {
  tbl_projects : list Projects;
  tbl_goods : list GoodsRow;
  (** the relation as the open transaction sees it, if one is open *)
  tx : option (list GoodsRow);
  (** key to value and the expiration it was set with, in nanoseconds *)
  cache : gmap string (string * Z);
  (** messages the broker accepted, oldest first *)
  published : list (string * string);
  (** every call made to the store, the cache and the broker, oldest first *)
  calls : list Call
}.

(** What the outside decides during one request. *)
Record Oracle : Type := {
  query_error : option error;
  (** the result set breaks off with an error after that many rows *)
  rows_error : option (nat * error);
  begin_error : option error;
  exec_error : option error;
  commit_error : option error;
  cache_get_error : option error;
  cache_set_error : option error;
  publish_error : option error;
  (** time.Now() *)
  clock : Time;
  (** the values the store gives the columns an INSERT leaves out *)
  serial : Z;
  default_project : option Z
}.

(** redisCacheTime = time.Minute, a time.Duration in nanoseconds *)
Definition redisCacheTime : Z := 60 * 1000000000.

Definition set_goods (w : World) (g : list GoodsRow) : World :=
  {| tbl_projects := tbl_projects w; tbl_goods := g; tx := tx w;
     cache := cache w; published := published w; calls := calls w |}.

Definition set_tx (w : World) (t : option (list GoodsRow)) : World :=
  {| tbl_projects := tbl_projects w; tbl_goods := tbl_goods w; tx := t;
     cache := cache w; published := published w; calls := calls w |}.

Definition set_cache (w : World) (c : gmap string (string * Z)) : World :=
  {| tbl_projects := tbl_projects w; tbl_goods := tbl_goods w; tx := tx w;
     cache := c; published := published w; calls := calls w |}.

Definition add_published (w : World) (m : string * string) : World :=
  {| tbl_projects := tbl_projects w; tbl_goods := tbl_goods w; tx := tx w;
     cache := cache w; published := published w ++ [m]; calls := calls w |}.

Definition log (w : World) (c : Call) : World :=
  {| tbl_projects := tbl_projects w; tbl_goods := tbl_goods w; tx := tx w;
     cache := cache w; published := published w; calls := calls w ++ [c] |}.

(** *** The statements on the relation *)

Definition update_row (name description : string) (priority : Z)
    (removed : bool) (r : GoodsRow) : GoodsRow :=
  {| r_id := r_id r; r_project_id := r_project_id r; r_name := name;
     r_description := description; r_priority := priority;
     r_removed := removed; r_created_at := r_created_at r |}.

Definition reprioritize_row (priority : Z) (r : GoodsRow) : GoodsRow :=
  {| r_id := r_id r; r_project_id := r_project_id r; r_name := r_name r;
     r_description := r_description r; r_priority := priority;
     r_removed := r_removed r; r_created_at := r_created_at r |}.

Definition execute (o : Oracle) (stmt : Statement) (rel : list GoodsRow)
  : list GoodsRow :=
  match stmt with
  | InsertGood name description priority removed created_at =>
      rel ++ [{| r_id := serial o; r_project_id := default_project o;
                 r_name := name; r_description := description;
                 r_priority := priority; r_removed := removed;
                 r_created_at := created_at |}]
  | UpdateGoods name description priority removed =>
      map (update_row name description priority removed) rel
  | DeleteGoods => []
  | UpdatePriority priority => map (reprioritize_row priority) rel
  end.

(** SELECT COALESCE(MAX(priority), 0) FROM goods *)
Definition max_priority (rel : list GoodsRow) : Z :=
  match map r_priority rel with
  | [] => 0
  | p :: ps => fold_left Z.max ps p
  end.

(** [rows.Scan] into Go's [int]. *)
Definition scan_int (z : Z) : option Z :=
  if GoInt.in_range z then Some z else None.

Definition scan_Projects (p : Projects) : option Projects :=
  match scan_int (p_ID p) with
  | Some _ => Some p
  | None => None
  end.

(** A NULL [project_id] does not fit the [int] field. *)
Definition scan_Goods (r : GoodsRow) : option Goods :=
  match scan_int (r_id r), r_project_id r, scan_int (r_priority r) with
  | Some i, Some pid, Some pr =>
      match scan_int pid with
      | Some pid' =>
          Some {| ID := i; ProjectID := pid'; Name := r_name r;
                  Description := r_description r; Priority := pr;
                  Removed := r_removed r; CreatedAt := r_created_at r |}
      | None => None
      end
  | _, _, _ => None
  end.

(** ** Responses *)

Inductive Body : Type :=
| NoBody
| ErrorText (e : error)   (* http.Error: the text of [e.Error()], a line *)
| Written (text : string).

Record Response : Type := {
  status : Z;
  content_type : option string;
  body : Body
}.

Definition http_Error (e : error) (code : Z) : Response :=
  {| status := code; content_type := Some "text/plain; charset=utf-8"%string;
     body := ErrorText e |}.

(** The Go values the handlers hand to [respondWithJSON]. *)
Inductive Payload : Type :=
| OfProjects (ps : slice Projects)
| OfGood (g : Goods)
| OfGoods (gs : slice Goods)
| OfPriorities (ps : list (Z * Z)).
  (* struct { Priorities []struct { ID int; Priority int } } *)

Definition json_Payload (p : Payload) : option json :=
  match p with
  | OfProjects ps => json_slice json_Projects ps
  | OfGood g => json_Goods g
  | OfGoods gs => json_slice json_Goods gs
  | OfPriorities ps =>
      Some (JObj [("priorities"%string,
                   JArr (map (fun ip => JObj [("id"%string, json_int (fst ip));
                                              ("priority"%string,
                                               json_int (snd ip))])
                             ps))])
  end.

(** [json.NewEncoder(w).Encode(data)]: the value and a newline, or, when
    the value cannot be encoded, nothing (the error is dropped). *)
Definition Encode (data : list Payload) : string :=
  match json_all json_Payload data with
  | Some js => JSONText.render (JArr js) +:+ String "010" EmptyString
  | None => ""
  end.

(** func respondWithJSON(w, statusCode, data ...interface{}): the variadic
    parameter [data] is a slice, and the slice is what gets encoded. *)
Definition respondWithJSON (statusCode : Z) (data : list Payload) : Response :=
  {| status := statusCode; content_type := Some "application/json"%string;
     body := Written (Encode data) |}.

(** ** Handlers

    A handler computation threads the world and either goes on with a
    value or has returned after writing its response. *)

Definition M (A : Type) : Type := World -> World * (Response + A).

Definition ret {A : Type} (a : A) : M A := fun w => (w, inr a).

Definition bind {A B : Type} (m : M A) (k : A -> M B) : M B :=
  fun w =>
    match m w with
    | (w', inl r) => (w', inl r)
    | (w', inr a) => k a w'
    end.

(** Write the response and return from the handler. *)
Definition reply {A : Type} (r : Response) : M A := fun w => (w, inl r).

Definition call (c : Call) : M unit := fun w => (log w c, inr tt).

Definition modify (f : World -> World) : M unit := fun w => (f w, inr tt).

Definition get {A : Type} (f : World -> A) : M A := fun w => (w, inr (f w)).

Notation "x <- m ;; k" := (bind m (fun x => k))
  (at level 100, m at next level, right associativity).
Notation "m ;;; k" := (bind m (fun _ => k))
  (at level 100, right associativity).

(** if err != nil { http.Error(w, err.Error(), code); return } *)
Definition check (err : option error) (code : Z) : M unit :=
  match err with
  | Some e => reply (http_Error e code)
  | None => ret tt
  end.

Definition some_or {A : Type} (x : option A) (e : error) (code : Z) : M A :=
  match x with
  | Some a => ret a
  | None => reply (http_Error e code)
  end.

(** The handler as the server sees it: the final world and the response. *)
Definition run (h : M Response) (w : World) : World * Response :=
  match h w with
  | (w', inl r) => (w', r)
  | (w', inr r) => (w', r)
  end.

(** *** The store *)

(** tx, err := db.Begin() *)
Definition db_Begin (o : Oracle) : M unit :=
  call Begin ;;;
  check (begin_error o) 500 ;;;
  rel <- get tbl_goods ;;
  modify (fun w => set_tx w (Some rel)).

(** _, err = tx.Exec(...): a statement that fails changes nothing. *)
Definition tx_Exec (o : Oracle) (stmt : Statement) : M unit :=
  call (Exec stmt) ;;;
  check (exec_error o) 500 ;;;
  modify (fun w => set_tx w (option_map (execute o stmt) (tx w))).

(** err = tx.Commit() *)
Definition tx_Commit (o : Oracle) : M unit :=
  call Commit ;;;
  check (commit_error o) 500 ;;;
  modify (fun w =>
            match tx w with
            | Some rel => set_tx (set_goods w rel) None
            | None => w
            end).

(** defer tx.Rollback(): runs when the handler returns, whichever way; what
    an open transaction has written is dropped, and after a commit there is
    nothing left to drop. *)
Definition defer_Rollback {A : Type} (m : M A) : M A :=
  fun w =>
    let '(w', r) := m w in (set_tx (log w' Rollback) None, r).

(** for rows.Next() { rows.Scan(...); append } and then rows.Err() *)
Fixpoint scan_rows {R A : Type} (scan : R -> option A) (rows : list R)
    (acc : slice A) : M (slice A) :=
  match rows with
  | [] => ret acc
  | r :: rest =>
      x <- some_or (scan r) ScanError 500 ;;
      scan_rows scan rest (append acc x)
  end.

Definition db_Query {R A : Type} (o : Oracle) (table : string)
    (rel : World -> list R) (scan : R -> option A) (acc : slice A)
  : M (slice A) :=
  call (Query table) ;;;
  check (query_error o) 500 ;;;
  rows <- get rel ;;
  match rows_error o with
  | Some (n, e) =>
      scan_rows scan (firstn n rows) acc ;;;
      reply (http_Error e 500)
  | None => scan_rows scan rows acc
  end.

(** *** The cache and the broker *)

(** redisClient.Get(ctx, key).Result(): a missing key is an error too. *)
Definition redis_Get (o : Oracle) (key : string) : M (option string) :=
  call (CacheGet key) ;;;
  match cache_get_error o with
  | Some _ => ret None
  | None => c <- get cache ;; ret (option_map fst (c !! key))
  end.

(** redisClient.Set(ctx, key, data, redisCacheTime): the result is dropped. *)
Definition redis_Set (o : Oracle) (key data : string) : M unit :=
  call (CacheSet key data redisCacheTime) ;;;
  match cache_set_error o with
  | Some _ => ret tt
  | None =>
      modify (fun w => set_cache w (<[key := (data, redisCacheTime)]> (cache w)))
  end.

(** if err := natsConn.Publish(subject, data); err != nil { 500 } *)
Definition nats_Publish (o : Oracle) (subject data : string) : M unit :=
  call (Publish subject data) ;;;
  check (publish_error o) 500 ;;;
  modify (fun w => add_published w (subject, data)).

(** *** func listProjectsHandler *)
Definition listProjectsHandler (o : Oracle) : M Response :=
  ps <- db_Query o "projects" tbl_projects scan_Projects None ;;
  ret (respondWithJSON 200 [OfProjects ps]).

(** *** func createGoodHandler *)
Definition createGoodHandler (o : Oracle) (body : string) : M Response :=
  good <- some_or (Decode_Goods body) JSONDecodeError 400 ;;
  call (Query "goods") ;;;
  maxPriority <-
    match query_error o with
    | Some e => if is_ErrNoRows e then ret 0 else reply (http_Error e 500)
    | None => rel <- get tbl_goods ;; some_or (scan_int (max_priority rel)) ScanError 500
    end ;;
  let good := with_Priority good (GoInt.add maxPriority 1) in
  db_Begin o ;;;
  defer_Rollback (
    tx_Exec o (InsertGood (Name good) (Description good) (Priority good)
                          (Removed good) (clock o)) ;;;
    tx_Commit o ;;;
    data <- some_or (Marshal_Goods good) JSONEncodeError 500 ;;
    redis_Set o ("goods: " +:+ pretty (ID good)) data ;;;
    nats_Publish o "new_good_created" data ;;;
    ret (respondWithJSON 201 [OfGood good])).

(** *** func listGoodsHandler *)
Definition listGoodsHandler (o : Oracle) : M Response :=
  cachedGoods <- redis_Get o "goods" ;;
  goods <-
    match cachedGoods with
    | Some text =>
        match Unmarshal_GoodsList text with
        | (goods, true) => reply (respondWithJSON 200 [OfGoods goods])
        | (goods, false) => ret goods
        end
    | None => ret None
    end ;;
  goods <- db_Query o "goods" tbl_goods scan_Goods goods ;;
  data <- some_or (Marshal_GoodsList goods) JSONEncodeError 500 ;;
  redis_Set o "goods" data ;;;
  nats_Publish o "list_goods" ("Goods list " +:+ sprint_goods goods) ;;;
  ret (respondWithJSON 200 [OfGoods goods]).

(** *** func updateGoodHandler *)
Definition updateGoodHandler (o : Oracle) (body : string) : M Response :=
  good <- some_or (Decode_Goods body) JSONDecodeError 400 ;;
  db_Begin o ;;;
  defer_Rollback (
    tx_Exec o (UpdateGoods (Name good) (Description good) (Priority good)
                           (Removed good)) ;;;
    tx_Commit o ;;;
    data <- some_or (Marshal_Goods good) JSONEncodeError 500 ;;
    redis_Set o ("goods:" +:+ pretty (ID good)) data ;;;
    nats_Publish o "good_updated" data ;;;
    ret (respondWithJSON 200 [OfGood good])).

(** *** func removeGoodHandler *)
Definition removeGoodHandler (o : Oracle) : M Response :=
  db_Begin o ;;;
  defer_Rollback (
    tx_Exec o DeleteGoods ;;;
    tx_Commit o ;;;
    nats_Publish o "good_deleted" "Goods with deleted" ;;;
    ret {| status := 204; content_type := None; body := NoBody |}).

(** *** func reprioritizeGoodHandler *)
Definition reprioritizeGoodHandler (o : Oracle) (body : string) : M Response :=
  let good := zeroGoods in
  newPriority <- some_or (Decode_NewPriority body) JSONDecodeError 400 ;;
  db_Begin o ;;;
  defer_Rollback (
    tx_Exec o (UpdatePriority (n_NewPriority newPriority)) ;;;
    tx_Commit o ;;;
    nats_Publish o "good_reprioritized"
      ("Goods reprioritized to " +:+ pretty (n_NewPriority newPriority)) ;;;
    ret (respondWithJSON 200
           [OfPriorities [(ID good, n_NewPriority newPriority)]])).

(** *** The routes registered in [main] *)

Record Request : Type := {
  method : string;
  path : string;
  request_body : string
}.

Definition routes (o : Oracle) (req : Request)
  : list (string * string * M Response) :=
  [ ("/projects"%string, "GET"%string, listProjectsHandler o);
    ("/goods/list"%string, "GET"%string, listGoodsHandler o);
    ("/good/create"%string, "POST"%string,
     createGoodHandler o (request_body req));
    ("/good/update"%string, "PATCH"%string,
     updateGoodHandler o (request_body req));
    ("/good/delete"%string, "DELETE"%string, removeGoodHandler o);
    ("/goods/reprioritize"%string, "PATCH"%string,
     reprioritizeGoodHandler o (request_body req)) ].

(** The handler of the first route whose path and method both match. *)
Definition router (o : Oracle) (req : Request) : option (M Response) :=
  option_map snd
    (find (fun r => String.eqb (fst (fst r)) (path req)
                    && String.eqb (snd (fst r)) (method req))
          (routes o req)).

(** *** What a run shows *)

(** The rows of a result set as the scanning loop collects them, when
    every row fits. *)
Fixpoint scan_all {R A : Type} (scan : R -> option A) (rows : list R)
  : option (list A) :=
  match rows with
  | [] => Some []
  | r :: rest =>
      match scan r, scan_all scan rest with
      | Some x, Some xs => Some (x :: xs)
      | _, _ => None
      end
  end.

(** [append] over a list of values. *)
Definition extend {A : Type} (s : slice A) (l : list A) : slice A :=
  fold_left append l s.

Definition with_cache_get_error (o : Oracle) (e : option error) : Oracle :=
  {| query_error := query_error o; rows_error := rows_error o;
     begin_error := begin_error o; exec_error := exec_error o;
     commit_error := commit_error o; cache_get_error := e;
     cache_set_error := cache_set_error o; publish_error := publish_error o;
     clock := clock o; serial := serial o;
     default_project := default_project o |}.

Definition with_cache_set_error (o : Oracle) (e : option error) : Oracle :=
  {| query_error := query_error o; rows_error := rows_error o;
     begin_error := begin_error o; exec_error := exec_error o;
     commit_error := commit_error o; cache_get_error := cache_get_error o;
     cache_set_error := e; publish_error := publish_error o;
     clock := clock o; serial := serial o;
     default_project := default_project o |}.

(** One of the three steps of the write is refused by the store. *)
Definition write_fails (o : Oracle) : Prop :=
  begin_error o <> None \/ exec_error o <> None \/ commit_error o <> None.

(** SELECT COALESCE(MAX(priority), 0) fails, or its value does not fit. *)
Definition read_fails (o : Oracle) (w : World) : Prop :=
  (exists e, query_error o = Some e /\ is_ErrNoRows e = false)
  \/ (query_error o = None /\ scan_int (max_priority (tbl_goods w)) = None).

(** The calls a run added to the log. *)
Definition new_calls (w w' : World) : list Call :=
  skipn (length (calls w)) (calls w').

(** The handler answers 500 and the relation is as it was. *)
Definition refused (h : M Response) (w : World) : Prop :=
  status (snd (run h w)) = 500 /\ tbl_goods (fst (run h w)) = tbl_goods w.

(** The last call of the run is the deferred Rollback, and no transaction
    is left open. *)
Definition rolled_back (h : M Response) (w : World) : Prop :=
  List.last (new_calls w (fst (run h w))) Begin = Rollback
  /\ tx (fst (run h w)) = None.

(** Commit is only ever called after Begin and Exec went through. *)
Definition commit_follows_exec (o : Oracle) (h : M Response) (w : World)
  : Prop :=
  In Commit (new_calls w (fst (run h w))) ->
  begin_error o = None /\ exec_error o = None.

(** *** Kinds of answers *)

(** http.Error: the status, a plain text content type and an error line. *)
Definition plain_error (r : Response) (code : Z) : Prop :=
  status r = code
  /\ content_type r = Some "text/plain; charset=utf-8"%string
  /\ exists e, body r = ErrorText e.

(** respondWithJSON: the status, the JSON content type and what the
    encoder wrote. *)
Definition json_answer (r : Response) (code : Z) : Prop :=
  status r = code
  /\ content_type r = Some "application/json"%string
  /\ exists text, body r = Written text.

(** What one run may add to the messages: nothing, or one message on the
    given subject. *)
Definition published_at_most (subject : string) (w w' : World) : Prop :=
  published w' = published w
  \/ exists data, published w' = published w ++ [(subject, data)].

(** The read of the maximum and the three steps of the write all go
    through. *)
Definition writes_through (o : Oracle) : Prop :=
  query_error o = None /\ begin_error o = None
  /\ exec_error o = None /\ commit_error o = None.

(** The text is a JSON value that a struct can take: an object or null. *)
Definition object_or_null (j : json) : bool :=
  match j with
  | JObj _ | JNull => true
  | _ => false
  end.

(** *** What the encoder writes and the decoder reads back

    The conditions on the library parts under which encoding/json reads a
    good back from its own encoding. *)

(** The text written for a string is a string literal, read back as the
    string. *)
Definition string_reads_back (s : string) : bool :=
  JSONText.is_literal (quote s) && String.eqb (unquote (quote s)) s.

(** The time can be written, as a string literal that is read back as the
    same time. *)
Definition time_reads_back (t : Time) : Prop :=
  exists x, formatTime t = Some x /\ JSONText.is_literal x = true
            /\ parseTime x = Some t.

(** The json tags are keys written without escapes. *)
Definition keys_read_back : bool :=
  forallb (fun f => String.eqb (unquote (tag f)) (tag f)) goods_fields.

(** The three integers are values of Go's [int]. *)
Definition ints_fit (g : Goods) : bool :=
  GoInt.in_range (ID g) && GoInt.in_range (ProjectID g)
  && GoInt.in_range (Priority g).

Definition texts_read_back (g : Goods) : Prop :=
  string_reads_back (Name g) = true
  /\ string_reads_back (Description g) = true
  /\ time_reads_back (CreatedAt g).

Definition reads_back (g : Goods) : Prop :=
  ints_fit g = true /\ texts_read_back g.

End Program.

(** ** A reference instance of the library parameters

    Enough of the libraries to run the handlers on concrete requests: a
    time is kept as the RFC 3339 text Go prints for it, and only times in
    UTC with whole seconds are read; strings are those that encoding/json
    writes between quotes unchanged (printable ASCII without quote,
    backslash, [<], [>] and [&]); keys are folded over ASCII letters. *)

Module Reference.

Definition Time : Type := string.

Definition zeroTime : Time := "0001-01-01T00:00:00Z".

Definition two_digits (a b : ascii) : option nat :=
  if JSONText.is_digit a && JSONText.is_digit b
  then Some (10 * (nat_of_ascii a - 48) + (nat_of_ascii b - 48))%nat
  else None.

Definition leap (y : nat) : bool :=
  ((y mod 4 =? 0) && negb (y mod 100 =? 0) || (y mod 400 =? 0))%nat.

Definition days_in (y m : nat) : nat :=
  match m with
  | 2%nat => if leap y then 29 else 28
  | 4%nat | 6%nat | 9%nat | 11%nat => 30
  | _ => 31
  end.

(** Accepts exactly YYYY-MM-DDTHH:MM:SSZ with fields in range. *)
Definition parseTime (raw : string) : option Time :=
  match list_ascii_of_string raw with
  | [y1; y2; y3; y4; "-"%char; m1; m2; "-"%char; d1; d2; "T"%char;
     h1; h2; ":"%char; n1; n2; ":"%char; s1; s2; "Z"%char] =>
      match two_digits y1 y2, two_digits y3 y4, two_digits m1 m2,
            two_digits d1 d2, two_digits h1 h2, two_digits n1 n2,
            two_digits s1 s2 with
      | Some yh, Some yl, Some m, Some d, Some h, Some n, Some s =>
          if ((1 <=? m) && (m <=? 12) && (1 <=? d)
              && (d <=? days_in (100 * yh + yl) m)
              && (h <=? 23) && (n <=? 59) && (s <=? 59))%nat
          then Some raw
          else None
      | _, _, _, _, _, _, _ => None
      end
  | _ => None
  end.

Definition formatTime (t : Time) : option string := Some t.

Definition quote (s : string) : string := s.

Definition unquote (raw : string) : string := raw.

Definition lower (c : ascii) : ascii :=
  let n := nat_of_ascii c in
  if ((65 <=? n) && (n <=? 90))%nat then ascii_of_nat (n + 32) else c.

Fixpoint lower_string (s : string) : string :=
  match s with
  | EmptyString => EmptyString
  | String c r => String (lower c) (lower_string r)
  end.

Definition equal_fold (a b : string) : bool :=
  String.eqb (lower_string a) (lower_string b).

(** Under [%s] an int and a bool print as a complaint about the verb, a
    string as itself and a time through its [String] method. *)
Definition sprint_time (t : Time) : string :=
  String.substring 0 10 t +:+ " " +:+ String.substring 11 8 t +:+ " +0000 UTC".

Definition sprint_int (z : Z) : string := "%!s(int=" +:+ pretty z +:+ ")".

Definition sprint_bool (b : bool) : string :=
  "%!s(bool=" +:+ (if b then "true" else "false") +:+ ")".

Definition sprint_good (g : @Goods Time) : string :=
  "{" +:+ JSONText.join " "
            [sprint_int (ID g); sprint_int (ProjectID g); Name g;
             Description g; sprint_int (Priority g); sprint_bool (Removed g);
             sprint_time (CreatedAt g)]
      +:+ "}".

Definition sprint_goods (s : slice (@Goods Time)) : string :=
  "[" +:+ JSONText.join " " (map sprint_good (elems s)) +:+ "]".

Definition createGood :=
  createGoodHandler zeroTime parseTime formatTime quote unquote equal_fold.
Definition listGoods :=
  listGoodsHandler zeroTime parseTime formatTime quote unquote equal_fold
                   sprint_goods.
Definition updateGood :=
  updateGoodHandler zeroTime parseTime formatTime quote unquote equal_fold.
Definition removeGood := @removeGoodHandler Time.
Definition reprioritizeGood :=
  reprioritizeGoodHandler zeroTime formatTime quote unquote equal_fold.
Definition listProjects := @listProjectsHandler Time formatTime quote.
Definition serve :=
  router zeroTime parseTime formatTime quote unquote equal_fold sprint_goods.
Definition decodeGood := Decode_Goods zeroTime parseTime unquote equal_fold.
Definition decodePriority := Decode_NewPriority unquote equal_fold.
Definition marshalGood := Marshal_Goods formatTime quote.
Definition respond := respondWithJSON formatTime quote.

(** An oracle under which every call succeeds. *)
Definition fair (now : Time) (id : Z) (project : option Z) : @Oracle Time :=
  {| query_error := None; rows_error := None; begin_error := None;
     exec_error := None; commit_error := None; cache_get_error := None;
     cache_set_error := None; publish_error := None;
     clock := now; serial := id; default_project := project |}.

Definition world_of (ps : list (@Projects Time)) (gs : list (@GoodsRow Time))
    (c : gmap string (string * Z)) : @World Time :=
  {| tbl_projects := ps; tbl_goods := gs; tx := None; cache := c;
     published := []; calls := [] |}.

Definition row (id : Z) (name : string) (priority : Z) : @GoodsRow Time :=
  {| r_id := id; r_project_id := Some 1; r_name := name;
     r_description := ""; r_priority := priority; r_removed := false;
     r_created_at := "2024-05-01T10:00:00Z"%string |}.

(** Requests and states used in the concrete runs. *)

Definition noon : Time := "2024-06-01T12:00:00Z".

Definition all_well : @Oracle Time := fair noon 3 None.

Definition broker_down : @Oracle Time :=
  {| query_error := None; rows_error := None; begin_error := None;
     exec_error := None; commit_error := None; cache_get_error := None;
     cache_set_error := None;
     publish_error := Some (DriverError "nats: connection closed");
     clock := noon; serial := 3; default_project := None |}.

Definition store_down : @Oracle Time :=
  {| query_error := None; rows_error := None; begin_error := None;
     exec_error := Some (DriverError "pq: connection refused");
     commit_error := None; cache_get_error := None;
     cache_set_error := None; publish_error := None;
     clock := noon; serial := 3; default_project := None |}.

Definition cache_down : @Oracle Time :=
  {| query_error := None; rows_error := None; begin_error := None;
     exec_error := None; commit_error := None;
     cache_get_error := Some (DriverError "redis: connection refused");
     cache_set_error := Some (DriverError "redis: connection refused");
     publish_error := None;
     clock := noon; serial := 3; default_project := None |}.

Definition two_goods : @World Time :=
  world_of [] [row 1 "a" 1; row 2 "b" 2] ∅.

Definition widget_body : string :=
  (JSONText.dq "{'id':7,'project_id':4,'name':'Widget','description':'d',")
  +:+ (JSONText.dq "'priority':99,'created_at':'2020-02-29T03:04:05Z'}").

Definition widget : @Goods Time :=
  {| ID := 7; ProjectID := 4; Name := "Widget"; Description := "d";
     Priority := 99; Removed := false;
     CreatedAt := "2020-02-29T03:04:05Z"%string |}.

(** [widget] as the create handler encodes it, with priority 3. *)
Definition widget_json : string :=
  (JSONText.dq "{'id':7,'project_id':4,'name':'Widget','description':'d',")
  +:+ (JSONText.dq "'priority':3,'removed':false,")
  +:+ (JSONText.dq "'created_at':'2020-02-29T03:04:05Z'}").

Definition gadget_body : string :=
  (JSONText.dq "{'project_id':9,'name':'Gadget'}").

Definition gadget : @Goods Time :=
  {| ID := 0; ProjectID := 9; Name := "Gadget"; Description := "";
     Priority := 0; Removed := false; CreatedAt := zeroTime |}.

Definition five_body : string := (JSONText.dq "{'newPriority': 5}").

Definition at_max_int : @World Time :=
  world_of [] [row 1 "a" GoInt.max_int] ∅.

Definition cached_text : string := (JSONText.dq "[{'id':1,'name':'a'}]").

Definition warm : @World Time :=
  world_of [] [row 1 "a" 1]
           (<["goods"%string := (cached_text, redisCacheTime)]> ∅).

(** A cached text that is JSON but whose element does not fit [Goods]. *)
Definition ill_typed : @World Time :=
  world_of [] [row 1 "a" 1]
           (<["goods"%string := ((JSONText.dq "[{'id':'x'}]"), redisCacheTime)]> ∅).

Definition two_goods_listed : list (@Goods Time) :=
  [ {| ID := 1; ProjectID := 1; Name := "a"; Description := "";
       Priority := 1; Removed := false;
       CreatedAt := "2024-05-01T10:00:00Z"%string |};
    {| ID := 2; ProjectID := 1; Name := "b"; Description := "";
       Priority := 2; Removed := false;
       CreatedAt := "2024-05-01T10:00:00Z"%string |} ].

Definition two_goods_json : string :=
  (JSONText.dq "[{'id':1,'project_id':1,'name':'a','description':'',")
  +:+ (JSONText.dq "'priority':1,'removed':false,")
  +:+ (JSONText.dq "'created_at':'2024-05-01T10:00:00Z'},")
  +:+ (JSONText.dq "{'id':2,'project_id':1,'name':'b','description':'',")
  +:+ (JSONText.dq "'priority':2,'removed':false,")
  +:+ (JSONText.dq "'created_at':'2024-05-01T10:00:00Z'}]").

Definition patch_reprioritize : Request :=
  {| method := "PATCH"; path := "/goods/reprioritize";
     request_body := five_body |}.

(** The read of the maximum reports that there is no row. *)
Definition no_rows : @Oracle Time :=
  {| query_error := Some ErrNoRows; rows_error := None; begin_error := None;
     exec_error := None; commit_error := None; cache_get_error := None;
     cache_set_error := None; publish_error := None;
     clock := noon; serial := 3; default_project := None |}.

(** [widget_body] without the id, the project and the creation time. *)
Definition bare_widget_body : string :=
  (JSONText.dq "{'name':'Widget','description':'d','priority':99}").

Definition bare_widget : @Goods Time :=
  {| ID := 0; ProjectID := 0; Name := "Widget"; Description := "d";
     Priority := 99; Removed := false; CreatedAt := zeroTime |}.

Definition widget_third : @Goods Time :=
  {| ID := 7; ProjectID := 4; Name := "Widget"; Description := "d";
     Priority := 3; Removed := false;
     CreatedAt := "2020-02-29T03:04:05Z"%string |}.

(** [widget] as the update handler encodes it. *)
Definition widget_update_json : string :=
  (JSONText.dq "{'id':7,'project_id':4,'name':'Widget','description':'d',")
  +:+ (JSONText.dq "'priority':99,'removed':false,")
  +:+ (JSONText.dq "'created_at':'2020-02-29T03:04:05Z'}").

Definition get_projects : Request :=
  {| method := "GET"; path := "/projects"; request_body := "" |}.

Definition post_projects : Request :=
  {| method := "POST"; path := "/projects"; request_body := "" |}.

(** The result set breaks off after its first row. *)
Definition rows_break : @Oracle Time :=
  {| query_error := None;
     rows_error := Some (1%nat, DriverError "pq: connection reset");
     begin_error := None; exec_error := None; commit_error := None;
     cache_get_error := None; cache_set_error := None; publish_error := None;
     clock := noon; serial := 3; default_project := None |}.



(** [Time.MarshalJSON] refuses a year outside 0..9999: of the texts that
    stand for times here, it writes those with a four-digit year, which are
    the ones [parseTime] reads. *)
Definition marshalTime (t : Time) : option string :=
  match parseTime t with
  | Some _ => Some t
  | None => None
  end.

(** A project created in the year 10000, and a store that holds it. *)
Definition late_project : @Projects Time :=
  {| p_ID := 1; p_Name := "p"; p_CreatedAt := "10000-01-01T00:00:00Z"%string |}.

Definition one_late_project : @World Time := world_of [late_project] [] ∅.

End Reference.

(** * Properties *)

Module GoIntFacts.
Import GoInt.

Lemma wrap_in_range z : in_range z = true -> wrap z = z.
Proof.
  unfold in_range, wrap, min_int, max_int; intros H.
  apply andb_true_iff in H as [H1 H2].
  apply Z.leb_le in H1, H2.
  rewrite Z.mod_small by lia. lia.
Qed.

Lemma add_one_below_max z :
  in_range z = true -> z < max_int -> add z 1 = z + 1.
Proof.
  intros H Hlt. unfold add. apply wrap_in_range.
  unfold in_range, min_int, max_int in *.
  apply andb_true_iff in H as [H1 H2].
  apply Z.leb_le in H1, H2.
  apply andb_true_iff; split; apply Z.leb_le; lia.
Qed.

Lemma add_one_at_max : add max_int 1 = min_int.
Proof. reflexivity. Qed.

End GoIntFacts.

Lemma skipn_app_exact {A : Type} (l k : list A) :
  skipn (length l) (l ++ k) = k.
Proof. induction l; simpl; auto. Qed.

(** * The parser reads back what the encoder writes *)

Module JSONTextFacts.

Import JSONText.

Lemma append_cons (x : ascii) (a b : string) :
  (String x a +:+ b = String x (a +:+ b))%string.
Proof. reflexivity. Qed.

Lemma append_nil_l (b : string) : ("" +:+ b = b)%string.
Proof. reflexivity. Qed.

Lemma append_assoc (a b c : string) :
  ((a +:+ b) +:+ c = a +:+ (b +:+ c))%string.
Proof.
  induction a as [|x a IH]; [reflexivity|]. rewrite !append_cons, IH. reflexivity.
Qed.

Lemma append_nil_r (a : string) : (a +:+ "" = a)%string.
Proof.
  induction a as [|x a IH]; [reflexivity|]. rewrite append_cons, IH. reflexivity.
Qed.

Lemma length_append (a b : string) :
  String.length (a +:+ b) = (String.length a + String.length b)%nat.
Proof.
  induction a as [|x a IH]; [reflexivity|].
  rewrite append_cons. cbn [String.length]. rewrite IH. reflexivity.
Qed.

Lemma is_digit_cases (c : ascii) :
  is_digit c = true ->
  In c ["0"; "1"; "2"; "3"; "4"; "5"; "6"; "7"; "8"; "9"]%char.
Proof.
  destruct c as [[] [] [] [] [] [] [] []]; intros H;
    try discriminate H; cbn; tauto.
Qed.

Lemma digits_app (d rest : string) :
  all_digits d = true -> stops rest ->
  digits (d +:+ rest) = (d, rest).
Proof.
  intros Hd Hs. induction d as [|c d IH].
  - rewrite append_nil_l. destruct rest as [|c r]; [reflexivity|].
    cbn [digits]. destruct Hs as [-> _]. reflexivity.
  - cbn [all_digits] in Hd. apply andb_true_iff in Hd as [Hc Hd].
    rewrite append_cons. cbn [digits]. rewrite Hc, (IH Hd). reflexivity.
Qed.

Lemma scan_frac_stops (rest : string) :
  stops rest -> scan_frac rest = Some (EmptyString, rest).
Proof.
  destruct rest as [|c r]; [reflexivity|]. intros (_ & Hp & _).
  destruct c as [[] [] [] [] [] [] [] []]; try reflexivity. congruence.
Qed.

Lemma scan_exp_stops (rest : string) :
  stops rest -> scan_exp rest = Some (EmptyString, rest).
Proof.
  destruct rest as [|c r]; [reflexivity|]. intros (_ & _ & He & HE).
  unfold scan_exp.
  destruct (Ascii.eqb_spec c "e"); [congruence|].
  destruct (Ascii.eqb_spec c "E"); [congruence|]. reflexivity.
Qed.

Lemma decimal_app (a b : string) (acc : Z) :
  decimal (a +:+ b) acc
  = match decimal a acc with
    | Some v => decimal b v
    | None => None
    end.
Proof.
  revert acc. induction a as [|c a IH]; intros acc; [reflexivity|].
  rewrite append_cons. cbn [decimal].
  case (is_digit c); [apply IH|reflexivity].
Qed.

Lemma pretty_N_char_digit (x : N) :
  (x < 10)%N ->
  is_digit (pretty_N_char x) = true
  /\ Z.of_nat (nat_of_ascii (pretty_N_char x)) - 48 = Z.of_N x
  /\ (x <> 0%N -> pretty_N_char x <> "0"%char).
Proof.
  intros H.
  assert (x = 0 \/ x = 1 \/ x = 2 \/ x = 3 \/ x = 4 \/ x = 5 \/ x = 6
          \/ x = 7 \/ x = 8 \/ x = 9)%N as Hx by lia.
  repeat (destruct Hx as [->|Hx]); try subst x;
    (split; [reflexivity|split; [reflexivity|]]); intros Hn;
    try congruence; discriminate.
Qed.

Lemma all_digits_snoc (d : string) (c : ascii) :
  all_digits d = true -> is_digit c = true ->
  all_digits (d +:+ String c EmptyString) = true.
Proof.
  intros Hall Hc. induction d as [|y d IHd].
  - rewrite append_nil_l. cbn [all_digits]. rewrite Hc. reflexivity.
  - rewrite append_cons. cbn [all_digits] in *.
    apply andb_true_iff in Hall as [Hy Hall]. rewrite Hy. auto.
Qed.

(** The digits [pretty] writes for a positive number. *)
Lemma pretty_N_go_spec (x : N) :
  (0 < x)%N ->
  exists c d,
    (forall s, pretty_N_go x s = String c (d +:+ s))
    /\ is_digit c = true /\ c <> "0"%char /\ all_digits d = true
    /\ decimal (String c d) 0 = Some (Z.of_N x).
Proof.
  induction (N.lt_wf_0 x) as [x _ IH]. intros Hx.
  assert (Hm : (x mod 10 < 10)%N) by (apply N.mod_lt; lia).
  destruct (pretty_N_char_digit _ Hm) as (Hd & Hv & Hz).
  destruct (N.eq_dec (x / 10)%N 0%N) as [Hq|Hq].
  - exists (pretty_N_char (x mod 10)), EmptyString.
    assert (Hsmall : (x mod 10 = x)%N).
    { pose proof (N.div_mod x 10%N ltac:(lia)). lia. }
    split; [|split; [exact Hd|split; [|split; [reflexivity|]]]].
    + intros s. rewrite pretty_N_go_step by exact Hx.
      rewrite Hq, pretty_N_go_0. reflexivity.
    + apply Hz. rewrite Hsmall. lia.
    + cbn [decimal]. rewrite Hd. cbn [decimal]. f_equal. lia.
  - destruct (IH (x / 10)%N) as (c & d & Hgo & Hc & Hc0 & Hall & Hval).
    { apply N.div_lt; lia. }
    { apply N.neq_0_lt_0. exact Hq. }
    exists c, (d +:+ String (pretty_N_char (x mod 10)) EmptyString)%string.
    split; [|split; [exact Hc|split; [exact Hc0|split]]].
    + intros s. rewrite pretty_N_go_step by exact Hx. rewrite Hgo.
      rewrite append_assoc. reflexivity.
    + apply all_digits_snoc; assumption.
    + rewrite <- append_cons, decimal_app, Hval. cbn [decimal]. rewrite Hd.
      cbn [decimal]. f_equal. pose proof (N.div_mod x 10%N ltac:(lia)). lia.
Qed.

(** ** Well-formed trees *)

(** ** Numbers as [pretty] writes them *)

Lemma scan_number_digits (c : ascii) (d rest : string) :
  is_digit c = true -> c <> "0"%char -> all_digits d = true ->
  stops rest ->
  scan_number (String c (d +:+ rest)) = Some (String c d, rest).
Proof.
  intros Hc Hc0 Hd Hs. apply is_digit_cases in Hc.
  repeat (destruct Hc as [<-|Hc]); try congruence; try destruct Hc;
    unfold scan_number, scan_int_part;
    cbn -[digits scan_frac scan_exp append];
    rewrite (digits_app d rest Hd Hs);
    match goal with
    | |- context [is_digit ?x] =>
        change (is_digit x) with true
    end;
    cbn -[scan_frac scan_exp append];
    rewrite (scan_frac_stops rest Hs), (scan_exp_stops rest Hs);
    rewrite ?append_nil_l, ?append_cons, ?append_nil_r; reflexivity.
Qed.

Lemma scan_number_zero (rest : string) :
  stops rest -> scan_number (String "0" rest) = Some ("0"%string, rest).
Proof.
  intros Hs. unfold scan_number, scan_int_part.
  cbn -[scan_frac scan_exp append].
  rewrite (scan_frac_stops rest Hs), (scan_exp_stops rest Hs). reflexivity.
Qed.

Lemma scan_number_minus (c : ascii) (d rest : string) :
  is_digit c = true -> c <> "0"%char -> all_digits d = true ->
  stops rest ->
  scan_number (String "-" (String c (d +:+ rest)))
  = Some (String "-" (String c d), rest).
Proof.
  intros Hc Hc0 Hd Hs.
  pose proof (scan_number_digits c d rest Hc Hc0 Hd Hs) as H.
  apply is_digit_cases in Hc.
  repeat (destruct Hc as [<-|Hc]); try congruence; try destruct Hc;
    unfold scan_number in *;
    cbn -[scan_int_part scan_frac scan_exp append]
      in *;
    (destruct (scan_int_part _) as [[i s2]|]; [|discriminate H]);
    (destruct (scan_frac s2) as [[f s3]|]; [|discriminate H]);
    (destruct (scan_exp s3) as [[e s4]|]; [|discriminate H]);
    rewrite ?append_nil_l, ?append_cons in *;
    injection H as <- <-; reflexivity.
Qed.

Lemma pretty_pos (p : positive) :
  exists c d,
    pretty (Zpos p) = String c d
    /\ is_digit c = true /\ c <> "0"%char /\ all_digits d = true
    /\ decimal (String c d) 0 = Some (Zpos p).
Proof.
  destruct (pretty_N_go_spec (Npos p) ltac:(lia))
    as (c & d & Hgo & Hc & Hc0 & Hall & Hval).
  exists c, d. split; [|auto].
  change (pretty (Zpos p)) with (pretty_N_go (Npos p) "").
  rewrite Hgo, append_nil_r. reflexivity.
Qed.

(** What [pretty] writes is a number literal. *)
Lemma pretty_number_text (z : Z) : number_text (pretty z).
Proof.
  destruct z as [|p|p].
  - exists "0"%char, EmptyString. split; [reflexivity|].
    split; [right; reflexivity|]. intros rest Hs.
    apply scan_number_zero, Hs.
  - destruct (pretty_pos p) as (c & d & Hp & Hc & Hc0 & Hall & _).
    exists c, d. split; [exact Hp|]. split; [right; exact Hc|].
    intros rest Hs. rewrite Hp, append_cons.
    apply scan_number_digits; assumption.
  - destruct (pretty_pos p) as (c & d & Hp & Hc & Hc0 & Hall & _).
    exists "-"%char, (String c d). split.
    + change (pretty (Zneg p)) with ("-" +:+ pretty (Zpos p))%string.
      rewrite Hp. reflexivity.
    + split; [left; reflexivity|]. intros rest Hs.
      change (pretty (Zneg p)) with ("-" +:+ pretty (Zpos p))%string.
      rewrite Hp, !append_cons, append_nil_l.
      apply scan_number_minus; assumption.
Qed.

(** [strconv.ParseInt] reads back what [pretty] writes. *)
Lemma parse_int_pretty (z : Z) :
  GoInt.in_range z = true -> parse_int (pretty z) = Some z.
Proof.
  intros Hr. destruct z as [|p|p].
  - reflexivity.
  - destruct (pretty_pos p) as (c & d & Hp & Hc & Hc0 & Hall & Hval).
    rewrite Hp. apply is_digit_cases in Hc.
    repeat (destruct Hc as [<-|Hc]); try congruence; try destruct Hc;
      unfold parse_int; rewrite Hval, Hr; reflexivity.
  - destruct (pretty_pos p) as (c & d & Hp & Hc & Hc0 & Hall & Hval).
    change (pretty (Zneg p)) with ("-" +:+ pretty (Zpos p))%string.
    rewrite Hp, append_cons, append_nil_l. unfold parse_int.
    rewrite Hval. change (- Zpos p) with (Zneg p). rewrite Hr. reflexivity.
Qed.

(** ** Parsing what [render] writes *)

Lemma join_cons (sep x y : string) (r : list string) :
  join sep (x :: y :: r)
  = (x +:+ sep +:+ join sep (y :: r))%string.
Proof.
  unfold join. cbn [fold_left]. revert x y.
  induction r as [|z r IH]; intros x y; cbn [fold_left]; [reflexivity|].
  rewrite (IH (x +:+ sep +:+ y)%string z), (IH y z).
  rewrite !append_assoc. reflexivity.
Qed.

Lemma render_head (j : json) :
  well_formed j -> exists c s, render j = String c s /\ In c heads.
Proof.
  destruct j as [|[]|lit|raw|l|ms]; intros Hw;
    try (eexists _, _; split; [reflexivity|cbn; tauto]).
  destruct Hw as (c & r & -> & Hc & _).
  exists c, r. split; [reflexivity|].
  destruct Hc as [->|Hc]; [cbn; tauto|].
  apply is_digit_cases in Hc. cbn in *. tauto.
Qed.

Lemma stops_after_value (c : ascii) (s : string) :
  In c [","; "]"; "}"]%char -> stops (String c s).
Proof.
  intros [<-|[<-|[<-|[]]]]; cbn; repeat split; congruence.
Qed.

Lemma parse_number (fuel : nat) (lit rest : string) :
  number_text lit -> stops rest ->
  parse_value (S fuel) (lit +:+ rest) = Some (JNum lit, rest).
Proof.
  intros (c & r & -> & Hc & Hscan) Hs.
  specialize (Hscan rest Hs). rewrite append_cons in *.
  assert (Hh : In c ["-"; "0"; "1"; "2"; "3"; "4"; "5"; "6"; "7"; "8"; "9"]%char).
  { destruct Hc as [->|Hc]; [cbn; tauto|].
    apply is_digit_cases in Hc. cbn in *. tauto. }
  repeat (destruct Hh as [<-|Hh]); try destruct Hh;
    cbn -[scan_number append]; rewrite Hscan; reflexivity.
Qed.

Lemma parse_array_head (fuel : nat) (c : ascii) (s : string) :
  In c heads ->
  parse_value (S fuel) (String "[" (String c s))
  = match parse_elems fuel (String c s) with
    | Some (l, rest) => Some (JArr l, rest)
    | None => None
    end.
Proof.
  intros H. unfold heads in H.
  repeat (destruct H as [<-|H]); try destruct H; reflexivity.
Qed.

Lemma parse_elems_step (fuel : nat) (s : string) :
  parse_elems (S fuel) s
  = match parse_value fuel s with
    | None => None
    | Some (v, rest) =>
        match skip_space rest with
        | String "]" rest' => Some ([v], rest')
        | String "," rest' =>
            match parse_elems fuel rest' with
            | Some (l, rest'') => Some (v :: l, rest'')
            | None => None
            end
        | _ => None
        end
    end.
Proof. reflexivity. Qed.

Lemma parse_members_step (fuel : nat) (r : string) :
  parse_members (S fuel) (String "034" r)
  = match scan_string r with
    | None => None
    | Some (key, r1) =>
        match skip_space r1 with
        | String ":" r2 =>
            match parse_value fuel r2 with
            | None => None
            | Some (v, rest) =>
                match skip_space rest with
                | String "}" rest' => Some ([(key, v)], rest')
                | String "," rest' =>
                    match parse_members fuel rest' with
                    | Some (l, rest'') => Some ((key, v) :: l, rest'')
                    | None => None
                    end
                | _ => None
                end
            end
        | _ => None
        end
    end.
Proof. reflexivity. Qed.

Lemma parse_object_head (fuel : nat) (s : string) :
  parse_value (S fuel) (String "{" (String "034" s))
  = match parse_members fuel (String "034" s) with
    | Some (l, rest) => Some (JObj l, rest)
    | None => None
    end.
Proof. reflexivity. Qed.

Lemma nodes_array (l : list json) : nodes (JArr l) = S (elem_nodes l).
Proof. reflexivity. Qed.

Lemma nodes_object (ms : list (string * json)) :
  nodes (JObj ms) = S (member_nodes ms).
Proof. reflexivity. Qed.

Lemma well_formed_array_cons (e : json) (l : list json) :
  well_formed (JArr (e :: l)) <-> well_formed e /\ well_formed (JArr l).
Proof. reflexivity. Qed.

Lemma well_formed_object_cons (kv : string * json) (ms : list (string * json)) :
  well_formed (JObj (kv :: ms))
  <-> literal_text (fst kv) /\ well_formed (snd kv) /\ well_formed (JObj ms).
Proof. reflexivity. Qed.

Lemma render_array (l : list json) :
  render (JArr l)
  = ("[" +:+ join "," (map render l) +:+ "]")%string.
Proof. reflexivity. Qed.

Lemma render_object (ms : list (string * json)) :
  render (JObj ms)
  = ("{" +:+ join "," (map member_text ms) +:+ "}")%string.
Proof. reflexivity. Qed.

Lemma prefix_app (a b : string) : String.prefix a (a +:+ b) = true.
Proof.
  induction a as [|x a IH]; [destruct b; reflexivity|].
  rewrite append_cons. cbn [String.prefix].
  destruct (ascii_dec x x); [exact IH|congruence].
Qed.

Lemma substring_all (b : string) : String.substring 0 (String.length b) b = b.
Proof.
  induction b as [|x b IH]; [reflexivity|].
  cbn [String.length String.substring]. rewrite IH. reflexivity.
Qed.

Lemma substring_skip (a b : string) (n : nat) :
  String.substring (String.length a) n (a +:+ b) = String.substring 0 n b.
Proof.
  induction a as [|x a IH]; [reflexivity|].
  rewrite append_cons. cbn [String.length String.substring]. exact IH.
Qed.

Lemma expect_app (word rest : string) :
  expect word (word +:+ rest) = Some rest.
Proof.
  unfold expect. rewrite prefix_app, substring_skip.
  rewrite length_append.
  replace (String.length word + String.length rest - String.length word)%nat
    with (String.length rest) by lia.
  rewrite substring_all. reflexivity.
Qed.

Lemma nodes_pos (j : json) : (1 <= nodes j)%nat.
Proof. destruct j; cbn [nodes]; lia. Qed.

Lemma join_head (e : json) (l : list json) :
  well_formed e ->
  exists c s,
    join "," (map render (e :: l)) = String c s
    /\ In c heads.
Proof.
  intros He. destruct (render_head e He) as (c & s & Hr & Hc).
  destruct l as [|e' l].
  - exists c, s. split; [exact Hr|exact Hc].
  - cbn [map]. rewrite join_cons, Hr, append_cons. eauto.
Qed.

Section Step.

Variable n : nat.
Hypothesis parse_smaller :
  forall j, (nodes j <= n)%nat -> well_formed j ->
  forall fuel rest, (nodes j <= fuel)%nat -> stops rest ->
  parse_value fuel (render j +:+ rest) = Some (j, rest).

Lemma parse_rendered_elems (l : list json) :
  l <> [] -> (elem_nodes l <= n)%nat -> well_formed (JArr l) ->
  forall fuel rest,
    (elem_nodes l <= fuel)%nat ->
    parse_elems fuel
      (join "," (map render l) +:+ "]" +:+ rest)
    = Some (l, rest).
Proof.
  induction l as [|e l IH]; [congruence|]. intros _ Hn Hw fuel rest Hf.
  apply well_formed_array_cons in Hw as [He Hl].
  cbn [elem_nodes fold_right] in Hn, Hf. fold (elem_nodes l) in Hn, Hf.
  destruct fuel as [|fuel]; [lia|]. rewrite parse_elems_step.
  destruct l as [|e' l].
  - cbn [map]. change (join "," [render e])
      with (render e).
    rewrite !append_cons, !append_nil_l.
    rewrite (parse_smaller e ltac:(lia) He fuel _ ltac:(lia)
               (stops_after_value "]" rest ltac:(cbn; tauto))).
    reflexivity.
  - cbn [map]. rewrite join_cons, !append_assoc.
    rewrite !append_cons, !append_nil_l.
    rewrite (parse_smaller e ltac:(lia) He fuel _ ltac:(lia)
               (stops_after_value "," _ ltac:(cbn; tauto))).
    cbn [skip_space is_space].
    change (join "," (render e' :: map render l))
      with (join "," (map render (e' :: l))).
    change (String "]" rest) with ("]" +:+ rest)%string.
    rewrite (IH ltac:(discriminate) ltac:(lia) Hl fuel rest ltac:(lia)).
    reflexivity.
Qed.

Lemma parse_rendered_members (ms : list (string * json)) :
  ms <> [] -> (member_nodes ms <= n)%nat -> well_formed (JObj ms) ->
  forall fuel rest,
    (member_nodes ms <= fuel)%nat ->
    parse_members fuel
      (join "," (map member_text ms) +:+ "}" +:+ rest)
    = Some (ms, rest).
Proof.
  induction ms as [|[k v] ms IH]; [congruence|]. intros _ Hn Hw fuel rest Hf.
  apply well_formed_object_cons in Hw as (Hk & Hv & Hms). cbn [fst snd] in Hk, Hv.
  cbn [member_nodes fold_right snd] in Hn, Hf.
  fold (member_nodes ms) in Hn, Hf.
  destruct fuel as [|fuel]; [lia|].
  destruct ms as [|kv' ms].
  - cbn [map]. change (join "," [member_text (k, v)])
      with (member_text (k, v)).
    unfold member_text, dquote. cbn [fst snd].
    rewrite !append_assoc, !append_cons, !append_nil_l.
    rewrite parse_members_step.
    pose proof (Hk (String ":" (render v +:+ String "}" rest)))
      as Hk'.
    unfold dquote in Hk'. rewrite append_cons, append_nil_l in Hk'.
    rewrite Hk'.
    cbn [skip_space is_space].
    rewrite (parse_smaller v ltac:(lia) Hv fuel _ ltac:(lia)
               (stops_after_value "}" rest ltac:(cbn; tauto))).
    reflexivity.
  - cbn [map]. rewrite join_cons.
    unfold member_text at 1. unfold dquote. cbn [fst snd].
    rewrite !append_assoc, !append_cons, !append_nil_l.
    rewrite parse_members_step.
    pose proof (Hk (String ":" (render v +:+ String ","
                      (join "," (member_text kv' :: map member_text ms)
                       +:+ String "}" rest)))) as Hk'.
    unfold dquote in Hk'. rewrite append_cons, append_nil_l in Hk'.
    rewrite Hk'.
    cbn [skip_space is_space].
    rewrite (parse_smaller v ltac:(lia) Hv fuel _ ltac:(lia)
               (stops_after_value "," _ ltac:(cbn; tauto))).
    cbn [skip_space is_space].
    change (join "," (member_text kv' :: map member_text ms))
      with (join "," (map member_text (kv' :: ms))).
    change (String "}" rest) with ("}" +:+ rest)%string.
    rewrite (IH ltac:(discriminate) ltac:(lia) Hms fuel rest ltac:(lia)).
    reflexivity.
Qed.

End Step.

(** The parser reads back what [render] writes, with fuel from the nodes
    of the tree on. *)
Lemma parse_rendered_bounded (n : nat) :
  forall j, (nodes j <= n)%nat -> well_formed j ->
  forall fuel rest, (nodes j <= fuel)%nat -> stops rest ->
  parse_value fuel (render j +:+ rest) = Some (j, rest).
Proof.
  induction n as [|n IH]; intros j Hn Hw fuel rest Hf Hs.
  { pose proof (nodes_pos j). lia. }
  destruct fuel as [|fuel]; [pose proof (nodes_pos j); lia|].
  destruct j as [|[]|lit|raw|l|ms].
  - change (render JNull +:+ rest)%string
      with (String "n" ("ull" +:+ rest)).
    cbn [parse_value skip_space is_space].
    rewrite expect_app. reflexivity.
  - change (render (JBool true) +:+ rest)%string
      with (String "t" ("rue" +:+ rest)).
    cbn [parse_value skip_space is_space].
    rewrite expect_app. reflexivity.
  - change (render (JBool false) +:+ rest)%string
      with (String "f" ("alse" +:+ rest)).
    cbn [parse_value skip_space is_space].
    rewrite expect_app. reflexivity.
  - apply parse_number; assumption.
  - cbn [render]. unfold dquote.
    rewrite !append_assoc, !append_cons, !append_nil_l.
    cbn [parse_value skip_space is_space].
    pose proof (Hw rest) as Hraw. unfold dquote in Hraw.
    rewrite append_cons, append_nil_l in Hraw. rewrite Hraw. reflexivity.
  - destruct l as [|e l]; [reflexivity|].
    rewrite nodes_array in Hn, Hf.
    rewrite render_array, !append_assoc, !append_cons, !append_nil_l.
    pose proof Hw as Hw'. apply well_formed_array_cons in Hw' as [He _].
    destruct (join_head e l He) as (c & s & Hj & Hc).
    pose proof (parse_rendered_elems n IH (e :: l) ltac:(discriminate)
                  ltac:(lia) Hw fuel rest ltac:(lia)) as Hel.
    rewrite Hj in Hel |- *. rewrite !append_cons, ?append_nil_l in Hel.
    rewrite ?append_cons, ?append_nil_l.
    rewrite parse_array_head by exact Hc.
    rewrite Hel. reflexivity.
  - destruct ms as [|kv ms]; [reflexivity|].
    rewrite nodes_object in Hn, Hf.
    rewrite render_object, !append_assoc, !append_cons, !append_nil_l.
    pose proof (parse_rendered_members n IH (kv :: ms) ltac:(discriminate)
                  ltac:(lia) Hw fuel rest ltac:(lia)) as Hel.
    assert (Hj : exists s, join "," (map member_text (kv :: ms))
                           = String "034" s).
    { destruct ms as [|kv' ms]; cbn [map].
      - eexists. reflexivity.
      - rewrite join_cons. eexists. reflexivity. }
    destruct Hj as (s & Hj). rewrite Hj in Hel |- *.
    rewrite !append_cons, ?append_nil_l in Hel. rewrite ?append_cons, ?append_nil_l.
    rewrite parse_object_head, Hel. reflexivity.
Qed.

Lemma join_length_cons (x y : string) (r : list string) :
  String.length (join "," (x :: y :: r))
  = (String.length x + 1 + String.length (join "," (y :: r)))%nat.
Proof. rewrite join_cons, !length_append. cbn [String.length]. lia. Qed.

(** A well-formed tree is no larger than its text is long. *)
Lemma nodes_le_length (n : nat) :
  forall j, (nodes j <= n)%nat -> well_formed j ->
  (nodes j <= String.length (render j))%nat.
Proof.
  induction n as [|n IH]; intros j Hn Hw.
  { pose proof (nodes_pos j). lia. }
  destruct j as [|[]|lit|raw|l|ms]; try (cbn; lia).
  - destruct Hw as (c & r & -> & _). cbn. lia.
  - cbn [render nodes]. unfold dquote.
    rewrite !length_append. cbn [String.length]. lia.
  - rewrite nodes_array in *. rewrite render_array, !length_append.
    cbn [String.length].
    assert (Hl : (elem_nodes l
                  <= String.length (join "," (map render l))
                     + 1)%nat).
    { assert (Hm : (elem_nodes l <= n)%nat) by lia. clear -IH Hm Hw.
      induction l as [|e l IHl]; [cbn; lia|].
      apply well_formed_array_cons in Hw as [He Hl].
      cbn [elem_nodes fold_right] in Hm |- *. fold (elem_nodes l) in Hm |- *.
      pose proof (IH e ltac:(lia) He) as Hsz.
      specialize (IHl Hl ltac:(lia)).
      destruct l as [|e' l].
      - cbn [map elem_nodes fold_right].
        change (join "," [render e])
          with (render e). lia.
      - cbn [map]. rewrite join_length_cons. cbn [map] in IHl. lia. }
    lia.
  - rewrite nodes_object in *. rewrite render_object, !length_append.
    cbn [String.length].
    assert (Hl : (member_nodes ms
                  <= String.length (join "," (map member_text ms))
                     + 1)%nat).
    { assert (Hm : (member_nodes ms <= n)%nat) by lia. clear -IH Hm Hw.
      induction ms as [|[k v] ms IHl]; [cbn; lia|].
      apply well_formed_object_cons in Hw as (_ & Hv & Hms). cbn [snd] in Hv.
      cbn [member_nodes fold_right snd] in Hm |- *.
      fold (member_nodes ms) in Hm |- *.
      pose proof (IH v ltac:(lia) Hv) as Hsz.
      specialize (IHl Hms ltac:(lia)).
      assert (Hmem : (nodes v + 1 <= String.length (member_text (k, v)))%nat).
      { unfold member_text, dquote. cbn [fst snd].
        rewrite !length_append. cbn [String.length]. lia. }
      destruct ms as [|kv' ms].
      - cbn [map member_nodes fold_right].
        change (join "," [member_text (k, v)])
          with (member_text (k, v)). lia.
      - cbn [map]. rewrite join_length_cons. cbn [map] in IHl. lia. }
    lia.
Qed.

(** [json.Unmarshal]'s reading of a rendered well-formed tree is the tree. *)
Theorem whole_value_render (j : json) :
  well_formed j -> whole_value (render j) = Some j.
Proof.
  intros Hw. unfold whole_value.
  pose proof (nodes_le_length (nodes j) j ltac:(lia) Hw) as Hlen.
  pose proof (parse_rendered_bounded (nodes j) j ltac:(lia) Hw
                (parse_fuel (render j)) EmptyString) as Hp.
  rewrite append_nil_r in Hp. rewrite Hp; [reflexivity| |exact I].
  unfold parse_fuel. lia.
Qed.

Lemma scan_string_app (n : nat) :
  forall s raw tail rest,
    (String.length s <= n)%nat ->
    scan_string s = Some (raw, tail) ->
    scan_string (s +:+ rest) = Some (raw, tail +:+ rest).
Proof.
  induction n as [|n IH]; intros s raw tail rest Hn H.
  { destruct s; [discriminate H|cbn in Hn; lia]. }
  destruct s as [|c r]; [discriminate H|].
  cbn [String.length] in Hn. rewrite append_cons.
  destruct (ascii_dec c "\") as [->|Hb].
  - destruct r as [|c2 r2]; [discriminate H|]. rewrite append_cons.
    cbn [String.length] in Hn.
    destruct (ascii_dec c2 "u") as [->|Hu].
    + destruct r2 as [|h1 [|h2 [|h3 [|h4 r']]]]; try discriminate H.
      rewrite !append_cons. cbn [scan_string] in H |- *.
      destruct (is_hex h1 && is_hex h2 && is_hex h3
                && is_hex h4); [|discriminate H].
      destruct (scan_string r') as [[raw' tail']|] eqn:E;
        [|discriminate H].
      injection H as <- <-.
      rewrite (IH r' raw' tail' rest); [reflexivity| |exact E].
      cbn [String.length] in Hn. lia.
    + destruct c2 as [[] [] [] [] [] [] [] []]; try congruence;
        cbn [scan_string] in H |- *; try discriminate H;
        (destruct (scan_string r2) as [[raw' tail']|] eqn:E;
         [|discriminate H]);
        injection H as <- <-;
        (rewrite (IH r2 raw' tail' rest); [reflexivity|lia|exact E]).
  - destruct c as [[] [] [] [] [] [] [] []]; try congruence;
      cbn in H |- *; try discriminate H;
      try (injection H as <- <-; reflexivity);
      (destruct (scan_string r) as [[raw' tail']|] eqn:E;
       [|discriminate H]);
      injection H as <- <-;
      (rewrite (IH r raw' tail' rest); [reflexivity|lia|exact E]).
Qed.

Lemma is_literal_spec (raw : string) :
  is_literal raw = true -> literal_text raw.
Proof.
  unfold is_literal, literal_text. intros H rest.
  destruct (scan_string (raw +:+ dquote))
    as [[r [|]]|] eqn:E; try discriminate H.
  apply String.eqb_eq in H. subst r.
  rewrite <- append_assoc.
  rewrite (scan_string_app _ _ _ _ rest (le_n _) E). reflexivity.
Qed.

Lemma first_value_render (j : json) (rest : string) :
  well_formed j -> stops rest ->
  first_value (render j +:+ rest) = Some j.
Proof.
  intros Hw Hs. unfold first_value.
  pose proof (nodes_le_length (nodes j) j ltac:(lia) Hw) as Hlen.
  rewrite (parse_rendered_bounded (nodes j) j ltac:(lia) Hw); [reflexivity| |exact Hs].
  unfold parse_fuel. rewrite length_append. lia.
Qed.

End JSONTextFacts.

Section Properties.

Context {Time : Type}.
Variable zeroTime : Time.
Variable parseTime : string -> option Time.
Variable formatTime : Time -> option string.
Variable quote : string -> string.
Variable unquote : string -> string.
Variable equal_fold : string -> string -> bool.
Variable sprint_goods : slice (@Goods Time) -> string.

Ltac unfold_decoders :=
  unfold Decode_NewPriority, decode_NewPriority, Decode_Goods, decode_Goods,
    Unmarshal_GoodsList, decode_GoodsList.

Ltac unfold_responder := unfold respondWithJSON, Encode.

Ltac unfold_encoders := unfold Marshal_GoodsList, Marshal_Goods, json_slice.

Ltac unfold_encoders_in H :=
  unfold Marshal_GoodsList, Marshal_Goods, json_slice in H.

Ltac unfold_monad :=
  cbv beta iota delta
    [run bind ret reply call modify get check some_or db_Begin tx_Exec
     tx_Commit defer_Rollback redis_Set redis_Get nats_Publish].

(** Case analysis on what the oracle and the library answer, in the order
    the handlers ask. *)
Ltac oracle_case :=
  match goal with
  | |- context [query_error ?o] => destruct (query_error o) eqn:?
  | |- context [is_ErrNoRows ?e] => destruct (is_ErrNoRows e) eqn:?
  | |- context [scan_int ?z] => destruct (scan_int z) eqn:?
  | |- context [begin_error ?o] => destruct (begin_error o) eqn:?
  | |- context [exec_error ?o] => destruct (exec_error o) eqn:?
  | |- context [commit_error ?o] => destruct (commit_error o) eqn:?
  | |- context [Marshal_Goods ?f ?q ?g] =>
      destruct (Marshal_Goods f q g) eqn:?
  | |- context [cache_get_error ?o] => destruct (cache_get_error o) eqn:?
  | |- context [rows_error ?o] => destruct (rows_error o) as [[? ?]|] eqn:?
  | |- context [scan_all ?f ?l] => destruct (scan_all f l) eqn:?
  | |- context [Marshal_GoodsList ?f ?q ?g] =>
      destruct (Marshal_GoodsList f q g) eqn:?
  | |- context [cache_set_error ?o] => destruct (cache_set_error o) eqn:?
  | |- context [publish_error ?o] => destruct (publish_error o) eqn:?
  end.

(** The calls a run has added end with the given one. *)
Ltac closing :=
  unfold new_calls;
  repeat (unfold_monad; cbn -[pretty skipn List.last];
          rewrite <- ?app_assoc, ?skipn_app_exact;
          try oracle_case);
  cbn -[pretty]; auto.

Ltac crunch :=
  unfold refused, commit_follows_exec, new_calls;
  repeat (unfold_monad; cbn -[pretty skipn];
          rewrite <- ?app_assoc, ?skipn_app_exact;
          try oracle_case);
  cbn -[pretty]; try solve [intuition congruence].

Local Abbreviation Decode_Goods :=
  (Decode_Goods zeroTime parseTime unquote equal_fold).
Local Abbreviation Decode_NewPriority :=
  (Decode_NewPriority unquote equal_fold).
Local Abbreviation Unmarshal_GoodsList :=
  (Unmarshal_GoodsList zeroTime parseTime unquote equal_fold).
Local Abbreviation Marshal_Goods := (Marshal_Goods formatTime quote).
Local Abbreviation Marshal_GoodsList := (Marshal_GoodsList formatTime quote).
Local Abbreviation respondWithJSON := (respondWithJSON formatTime quote).
Local Abbreviation json_Payload := (json_Payload formatTime quote).
Local Abbreviation createGood :=
  (createGoodHandler zeroTime parseTime formatTime quote unquote equal_fold).
Local Abbreviation listGoods :=
  (listGoodsHandler zeroTime parseTime formatTime quote unquote equal_fold
                    sprint_goods).
Local Abbreviation updateGood :=
  (updateGoodHandler zeroTime parseTime formatTime quote unquote equal_fold).
Local Abbreviation removeGood := (@removeGoodHandler Time).
Local Abbreviation reprioritizeGood :=
  (reprioritizeGoodHandler zeroTime formatTime quote unquote equal_fold).
Local Abbreviation listProjects := (@listProjectsHandler Time formatTime quote).

(** The statements of update and reprioritize as they act on the
    relation when the transaction goes through. *)
Lemma update_commits (o : Oracle) (w : World) (body : string) (good : Goods) :
  begin_error o = None -> exec_error o = None -> commit_error o = None ->
  Decode_Goods body = Some good ->
  tbl_goods (fst (run (updateGood o body) w))
  = map (update_row (Name good) (Description good) (Priority good)
                    (Removed good))
        (tbl_goods w).
Proof.
  intros Hb He Hc Hd. unfold updateGoodHandler. unfold_monad.
  rewrite Hd, Hb, He, Hc. crunch.
Qed.

Lemma reprioritize_commits (o : Oracle) (w : World) (pbody : string)
    (p : NewPriority) :
  begin_error o = None -> exec_error o = None -> commit_error o = None ->
  Decode_NewPriority pbody = Some p ->
  tbl_goods (fst (run (reprioritizeGood o pbody) w))
  = map (reprioritize_row (n_NewPriority p)) (tbl_goods w).
Proof.
  intros Hb He Hc Hp. unfold reprioritizeGoodHandler. unfold_monad.
  rewrite Hp, Hb, He, Hc. crunch.
Qed.

(** C1.  When Begin, Exec and Commit go through, the update, delete and
    reprioritize handlers reach every row of [goods], none being singled out
    by an identifier.  After an update the relation has the same rows by id
    and every one of them carries the request's name, description, priority
    and removed flag, so a row that held another name, description,
    priority or flag is no longer what it was.  After a delete the relation
    is empty.  After a reprioritization the relation has the same rows by
    id and every one of them carries the new priority, so a row that had
    another priority is no longer what it was. *)
Theorem bulk_statements_touch_every_row
    (o : Oracle) (w : World) (body : string) (good : Goods)
    (pbody : string) (p : NewPriority) :
  begin_error o = None -> exec_error o = None -> commit_error o = None ->
  Decode_Goods body = Some good ->
  Decode_NewPriority pbody = Some p ->
  (let rel' := tbl_goods (fst (run (updateGood o body) w)) in
   map r_id rel' = map r_id (tbl_goods w)
   /\ Forall (fun r => r_name r = Name good
                       /\ r_description r = Description good
                       /\ r_priority r = Priority good
                       /\ r_removed r = Removed good) rel'
   /\ forall i r r',
        nth_error (tbl_goods w) i = Some r -> nth_error rel' i = Some r' ->
        r_name r <> Name good \/ r_description r <> Description good
        \/ r_priority r <> Priority good \/ r_removed r <> Removed good ->
        r' <> r)
  /\ tbl_goods (fst (run (removeGood o) w)) = []
  /\ (let rel' := tbl_goods (fst (run (reprioritizeGood o pbody) w)) in
      map r_id rel' = map r_id (tbl_goods w)
      /\ Forall (fun r => r_priority r = n_NewPriority p) rel'
      /\ forall i r r',
           nth_error (tbl_goods w) i = Some r -> nth_error rel' i = Some r' ->
           r_priority r <> n_NewPriority p ->
           r' <> r).
Proof.
  intros Hb He Hc Hd Hp. cbv zeta.
  rewrite (update_commits o w body good Hb He Hc Hd).
  rewrite (reprioritize_commits o w pbody p Hb He Hc Hp).
  split; [|split].
  - split; [|split].
    + rewrite map_map. reflexivity.
    + apply List.Forall_forall. intros r Hr.
      apply in_map_iff in Hr as (r0 & <- & _). cbn. auto.
    + intros i r r' Hi Hi' Hdiff. rewrite nth_error_map, Hi in Hi'.
      cbn in Hi'. injection Hi' as <-. intros Heq.
      rewrite <- Heq in Hdiff. cbn in Hdiff.
      destruct Hdiff as [H|[H|[H|H]]]; apply H; reflexivity.
  - unfold removeGoodHandler. unfold_monad. rewrite Hb, He, Hc. crunch.
  - split; [|split].
    + rewrite map_map. reflexivity.
    + apply List.Forall_forall. intros r Hr.
      apply in_map_iff in Hr as (r0 & <- & _). reflexivity.
    + intros i r r' Hi Hi' Hdiff. rewrite nth_error_map, Hi in Hi'.
      cbn in Hi'. injection Hi' as <-. intros Heq.
      rewrite <- Heq in Hdiff. apply Hdiff. reflexivity.
Qed.

(** C5.  Every write runs between Begin and Commit, and Commit is only
    called once Begin and Exec have gone through.  When the store refuses
    Begin, Exec or Commit (for create also: when reading the maximum
    priority fails), the handler answers 500 and the relation is left as
    it was.  Once Begin has gone through, the run ends with the deferred
    Rollback and leaves no transaction open. *)
Theorem store_error_leaves_goods_unchanged
    (o : Oracle) (w : World) (body : string) (good : Goods)
    (pbody : string) (p : NewPriority) :
  Decode_Goods body = Some good ->
  Decode_NewPriority pbody = Some p ->
  (write_fails o \/ read_fails o w -> refused (createGood o body) w)
  /\ (write_fails o ->
      refused (updateGood o body) w
      /\ refused (removeGood o) w
      /\ refused (reprioritizeGood o pbody) w)
  /\ commit_follows_exec o (createGood o body) w
  /\ commit_follows_exec o (updateGood o body) w
  /\ commit_follows_exec o (removeGood o) w
  /\ commit_follows_exec o (reprioritizeGood o pbody) w
  /\ (begin_error o = None ->
      (~ read_fails o w -> rolled_back (createGood o body) w)
      /\ rolled_back (updateGood o body) w
      /\ rolled_back (removeGood o) w
      /\ rolled_back (reprioritizeGood o pbody) w).
Proof.
  intros Hd Hp. unfold write_fails, read_fails.
  split; [|split; [|split; [|split; [|split; [|split]]]]].
  - intros Hf. unfold refused, createGoodHandler. unfold_monad.
    rewrite Hd. crunch.
    all: exfalso;
      destruct Hf as [[?|[?|?]]|[(e' & H1 & H2)|[H1 H2]]]; congruence.
  - intros Hf. split; [|split].
    + unfold refused, updateGoodHandler. unfold_monad. rewrite Hd. crunch.
    + unfold removeGoodHandler. crunch.
    + unfold refused, reprioritizeGoodHandler. unfold_monad. rewrite Hp.
      crunch.
  - unfold commit_follows_exec, createGoodHandler. unfold_monad.
    rewrite Hd. crunch.
  - unfold commit_follows_exec, updateGoodHandler. unfold_monad.
    rewrite Hd. crunch.
  - unfold removeGoodHandler. crunch.
  - unfold commit_follows_exec, reprioritizeGoodHandler. unfold_monad.
    rewrite Hp. crunch.
  - intros Hb. unfold rolled_back. split; [|split; [|split]].
    + intros Hnr. unfold createGoodHandler. unfold_monad. rewrite Hd.
      destruct (query_error o) as [e|] eqn:Hq.
      * destruct (is_ErrNoRows e) eqn:Hn;
          [|exfalso; apply Hnr; left; exists e; auto].
        rewrite Hb. closing.
      * cbn.
        destruct (scan_int (max_priority (tbl_goods w))) eqn:Hs;
          [|exfalso; apply Hnr; right; auto].
        cbn. rewrite Hb. closing.
    + unfold updateGoodHandler. unfold_monad. rewrite Hd, Hb. closing.
    + unfold removeGoodHandler. unfold_monad. rewrite Hb. closing.
    + unfold reprioritizeGoodHandler. unfold_monad. rewrite Hp, Hb. closing.
Qed.

(** *** Creating a good *)

Lemma scan_int_Some z m : scan_int z = Some m -> m = z /\ GoInt.in_range z = true.
Proof.
  unfold scan_int. destruct (GoInt.in_range z); intros H; inversion H; auto.
Qed.

Lemma fold_max_lower (l : list Z) (a : Z) : a <= fold_left Z.max l a.
Proof.
  revert a. induction l as [|x l IH]; intros a; simpl; [lia|].
  specialize (IH (Z.max a x)). lia.
Qed.

Lemma fold_max_upper (l : list Z) (a x : Z) :
  In x l -> x <= fold_left Z.max l a.
Proof.
  revert a. induction l as [|y l IH]; intros a Hin; simpl; [destruct Hin|].
  destruct Hin as [->|Hin].
  - pose proof (fold_max_lower l (Z.max a x)). lia.
  - apply IH, Hin.
Qed.

(** [max_priority] is an upper bound of the priorities in the relation. *)
Lemma max_priority_upper (rel : list (@GoodsRow Time)) (r : GoodsRow) :
  In r rel -> r_priority r <= max_priority rel.
Proof.
  unfold max_priority. destruct rel as [|r0 rel]; [intros []|].
  intros [->|Hin]; simpl.
  - apply fold_max_lower.
  - apply fold_max_upper, in_map, Hin.
Qed.

(** The relation after a create whose reads and writes all go through. *)
Lemma create_commits (o : Oracle) (w : World) (body : string) (good : Goods)
    (m : Z) :
  Decode_Goods body = Some good ->
  query_error o = None ->
  scan_int (max_priority (tbl_goods w)) = Some m ->
  begin_error o = None -> exec_error o = None -> commit_error o = None ->
  tbl_goods (fst (run (createGood o body) w))
  = tbl_goods w
    ++ [{| r_id := serial o; r_project_id := default_project o;
           r_name := Name good; r_description := Description good;
           r_priority := GoInt.add m 1; r_removed := Removed good;
           r_created_at := clock o |}].
Proof.
  intros Hd Hq Hs Hb He Hc. unfold createGoodHandler. unfold_monad.
  rewrite Hd, Hq. cbn. rewrite Hs. cbn. rewrite Hb, He, Hc. crunch.
Qed.

(** C2, as amended.  When the create handler's reads and writes go through
    and the maximum priority is below the largest Go int, the row it
    inserts carries the maximum of the existing priorities plus 1, above
    every existing priority, and 1 when the relation is empty, whatever
    priority the request named. *)
Theorem create_priority_is_max_plus_one
    (o : Oracle) (w : World) (body : string) (good : Goods) :
  Decode_Goods body = Some good ->
  query_error o = None ->
  begin_error o = None -> exec_error o = None -> commit_error o = None ->
  GoInt.in_range (max_priority (tbl_goods w)) = true ->
  max_priority (tbl_goods w) < GoInt.max_int ->
  exists r,
    tbl_goods (fst (run (createGood o body) w)) = tbl_goods w ++ [r]
    /\ r_priority r = max_priority (tbl_goods w) + 1
    /\ Forall (fun x => r_priority x < r_priority r) (tbl_goods w)
    /\ (tbl_goods w = [] -> r_priority r = 1).
Proof.
  intros Hd Hq Hb He Hc Hr Hlt.
  assert (Hs : scan_int (max_priority (tbl_goods w))
               = Some (max_priority (tbl_goods w)))
    by (unfold scan_int; rewrite Hr; reflexivity).
  eexists. split; [apply (create_commits o w body good _ Hd Hq Hs Hb He Hc)|].
  cbn. rewrite (GoIntFacts.add_one_below_max _ Hr Hlt).
  split; [reflexivity|]. split.
  - apply List.Forall_forall. intros x Hx.
    pose proof (max_priority_upper _ _ Hx). lia.
  - intros ->. reflexivity.
Qed.

(** C3.  When the broker refuses the message after the commit, each of the
    four writing handlers answers 500, nothing is published, and the
    relation stays as the committed statement left it. *)
Theorem publish_failure_keeps_committed_write
    (o : Oracle) (w : World) (body : string) (good : Goods)
    (pbody : string) (p : NewPriority) (m : Z) (e : error) :
  publish_error o = Some e ->
  begin_error o = None -> exec_error o = None -> commit_error o = None ->
  Decode_Goods body = Some good ->
  Decode_NewPriority pbody = Some p ->
  query_error o = None ->
  scan_int (max_priority (tbl_goods w)) = Some m ->
  (let r := run (createGood o body) w in
   status (snd r) = 500
   /\ published (fst r) = published w
   /\ tbl_goods (fst r)
      = execute o (InsertGood (Name good) (Description good) (GoInt.add m 1)
                              (Removed good) (clock o))
                (tbl_goods w))
  /\ (let r := run (updateGood o body) w in
      status (snd r) = 500
      /\ published (fst r) = published w
      /\ tbl_goods (fst r)
         = execute o (UpdateGoods (Name good) (Description good)
                                  (Priority good) (Removed good))
                   (tbl_goods w))
  /\ (let r := run (removeGood o) w in
      status (snd r) = 500
      /\ published (fst r) = published w
      /\ tbl_goods (fst r) = execute o DeleteGoods (tbl_goods w))
  /\ (let r := run (reprioritizeGood o pbody) w in
      status (snd r) = 500
      /\ published (fst r) = published w
      /\ tbl_goods (fst r)
         = execute o (UpdatePriority (n_NewPriority p)) (tbl_goods w)).
Proof.
  intros Hpub Hb He Hc Hd Hp Hq Hs.
  split; [|split; [|split]]; cbv zeta.
  - unfold createGoodHandler. unfold_monad.
    rewrite Hd, Hq. cbn. rewrite Hs. cbn. rewrite Hb, He, Hc, Hpub. crunch.
  - unfold updateGoodHandler. unfold_monad.
    rewrite Hd, Hb, He, Hc, Hpub. crunch.
  - unfold removeGoodHandler. unfold_monad. rewrite Hb, He, Hc, Hpub. crunch.
  - unfold reprioritizeGoodHandler. unfold_monad.
    rewrite Hp, Hb, He, Hc, Hpub. crunch.
Qed.

(** What a create answers and publishes when every step goes through. *)
Lemma create_succeeds (o : Oracle) (w : World) (body : string) (good : Goods)
    (m : Z) (data : string) :
  Decode_Goods body = Some good ->
  query_error o = None ->
  scan_int (max_priority (tbl_goods w)) = Some m ->
  begin_error o = None -> exec_error o = None -> commit_error o = None ->
  Marshal_Goods (with_Priority good (GoInt.add m 1)) = Some data ->
  publish_error o = None ->
  snd (run (createGood o body) w)
  = respondWithJSON 201 [OfGood (with_Priority good (GoInt.add m 1))]
  /\ published (fst (run (createGood o body) w))
     = published w ++ [("new_good_created"%string, data)].
Proof.
  intros Hd Hq Hs Hb He Hc Hm Hp. unfold createGoodHandler. unfold_monad.
  rewrite Hd, Hq. cbn. rewrite Hs. cbn. rewrite Hb, He, Hc. cbn.
  rewrite Hm. cbn. rewrite Hp. crunch.
Qed.

(** C8, as amended.  A create that goes through answers 201 with the
    decoded good in which only the priority has been replaced by the
    server's: the id and created_at of the body are echoed in the response
    and in the notification.  The inserted row takes none of the three
    from the body: its id is the store's, its created_at the clock's, its
    priority the server's. *)
Theorem create_echoes_id_and_stores_server_values
    (o : Oracle) (w : World) (body : string) (good : Goods) (m : Z)
    (data : string) :
  Decode_Goods body = Some good ->
  query_error o = None ->
  scan_int (max_priority (tbl_goods w)) = Some m ->
  begin_error o = None -> exec_error o = None -> commit_error o = None ->
  Marshal_Goods (with_Priority good (GoInt.add m 1)) = Some data ->
  publish_error o = None ->
  let echoed := with_Priority good (GoInt.add m 1) in
  let r := run (createGood o body) w in
  snd r = respondWithJSON 201 [OfGood echoed]
  /\ published (fst r) = published w ++ [("new_good_created"%string, data)]
  /\ ID echoed = ID good
  /\ CreatedAt echoed = CreatedAt good
  /\ Priority echoed = GoInt.add m 1
  /\ tbl_goods (fst r)
     = tbl_goods w
       ++ [{| r_id := serial o; r_project_id := default_project o;
              r_name := Name good; r_description := Description good;
              r_priority := GoInt.add m 1; r_removed := Removed good;
              r_created_at := clock o |}].
Proof.
  intros Hd Hq Hs Hb He Hc Hm Hp. cbv zeta.
  destruct (create_succeeds o w body good m data Hd Hq Hs Hb He Hc Hm Hp)
    as [Hr Hpub].
  rewrite Hr, Hpub. repeat split; try reflexivity.
  apply (create_commits o w body good m Hd Hq Hs Hb He Hc).
Qed.

(** C10.  The INSERT of the create handler does not name project_id: the
    inserted row takes it from the store's default, so two requests that
    differ in project_id leave the same project_id in the store, while the
    201 response carries the project_id of the body. *)
Theorem create_leaves_project_id_to_the_store
    (o : Oracle) (w : World) (body body' : string) (good good' : Goods)
    (m : Z) :
  Decode_Goods body = Some good ->
  Decode_Goods body' = Some good' ->
  query_error o = None ->
  scan_int (max_priority (tbl_goods w)) = Some m ->
  begin_error o = None -> exec_error o = None -> commit_error o = None ->
  (exists r,
      tbl_goods (fst (run (createGood o body) w)) = tbl_goods w ++ [r]
      /\ r_project_id r = default_project o)
  /\ map r_project_id (tbl_goods (fst (run (createGood o body) w)))
     = map r_project_id (tbl_goods (fst (run (createGood o body') w)))
  /\ (forall data,
         Marshal_Goods (with_Priority good (GoInt.add m 1)) = Some data ->
         publish_error o = None ->
         exists g,
           snd (run (createGood o body) w) = respondWithJSON 201 [OfGood g]
           /\ ProjectID g = ProjectID good).
Proof.
  intros Hd Hd' Hq Hs Hb He Hc.
  pose proof (create_commits o w body good m Hd Hq Hs Hb He Hc) as H1.
  pose proof (create_commits o w body' good' m Hd' Hq Hs Hb He Hc) as H2.
  split; [|split].
  - eexists. split; [exact H1|reflexivity].
  - rewrite H1, H2, !map_app. reflexivity.
  - intros data Hm Hp.
    destruct (create_succeeds o w body good m data Hd Hq Hs Hb He Hc Hm Hp)
      as [Hr _].
    eexists. split; [exact Hr|reflexivity].
Qed.

(** *** Reprioritizing *)

(** C4, as amended.  With two goods of priorities 1 and 2 in the store and
    every call going through, the body {"newPriority": 5} sets both
    priorities to 5; the answer is 200 and its body is the line
    [{"priorities":[{"id":0,"priority":5}]}]: the documented object as the
    only element of an array.  The id is that of a good the handler never
    fills in, hence 0. *)
Theorem reprioritize_two_goods_to_five
    (o : Oracle) (w : World) (r1 r2 : GoodsRow) :
  unquote "newPriority" = "newPriority"%string ->
  tbl_goods w = [r1; r2] ->
  r_priority r1 = 1 -> r_priority r2 = 2 ->
  begin_error o = None -> exec_error o = None -> commit_error o = None ->
  publish_error o = None ->
  let r := run (reprioritizeGood o (JSONText.dq "{'newPriority': 5}")) w in
  tbl_goods (fst r) = [reprioritize_row 5 r1; reprioritize_row 5 r2]
  /\ map r_priority (tbl_goods (fst r)) = [5; 5]
  /\ snd r
     = {| status := 200;
          content_type := Some "application/json"%string;
          body := Written ((JSONText.dq "[{'priorities':[{'id':0,'priority':5}]}]")
                           +:+ String "010" EmptyString) |}.
Proof.
  intros Hu Hw H1 H2 Hb He Hc Hp. cbv zeta.
  assert (Hd : Decode_NewPriority (JSONText.dq "{'newPriority': 5}")
               = Some {| n_NewPriority := 5 |}).
  { unfold_decoders.
    replace (JSONText.first_value (JSONText.dq "{'newPriority': 5}"))
      with (Some (JObj [("newPriority"%string, JNum "5")]))
      by (vm_compute; reflexivity).
    unfold fold_left. cbn [fst snd].
    rewrite Hu. reflexivity. }
  unfold reprioritizeGoodHandler. unfold_monad.
  rewrite Hd, Hb, He, Hc, Hp. cbn. rewrite Hw. cbn.
  repeat split; reflexivity.
Qed.

(** *** Reading the relations *)

Lemma scan_rows_spec {R A : Type} (scan : R -> option A) (rows : list R)
    (acc : slice A) (w : World) :
  scan_rows scan rows acc w
  = match scan_all scan rows
          return @World Time * (Response + slice A) with
    | Some l => (w, inr (extend acc l))
    | None => (w, inl (http_Error ScanError 500))
    end.
Proof.
  revert acc. induction rows as [|r rows IH]; intros acc; [reflexivity|].
  cbn [scan_rows scan_all]. unfold bind, some_or.
  destruct (scan r) as [x|]; [|reflexivity].
  unfold ret. rewrite IH. destruct (scan_all scan rows); reflexivity.
Qed.

Lemma db_Query_spec {R A : Type} (o : Oracle) (table : string)
    (rel : World -> list R) (scan : R -> option A) (acc : slice A)
    (w : World) :
  db_Query o table rel scan acc w
  = let w1 := log w (Query table) in
    match query_error o return @World Time * (Response + slice A) with
    | Some e => (w1, inl (http_Error e 500))
    | None =>
        match rows_error o with
        | Some (n, e) =>
            match scan_all scan (firstn n (rel w1)) with
            | Some _ => (w1, inl (http_Error e 500))
            | None => (w1, inl (http_Error ScanError 500))
            end
        | None =>
            match scan_all scan (rel w1) with
            | Some l => (w1, inr (extend acc l))
            | None => (w1, inl (http_Error ScanError 500))
            end
        end
    end.
Proof.
  unfold db_Query. unfold_monad. cbv zeta.
  destruct (query_error o); [reflexivity|]. cbn.
  destruct (rows_error o) as [[n e]|]; unfold bind.
  - rewrite scan_rows_spec. destruct (scan_all _ _); reflexivity.
  - rewrite scan_rows_spec. reflexivity.
Qed.

(** *** The shared responder *)

Lemma Marshal_Goods_Some (g : Goods) (data : string) :
  Marshal_Goods g = Some data ->
  exists j, json_Goods formatTime quote g = Some j.
Proof.
  unfold_encoders. destruct (json_Goods formatTime quote g) as [j|];
    [eauto|discriminate].
Qed.

(** C9, as amended.  The responder encodes the slice of its variadic
    arguments.  A payload that can be encoded is written, with the success
    status, as an array whose only element is the documented payload,
    followed by a newline: for the projects list, the goods list, the
    created and the updated good and the priorities object alike.  A
    payload that cannot be encoded (a creation time the encoder refuses)
    leaves the body empty under the same status.  The payloads of create,
    update and reprioritize can always be encoded when these answer with
    their success status; with no project in the store the body of the
    projects list is [null]. *)
Theorem responder_wraps_payload_in_array
    (o : Oracle) (w : World) (gbody pbody : string) :
  (forall code p j,
      json_Payload p = Some j ->
      respondWithJSON code [p]
      = {| status := code;
           content_type := Some "application/json"%string;
           body := Written (("[" +:+ JSONText.render j +:+ "]")
                            +:+ String "010" EmptyString) |})
  /\ (forall code p,
         json_Payload p = None ->
         respondWithJSON code [p]
         = {| status := code;
              content_type := Some "application/json"%string;
              body := Written EmptyString |})
  /\ (status (snd (run (listProjects o) w)) = 200 ->
      exists ps,
        scan_all scan_Projects (tbl_projects w) = Some ps
        /\ snd (run (listProjects o) w)
           = respondWithJSON 200 [OfProjects (extend None ps)])
  /\ (status (snd (run (listGoods o) w)) = 200 ->
      exists gs,
        snd (run (listGoods o) w) = respondWithJSON 200 [OfGoods gs])
  /\ (status (snd (run (createGood o gbody) w)) = 201 ->
      exists g m j,
        Decode_Goods gbody = Some g
        /\ snd (run (createGood o gbody) w)
           = respondWithJSON 201 [OfGood (with_Priority g m)]
        /\ json_Payload (OfGood (with_Priority g m)) = Some j)
  /\ (status (snd (run (updateGood o gbody) w)) = 200 ->
      exists g j,
        Decode_Goods gbody = Some g
        /\ snd (run (updateGood o gbody) w)
           = respondWithJSON 200 [OfGood g]
        /\ json_Payload (OfGood g) = Some j)
  /\ (status (snd (run (reprioritizeGood o pbody) w)) = 200 ->
      exists p j,
        Decode_NewPriority pbody = Some p
        /\ snd (run (reprioritizeGood o pbody) w)
           = respondWithJSON 200 [OfPriorities [(0, n_NewPriority p)]]
        /\ json_Payload (OfPriorities [(0, n_NewPriority p)]) = Some j)
  /\ (tbl_projects w = [] ->
      query_error o = None -> rows_error o = None ->
      body (snd (run (listProjects o) w))
      = Written ("[null]" +:+ String "010" EmptyString)).
Proof.
  split; [|split; [|split; [|split; [|split; [|split; [|split]]]]]].
  - intros code p j Hj. unfold_responder.
    cbn [json_all]. rewrite Hj. reflexivity.
  - intros code p Hj. unfold_responder.
    cbn [json_all]. rewrite Hj. reflexivity.
  - unfold listProjectsHandler. unfold_monad. rewrite db_Query_spec.
    cbv zeta. crunch; eauto.
  - unfold listGoodsHandler. unfold_monad.
    destruct (cache_get_error o).
    + cbn -[db_Query]. rewrite db_Query_spec. cbv zeta. crunch; eauto.
    + cbn -[db_Query].
      destruct (cache w !! "goods"%string) as [[text ttl]|]; cbn -[db_Query].
      * destruct (Unmarshal_GoodsList text) as [gs [|]]; cbn -[db_Query];
          [eauto|].
        rewrite db_Query_spec. cbv zeta. crunch; eauto.
      * rewrite db_Query_spec. cbv zeta. crunch; eauto.
  - unfold createGoodHandler. unfold_monad.
    destruct (Decode_Goods gbody); crunch;
      intros _;
      match goal with
      | H : Marshal_Goods ?g = Some _ |- _ =>
          destruct (Marshal_Goods_Some _ _ H) as [j Hj]
      end;
      eexists _, _, j; (split; [reflexivity|split; [reflexivity|exact Hj]]).
  - unfold updateGoodHandler. unfold_monad.
    destruct (Decode_Goods gbody); crunch;
      intros _;
      match goal with
      | H : Marshal_Goods ?g = Some _ |- _ =>
          destruct (Marshal_Goods_Some _ _ H) as [j Hj]
      end;
      eexists _, j; (split; [reflexivity|split; [reflexivity|exact Hj]]).
  - unfold reprioritizeGoodHandler. unfold_monad.
    destruct (Decode_NewPriority pbody); crunch; eauto 6.
  - intros Hw Hq Hr. unfold listProjectsHandler. unfold_monad.
    rewrite db_Query_spec. cbv zeta. rewrite Hq, Hr. cbn. rewrite Hw.
    reflexivity.
Qed.

(** *** Listing goods *)

Lemma Unmarshal_not_json (text : string) :
  JSONText.whole_value text = None -> Unmarshal_GoodsList text = (None, false).
Proof. intros H. unfold_decoders. rewrite H. reflexivity. Qed.



(** C7.  On the goods list path a cache read that fails, a missing key
    and a cached text that does not decode all lead to the store query;
    the answer is 200 or a 500 that carries an error of the store read,
    of the encoder or of the broker; a failing cache write changes
    nothing in the answer, and a failing cache read is answered like a
    missing key. *)
Theorem cache_failures_fall_through (o : Oracle) (w : World) :
  (cache_get_error o <> None
   \/ cache w !! "goods"%string = None
   \/ (exists text ttl leaked,
          cache w !! "goods"%string = Some (text, ttl)
          /\ Unmarshal_GoodsList text = (leaked, false)) ->
   firstn 2 (new_calls w (fst (run (listGoods o) w)))
   = [CacheGet "goods"; Query "goods"])
  /\ (let r := snd (run (listGoods o) w) in
      status r = 200
      \/ (status r = 500
          /\ exists e,
              body r = ErrorText e
              /\ (query_error o = Some e
                  \/ e = ScanError
                  \/ (exists n, rows_error o = Some (n, e))
                  \/ e = JSONEncodeError
                  \/ publish_error o = Some e)))
  /\ (forall e,
         snd (run (listGoods (with_cache_set_error o e)) w)
         = snd (run (listGoods o) w))
  /\ (forall e,
         snd (run (listGoods (with_cache_get_error o (Some e))) w)
         = snd (run (listGoods (with_cache_get_error o None))
                    (set_cache w ∅))).
Proof.
  split; [|split; [|split]].
  - intros Hmiss. unfold listGoodsHandler. unfold_monad.
    destruct (cache_get_error o) eqn:Hg; cbn -[db_Query].
    2: destruct (cache w !! "goods"%string) as [[text ttl]|] eqn:Hl;
       cbn -[db_Query].
    2: { destruct Hmiss as [H|[H|(text' & ttl' & lk & H & Hv)]];
           try congruence.
         assert (text' = text) as -> by congruence.
         rewrite Hv. cbn -[db_Query]. rewrite db_Query_spec. cbv zeta.
         crunch. }
    all: rewrite db_Query_spec; cbv zeta; crunch.
  - cbv zeta. unfold listGoodsHandler. unfold_monad.
    destruct (cache_get_error o) eqn:Hg; cbn -[db_Query].
    2: destruct (cache w !! "goods"%string) as [[text ttl]|] eqn:Hl;
       cbn -[db_Query].
    2: destruct (Unmarshal_GoodsList text) as [gs [|]]; cbn -[db_Query];
       [left; reflexivity|].
    all: rewrite db_Query_spec; cbv zeta; crunch; eauto 10.
  - intros e. unfold listGoodsHandler. unfold_monad.
    cbn [cache_get_error with_cache_set_error].
    destruct (cache_get_error o) eqn:Hg; cbn -[db_Query].
    2: destruct (cache w !! "goods"%string) as [[text ttl]|] eqn:Hl;
       cbn -[db_Query].
    2: destruct (Unmarshal_GoodsList text) as [gs [|]]; cbn -[db_Query];
       [reflexivity|].
    all: rewrite !db_Query_spec; cbv zeta;
      cbn [query_error rows_error publish_error cache_set_error
           with_cache_set_error];
      destruct e; crunch.
  - intros e. unfold listGoodsHandler. unfold_monad.
    cbn -[db_Query]. rewrite lookup_empty. cbn -[db_Query].
    rewrite !db_Query_spec. cbv zeta.
    cbn [query_error rows_error publish_error cache_set_error
         with_cache_get_error].
    crunch.
Qed.

(** * Further properties of the handlers *)

(** ** Answers *)

(** X1.  Every answer of a handler is one of a few: the JSON answer with the
    handler's success status, the empty 204 of the delete handler, or a plain
    text error with status 400 (only where a body is decoded) or 500. *)
Theorem every_answer_is_json_or_plain_error
    (o : Oracle) (w : World) (gbody : string) :
  (json_answer (snd (run (listProjects o) w)) 200
   \/ plain_error (snd (run (listProjects o) w)) 500)
  /\ (json_answer (snd (run (listGoods o) w)) 200
      \/ plain_error (snd (run (listGoods o) w)) 500)
  /\ (json_answer (snd (run (createGood o gbody) w)) 201
      \/ plain_error (snd (run (createGood o gbody) w)) 400
      \/ plain_error (snd (run (createGood o gbody) w)) 500)
  /\ (json_answer (snd (run (updateGood o gbody) w)) 200
      \/ plain_error (snd (run (updateGood o gbody) w)) 400
      \/ plain_error (snd (run (updateGood o gbody) w)) 500)
  /\ (snd (run (removeGood o) w)
      = {| status := 204; content_type := None; body := NoBody |}
      \/ plain_error (snd (run (removeGood o) w)) 500)
  /\ (json_answer (snd (run (reprioritizeGood o gbody) w)) 200
      \/ plain_error (snd (run (reprioritizeGood o gbody) w)) 400
      \/ plain_error (snd (run (reprioritizeGood o gbody) w)) 500).
Proof.
  unfold json_answer, plain_error.
  split; [|split; [|split; [|split; [|split]]]].
  - unfold listProjectsHandler. unfold_monad. rewrite db_Query_spec.
    cbv zeta. crunch; eauto 8.
  - unfold listGoodsHandler. unfold_monad.
    destruct (cache_get_error o) eqn:Hg; cbn -[db_Query].
    2: destruct (cache w !! "goods"%string) as [[text ttl]|] eqn:Hl;
       cbn -[db_Query].
    2: destruct (Unmarshal_GoodsList text) as [gs [|]]; cbn -[db_Query];
       [eauto 8|].
    all: rewrite db_Query_spec; cbv zeta; crunch; eauto 8.
  - unfold createGoodHandler. unfold_monad.
    destruct (Decode_Goods gbody); crunch; eauto 8.
  - unfold updateGoodHandler. unfold_monad.
    destruct (Decode_Goods gbody); crunch; eauto 8.
  - unfold removeGoodHandler. crunch; eauto 8.
  - unfold reprioritizeGoodHandler. unfold_monad.
    destruct (Decode_NewPriority gbody); crunch; eauto 8.
Qed.

(** ** Notifications *)

(** X2.  A writing handler publishes exactly when it answers with its success
    status, then one message on its own subject; an error answer means
    that nothing was published.  The goods list publishes at most one
    message, and none with an error answer. *)
Theorem a_message_is_published_exactly_on_success
    (o : Oracle) (w : World) (gbody : string) :
  (let r := run (createGood o gbody) w in
   (status (snd r) = 201 ->
    exists data,
      published (fst r) = published w ++ [("new_good_created"%string, data)])
   /\ (status (snd r) <> 201 -> published (fst r) = published w))
  /\ (let r := run (updateGood o gbody) w in
      (status (snd r) = 200 ->
       exists data,
         published (fst r) = published w ++ [("good_updated"%string, data)])
      /\ (status (snd r) <> 200 -> published (fst r) = published w))
  /\ (let r := run (removeGood o) w in
      (status (snd r) = 204 ->
       published (fst r)
       = published w ++ [("good_deleted", "Goods with deleted")]%string)
      /\ (status (snd r) <> 204 -> published (fst r) = published w))
  /\ (let r := run (reprioritizeGood o gbody) w in
      (status (snd r) = 200 ->
       exists data,
         published (fst r)
         = published w ++ [("good_reprioritized"%string, data)])
      /\ (status (snd r) <> 200 -> published (fst r) = published w))
  /\ (let r := run (listGoods o) w in
      published_at_most "list_goods" w (fst r)
      /\ (status (snd r) <> 200 -> published (fst r) = published w)).
Proof.
  cbv zeta. unfold published_at_most.
  assert (Hok : forall (n : Z) (P Q : Prop), P -> (n = n -> P) /\ (n <> n -> Q))
    by (intros n P Q HP; split; [auto|intros Hn; exfalso; apply Hn; reflexivity]).
  split; [|split; [|split; [|split]]].
  - unfold createGoodHandler. unfold_monad.
    destruct (Decode_Goods gbody); crunch; apply Hok; eauto.
  - unfold updateGoodHandler. unfold_monad.
    destruct (Decode_Goods gbody); crunch; apply Hok; eauto.
  - unfold removeGoodHandler. crunch; apply Hok; eauto.
  - unfold reprioritizeGoodHandler. unfold_monad.
    destruct (Decode_NewPriority gbody); crunch; apply Hok; eauto.
  - unfold listGoodsHandler. unfold_monad.
    destruct (cache_get_error o) eqn:Hg; cbn -[db_Query].
    2: destruct (cache w !! "goods"%string) as [[text ttl]|] eqn:Hl;
       cbn -[db_Query].
    2: destruct (Unmarshal_GoodsList text) as [gs [|]]; cbn -[db_Query];
       [tauto|].
    all: rewrite db_Query_spec; cbv zeta; crunch;
      (split; [eauto|intros Hn; exfalso; apply Hn; reflexivity]).
Qed.

(** ** What the handlers leave alone *)

(** X3.  No handler writes to the projects relation or leaves a transaction
    open, and the two list handlers do not write to the goods relation
    either. *)
Theorem projects_and_reads_stay_untouched
    (o : Oracle) (w : World) (gbody : string) :
  tx w = None ->
  let after := fun h : M Response => fst (run h w) in
  (tbl_projects (after (listProjects o)) = tbl_projects w
   /\ tbl_goods (after (listProjects o)) = tbl_goods w
   /\ tx (after (listProjects o)) = None)
  /\ (tbl_projects (after (listGoods o)) = tbl_projects w
      /\ tbl_goods (after (listGoods o)) = tbl_goods w
      /\ tx (after (listGoods o)) = None)
  /\ (tbl_projects (after (createGood o gbody)) = tbl_projects w
      /\ tx (after (createGood o gbody)) = None)
  /\ (tbl_projects (after (updateGood o gbody)) = tbl_projects w
      /\ tx (after (updateGood o gbody)) = None)
  /\ (tbl_projects (after (removeGood o)) = tbl_projects w
      /\ tx (after (removeGood o)) = None)
  /\ (tbl_projects (after (reprioritizeGood o gbody)) = tbl_projects w
      /\ tx (after (reprioritizeGood o gbody)) = None).
Proof.
  intros Htx. cbv zeta.
  split; [|split; [|split; [|split; [|split]]]].
  - unfold listProjectsHandler. unfold_monad. rewrite db_Query_spec.
    cbv zeta. crunch.
  - unfold listGoodsHandler. unfold_monad.
    destruct (cache_get_error o) eqn:Hg; cbn -[db_Query].
    2: destruct (cache w !! "goods"%string) as [[text ttl]|] eqn:Hl;
       cbn -[db_Query].
    2: destruct (Unmarshal_GoodsList text) as [gs [|]]; cbn -[db_Query];
       [tauto|].
    all: rewrite db_Query_spec; cbv zeta; crunch.
  - unfold createGoodHandler. unfold_monad.
    destruct (Decode_Goods gbody); crunch.
  - unfold updateGoodHandler. unfold_monad.
    destruct (Decode_Goods gbody); crunch.
  - unfold removeGoodHandler. crunch.
  - unfold reprioritizeGoodHandler. unfold_monad.
    destruct (Decode_NewPriority gbody); crunch.
Qed.

(** X4.  Whatever the outcome, an update keeps the number of rows and each
    row's id, project and creation time; a reprioritization keeps all of a
    row but its priority; a create leaves the existing rows as they are
    and adds at most one row after them. *)
Theorem writes_keep_what_they_do_not_set
    (o : Oracle) (w : World) (gbody : string) :
  (let rel := tbl_goods (fst (run (updateGood o gbody) w)) in
   map r_id rel = map r_id (tbl_goods w)
   /\ map r_project_id rel = map r_project_id (tbl_goods w)
   /\ map r_created_at rel = map r_created_at (tbl_goods w))
  /\ (let rel := tbl_goods (fst (run (reprioritizeGood o gbody) w)) in
      map (reprioritize_row 0) rel = map (reprioritize_row 0) (tbl_goods w))
  /\ (exists added,
         tbl_goods (fst (run (createGood o gbody) w)) = tbl_goods w ++ added
         /\ (length added <= 1)%nat).
Proof.
  cbv zeta. split; [|split].
  - unfold updateGoodHandler. unfold_monad.
    destruct (Decode_Goods gbody); crunch; rewrite !map_map; auto.
  - unfold reprioritizeGoodHandler. unfold_monad.
    destruct (Decode_NewPriority gbody); crunch; rewrite !map_map; auto.
  - unfold createGoodHandler. unfold_monad.
    destruct (Decode_Goods gbody); crunch;
      first [ exists []; rewrite app_nil_r; split; [reflexivity|cbn; lia]
            | eexists; split; [reflexivity|cbn; lia] ].
Qed.

(** ** Request bodies *)

(** X5.  A body that is empty, is not JSON, or whose first JSON value is
    neither an object nor null is answered with 400 by the three handlers
    that read one, before any call to the store, the cache or the broker:
    the world, call log included, stays as it was. *)
Theorem bodies_that_are_not_objects_are_refused
    (o : Oracle) (w : World) (gbody : string) :
  (JSONText.first_value gbody = None
   \/ exists j, JSONText.first_value gbody = Some j
                /\ object_or_null j = false) ->
  run (createGood o gbody) w = (w, http_Error JSONDecodeError 400)
  /\ run (updateGood o gbody) w = (w, http_Error JSONDecodeError 400)
  /\ run (reprioritizeGood o gbody) w = (w, http_Error JSONDecodeError 400).
Proof.
  intros Hbad.
  assert (Hg : Decode_Goods gbody = None).
  { unfold_decoders. destruct Hbad as [->|(j & -> & Hj)]; [reflexivity|].
    destruct j; try discriminate Hj; reflexivity. }
  assert (Hp : Decode_NewPriority gbody = None).
  { unfold_decoders. destruct Hbad as [->|(j & -> & Hj)]; [reflexivity|].
    destruct j; try discriminate Hj; reflexivity. }
  unfold createGoodHandler, updateGoodHandler, reprioritizeGoodHandler.
  unfold_monad. rewrite Hg, Hp. auto.
Qed.

(** X6.  The bodies null and {} decode to the zero good.  An update with such
    a body that goes through therefore blanks every row: empty name and
    description, priority 0, removed false. *)
Theorem empty_update_blanks_every_row
    (o : Oracle) (w : World) (gbody : string) :
  JSONText.first_value gbody = Some JNull
  \/ JSONText.first_value gbody = Some (JObj []) ->
  begin_error o = None -> exec_error o = None -> commit_error o = None ->
  Decode_Goods gbody = Some (zeroGoods zeroTime)
  /\ tbl_goods (fst (run (updateGood o gbody) w))
     = map (update_row "" "" 0 false) (tbl_goods w).
Proof.
  intros Hj Hb He Hc.
  assert (Hg : Decode_Goods gbody = Some (zeroGoods zeroTime))
    by (unfold_decoders; destruct Hj as [->| ->]; reflexivity).
  split; [exact Hg|].
  unfold updateGoodHandler. unfold_monad. rewrite Hg, Hb, He, Hc. crunch.
Qed.

(** ** Priorities across creates *)

Lemma fold_max_snoc (l : list Z) (a x : Z) :
  fold_left Z.max (l ++ [x]) a = Z.max (fold_left Z.max l a) x.
Proof. rewrite fold_left_app. reflexivity. Qed.

(** A row whose priority is not below the maximum becomes the maximum. *)
Lemma max_priority_snoc (rel : list (@GoodsRow Time)) (r : GoodsRow) :
  max_priority rel <= r_priority r ->
  rel <> [] \/ 0 <= r_priority r ->
  max_priority (rel ++ [r]) = r_priority r.
Proof.
  unfold max_priority. destruct rel as [|r0 rel]; intros Hle Hne.
  - reflexivity.
  - cbn [map app] in *. rewrite map_app. cbn [map].
    rewrite fold_max_snoc. lia.
Qed.

(** The maximum after inserting a row one above it. *)
Lemma max_priority_after_insert (rel : list (@GoodsRow Time)) (r : GoodsRow) :
  r_priority r = max_priority rel + 1 ->
  max_priority (rel ++ [r]) = max_priority rel + 1.
Proof.
  intros Hr. rewrite <- Hr. apply max_priority_snoc; [lia|].
  destruct rel; [right; cbn in Hr; lia|left; discriminate].
Qed.

(** X7.  Two creates that go through, one after the other, store consecutive
    priorities: the maximum plus 1 and the maximum plus 2, as long as
    both fit Go's int. *)
Theorem consecutive_creates_get_consecutive_priorities
    (o1 o2 : Oracle) (w : World) (body1 body2 : string) (g1 g2 : Goods) :
  Decode_Goods body1 = Some g1 ->
  Decode_Goods body2 = Some g2 ->
  writes_through o1 -> writes_through o2 ->
  GoInt.in_range (max_priority (tbl_goods w)) = true ->
  max_priority (tbl_goods w) + 1 < GoInt.max_int ->
  let w1 := fst (run (createGood o1 body1) w) in
  let w2 := fst (run (createGood o2 body2) w1) in
  exists r1 r2,
    tbl_goods w2 = tbl_goods w ++ [r1; r2]
    /\ r_priority r1 = max_priority (tbl_goods w) + 1
    /\ r_priority r2 = max_priority (tbl_goods w) + 2.
Proof.
  intros Hd1 Hd2 (Hq1 & Hb1 & He1 & Hc1) (Hq2 & Hb2 & He2 & Hc2) Hr Hlt.
  cbv zeta.
  assert (Hs1 : scan_int (max_priority (tbl_goods w))
                = Some (max_priority (tbl_goods w)))
    by (unfold scan_int; rewrite Hr; reflexivity).
  pose proof (create_commits o1 w body1 g1 _ Hd1 Hq1 Hs1 Hb1 He1 Hc1) as H1.
  assert (Ha : GoInt.add (max_priority (tbl_goods w)) 1
               = max_priority (tbl_goods w) + 1)
    by (apply GoIntFacts.add_one_below_max; [exact Hr|lia]).
  rewrite Ha in H1.
  assert (Hm1 : max_priority (tbl_goods (fst (run (createGood o1 body1) w)))
                = max_priority (tbl_goods w) + 1)
    by (rewrite H1; apply max_priority_after_insert; reflexivity).
  assert (Hr1 : GoInt.in_range (max_priority (tbl_goods w) + 1) = true).
  { unfold GoInt.in_range, GoInt.min_int, GoInt.max_int in *.
    apply andb_true_iff in Hr as [Hlo Hhi].
    apply Z.leb_le in Hlo, Hhi.
    apply andb_true_iff; split; apply Z.leb_le; lia. }
  assert (Hs2 : scan_int
                  (max_priority
                     (tbl_goods (fst (run (createGood o1 body1) w))))
                = Some (max_priority (tbl_goods w) + 1))
    by (rewrite Hm1; unfold scan_int; rewrite Hr1; reflexivity).
  pose proof (create_commits o2 _ body2 g2 _ Hd2 Hq2 Hs2 Hb2 He2 Hc2) as H2.
  rewrite (GoIntFacts.add_one_below_max _ Hr1 Hlt) in H2.
  rewrite H2, H1, <- app_assoc. cbn [app].
  eexists _, _. split; [reflexivity|]. cbn [r_priority]. lia.
Qed.

(** X8.  When the read of the maximum reports sql.ErrNoRows the create goes on
    with a maximum of 0: the row it inserts has priority 1, whatever the
    priorities in the relation. *)
Theorem create_after_no_rows_error_stores_priority_one
    (o : Oracle) (w : World) (gbody : string) (g : Goods) :
  Decode_Goods gbody = Some g ->
  query_error o = Some ErrNoRows ->
  begin_error o = None -> exec_error o = None -> commit_error o = None ->
  exists r,
    tbl_goods (fst (run (createGood o gbody) w)) = tbl_goods w ++ [r]
    /\ r_priority r = 1.
Proof.
  intros Hd Hq Hb He Hc. unfold createGoodHandler. unfold_monad.
  rewrite Hd, Hq. cbn. rewrite Hb, He, Hc.
  crunch; eexists; split; reflexivity.
Qed.

(** ** The cached goods list across requests *)

Lemma list_hit (o : Oracle) (w : World) (text : string) (ttl : Z)
    (gs : slice Goods) :
  cache_get_error o = None ->
  cache w !! "goods"%string = Some (text, ttl) ->
  Unmarshal_GoodsList text = (gs, true) ->
  run (listGoods o) w
  = (log w (CacheGet "goods"), respondWithJSON 200 [OfGoods gs]).
Proof.
  intros Hg Hl Hu. unfold listGoodsHandler. unfold_monad.
  rewrite Hg. cbn -[db_Query]. rewrite Hl. cbn -[db_Query].
  rewrite Hu. reflexivity.
Qed.

(** The run of the goods list on a cold cache when the store read and the
    encoding go through. *)
Lemma list_miss (o : Oracle) (w : World) (gs : list Goods) (data : string) :
  cache_get_error o <> None \/ cache w !! "goods"%string = None ->
  query_error o = None -> rows_error o = None ->
  scan_all scan_Goods (tbl_goods w) = Some gs ->
  Marshal_GoodsList (extend None gs) = Some data ->
  run (listGoods o) w
  = let w1 := log (log (log w (CacheGet "goods")) (Query "goods"))
                  (CacheSet "goods" data redisCacheTime) in
    let w2 := match cache_set_error o with
              | Some _ => w1
              | None =>
                  set_cache w1 (<["goods"%string := (data, redisCacheTime)]>
                                  (cache w))
              end in
    let msg := ("Goods list " +:+ sprint_goods (extend None gs))%string in
    let w3 := log w2 (Publish "list_goods" msg) in
    match publish_error o with
    | Some e => (w3, http_Error e 500)
    | None => (add_published w3 ("list_goods"%string, msg),
               respondWithJSON 200 [OfGoods (extend None gs)])
    end.
Proof.
  intros Hmiss Hq Hr Hs Hm. unfold listGoodsHandler. unfold_monad.
  destruct (cache_get_error o) eqn:Hg; cbn -[db_Query].
  2: destruct (cache w !! "goods"%string) as [[text ttl]|] eqn:Hl;
     [exfalso; destruct Hmiss; congruence|]; cbn -[db_Query].
  all: rewrite db_Query_spec; cbv zeta; rewrite Hq, Hr; cbn [tbl_goods log];
    rewrite Hs; unfold_monad; fold (extend None gs); rewrite Hm;
    destruct (cache_set_error o), (publish_error o); reflexivity.
Qed.

(** The keys under which single goods are cached differ from the key of
    the list. *)
Lemma good_keys_are_not_the_list_key (suffix : string) :
  ("goods: " +:+ suffix)%string <> "goods"%string
  /\ ("goods:" +:+ suffix)%string <> "goods"%string.
Proof. split; cbn; discriminate. Qed.

Lemma writes_keep_the_list_key
    (o : Oracle) (w : World) (gbody : string) :
  cache (fst (run (createGood o gbody) w)) !! "goods"%string
  = cache w !! "goods"%string
  /\ cache (fst (run (updateGood o gbody) w)) !! "goods"%string
     = cache w !! "goods"%string
  /\ cache (fst (run (removeGood o) w)) = cache w
  /\ cache (fst (run (reprioritizeGood o gbody) w)) = cache w.
Proof.
  split; [|split; [|split]].
  - unfold createGoodHandler. unfold_monad.
    destruct (Decode_Goods gbody); crunch;
      apply lookup_insert_ne, good_keys_are_not_the_list_key.
  - unfold updateGoodHandler. unfold_monad.
    destruct (Decode_Goods gbody); crunch;
      apply lookup_insert_ne, good_keys_are_not_the_list_key.
  - unfold removeGoodHandler. crunch.
  - unfold reprioritizeGoodHandler. unfold_monad.
    destruct (Decode_NewPriority gbody); crunch.
Qed.

(** X9.  No write refreshes or drops the cached list: while the cache holds a
    goods list under "goods", a list request after a create, an update, a
    delete or a reprioritization is still answered with that list,
    whatever the write did to the store. *)
Theorem writes_leave_the_cached_list_in_place
    (o o' : Oracle) (w : World) (gbody : string) (text : string) (ttl : Z)
    (gs : slice Goods) :
  cache w !! "goods"%string = Some (text, ttl) ->
  Unmarshal_GoodsList text = (gs, true) ->
  cache_get_error o' = None ->
  let answer_after :=
    fun h : M Response => snd (run (listGoods o') (fst (run h w))) in
  answer_after (createGood o gbody) = respondWithJSON 200 [OfGoods gs]
  /\ answer_after (updateGood o gbody) = respondWithJSON 200 [OfGoods gs]
  /\ answer_after (removeGood o) = respondWithJSON 200 [OfGoods gs]
  /\ answer_after (reprioritizeGood o gbody)
     = respondWithJSON 200 [OfGoods gs].
Proof.
  intros Hl Hu Hg. cbv zeta.
  destruct (writes_keep_the_list_key o w gbody) as (Kc & Ku & Kd & Kr).
  split; [|split; [|split]].
  - rewrite (list_hit o' _ text ttl gs Hg); [reflexivity| |exact Hu].
    rewrite Kc. exact Hl.
  - rewrite (list_hit o' _ text ttl gs Hg); [reflexivity| |exact Hu].
    rewrite Ku. exact Hl.
  - rewrite (list_hit o' _ text ttl gs Hg); [reflexivity| |exact Hu].
    rewrite Kd. exact Hl.
  - rewrite (list_hit o' _ text ttl gs Hg); [reflexivity| |exact Hu].
    rewrite Kr. exact Hl.
Qed.

(** X10.  On a cold cache the list is cached before the notification goes out:
    when the broker then refuses the message the answer is 500, yet the
    cache already holds the encoded rows with the one-minute expiration. *)
Theorem list_caches_before_it_publishes
    (o : Oracle) (w : World) (gs : list Goods) (data : string) (e : error) :
  cache_get_error o <> None \/ cache w !! "goods"%string = None ->
  query_error o = None -> rows_error o = None ->
  scan_all scan_Goods (tbl_goods w) = Some gs ->
  Marshal_GoodsList (extend None gs) = Some data ->
  cache_set_error o = None ->
  publish_error o = Some e ->
  snd (run (listGoods o) w) = http_Error e 500
  /\ cache (fst (run (listGoods o) w)) !! "goods"%string
     = Some (data, redisCacheTime).
Proof.
  intros Hmiss Hq Hr Hs Hm Hset Hpub.
  rewrite (list_miss o w gs data Hmiss Hq Hr Hs Hm). cbv zeta.
  rewrite Hset, Hpub. cbn. split; [reflexivity|apply lookup_insert_eq].
Qed.

(** ** A NULL project_id *)

Lemma scan_all_app_None {R A : Type} (scan : R -> option A)
    (rows : list R) (r : R) :
  scan r = None -> scan_all scan (rows ++ [r]) = None.
Proof.
  intros Hr. induction rows as [|x rows IH]; cbn.
  - rewrite Hr. reflexivity.
  - rewrite IH. destruct (scan x); reflexivity.
Qed.

(** X11.  The INSERT leaves project_id to the column default.  Where that is
    NULL, the row of a create that went through cannot be scanned into
    [Goods]: the next goods list that reads the store answers 500, whatever
    else the relation holds. *)
Theorem null_project_of_a_create_breaks_the_list
    (o o' : Oracle) (w : World) (gbody : string) (g : Goods) (m : Z) :
  Decode_Goods gbody = Some g ->
  writes_through o ->
  scan_int (max_priority (tbl_goods w)) = Some m ->
  default_project o = None ->
  let w1 := fst (run (createGood o gbody) w) in
  cache_get_error o' <> None \/ cache w1 !! "goods"%string = None ->
  query_error o' = None -> rows_error o' = None ->
  snd (run (listGoods o') w1) = http_Error ScanError 500.
Proof.
  intros Hd (Hq & Hb & He & Hc) Hs Hnull. cbv zeta. intros Hmiss Hq' Hr'.
  pose proof (create_commits o w gbody g m Hd Hq Hs Hb He Hc) as Hrel.
  remember (fst (run (createGood o gbody) w)) as w1 eqn:Hw1. clear Hw1.
  unfold listGoodsHandler. unfold_monad.
  destruct (cache_get_error o') eqn:Hg; cbn -[db_Query].
  2: destruct (cache w1 !! "goods"%string) as [[text ttl]|] eqn:Hl;
     [exfalso; destruct Hmiss; congruence|]; cbn -[db_Query].
  all: rewrite db_Query_spec; cbv zeta; rewrite Hq', Hr'; cbn [tbl_goods log];
    rewrite Hrel, scan_all_app_None;
    [reflexivity|unfold scan_Goods; cbn; rewrite Hnull;
                 destruct (scan_int (serial o)); reflexivity].
Qed.

(** ** Listing projects *)

Lemma extend_Some {A : Type} (l a : list A) : extend (Some a) l = Some (a ++ l).
Proof.
  unfold extend. revert a. induction l as [|x l IH]; intros a; cbn.
  - rewrite app_nil_r. reflexivity.
  - unfold append at 2. cbn [elems]. rewrite IH, <- app_assoc. reflexivity.
Qed.

(** Appending to the nil slice gives nil for no element and the elements
    otherwise. *)
Lemma extend_None {A : Type} (l : list A) :
  extend None l = match l with [] => None | _ => Some l end.
Proof.
  destruct l as [|x l]; [reflexivity|].
  exact (extend_Some l [x]).
Qed.

(** X12.  The projects list makes one call, the query, and changes nothing.
    A query error is answered with 500 and that error; so is a result set
    that breaks off, whose rows are dropped; otherwise the answer is 200
    with the rows in the order of the relation, and with the nil slice
    when there is none. *)
Theorem projects_list_reads_once
    (o : Oracle) (w : World) :
  fst (run (listProjects o) w) = log w (Query "projects")
  /\ (forall e,
         query_error o = Some e ->
         snd (run (listProjects o) w) = http_Error e 500)
  /\ (forall n e,
         query_error o = None -> rows_error o = Some (n, e) ->
         scan_all scan_Projects (firstn n (tbl_projects w)) <> None ->
         snd (run (listProjects o) w) = http_Error e 500)
  /\ (forall ps,
         query_error o = None -> rows_error o = None ->
         scan_all scan_Projects (tbl_projects w) = Some ps ->
         snd (run (listProjects o) w)
         = respondWithJSON 200
             [OfProjects (match ps with [] => None | _ => Some ps end)]).
Proof.
  unfold listProjectsHandler. unfold_monad. rewrite db_Query_spec. cbv zeta.
  split; [|split; [|split]].
  - crunch.
  - intros e Hq. rewrite Hq. reflexivity.
  - intros n e Hq Hr Hs. rewrite Hq, Hr. cbn [tbl_projects log].
    destruct (scan_all scan_Projects (firstn n (tbl_projects w)));
      [reflexivity|congruence].
  - intros ps Hq Hr Hs. rewrite Hq, Hr. cbn [tbl_projects log]. rewrite Hs.
    cbn. rewrite extend_None. reflexivity.
Qed.

(** ** The per-good cache entries *)

(** X13.  A create and an update that go through cache the encoded good under a
    key made of the id in the request body ("goods: " and "goods:" before
    the number), not of the id the store assigned.  The goods list reads
    the key "goods" alone: its answer is the same for any two caches that
    agree on that key. *)
Theorem per_good_entries_are_written_and_never_read
    (o : Oracle) (w : World) (gbody : string) (g : Goods) (m : Z) :
  Decode_Goods gbody = Some g ->
  (forall data,
      writes_through o ->
      scan_int (max_priority (tbl_goods w)) = Some m ->
      Marshal_Goods (with_Priority g (GoInt.add m 1)) = Some data ->
      cache_set_error o = None ->
      cache (fst (run (createGood o gbody) w))
      = <[("goods: " +:+ pretty (ID g))%string := (data, redisCacheTime)]>
          (cache w))
  /\ (forall data,
         writes_through o ->
         Marshal_Goods g = Some data ->
         cache_set_error o = None ->
         cache (fst (run (updateGood o gbody) w))
         = <[("goods:" +:+ pretty (ID g))%string := (data, redisCacheTime)]>
             (cache w))
  /\ (forall c : gmap string (string * Z),
         c !! "goods"%string = cache w !! "goods"%string ->
         snd (run (listGoods o) (set_cache w c))
         = snd (run (listGoods o) w)).
Proof.
  intros Hd. split; [|split].
  - intros data (Hq & Hb & He & Hc) Hs Hm Hset.
    unfold createGoodHandler. unfold_monad.
    rewrite Hd, Hq. cbn. rewrite Hs. cbn. rewrite Hb, He, Hc. cbn -[pretty].
    rewrite Hm. cbn -[pretty]. rewrite Hset.
    destruct (publish_error o); reflexivity.
  - intros data (Hq & Hb & He & Hc) Hm Hset.
    unfold updateGoodHandler. unfold_monad.
    rewrite Hd, Hb, He, Hc. cbn -[pretty].
    rewrite Hm. cbn -[pretty]. rewrite Hset.
    destruct (publish_error o); reflexivity.
  - intros c Hc. unfold listGoodsHandler. unfold_monad.
    destruct (cache_get_error o) eqn:Hg; cbn -[db_Query].
    + rewrite !db_Query_spec. cbv zeta. cbn [tbl_goods log set_cache].
      crunch.
    + rewrite Hc.
      destruct (cache w !! "goods"%string) as [[text ttl]|] eqn:Hl;
        cbn -[db_Query].
      * destruct (Unmarshal_GoodsList text) as [gs [|]]; cbn -[db_Query];
          [reflexivity|].
        rewrite !db_Query_spec. cbv zeta. cbn [tbl_goods log set_cache].
        crunch.
      * rewrite !db_Query_spec. cbv zeta. cbn [tbl_goods log set_cache].
        crunch.
Qed.

(** ** Routing *)

(** X14.  The six registered pairs of path and method reach their handlers; no
    other pair reaches any, so a registered path under another method is
    not served. *)
Theorem router_serves_six_routes (o : Oracle) (req : Request) :
  (path req = "/projects"%string -> method req = "GET"%string ->
   router zeroTime parseTime formatTime quote unquote equal_fold
          sprint_goods o req = Some (listProjects o))
  /\ (path req = "/goods/list"%string -> method req = "GET"%string ->
      router zeroTime parseTime formatTime quote unquote equal_fold
             sprint_goods o req = Some (listGoods o))
  /\ (path req = "/good/create"%string -> method req = "POST"%string ->
      router zeroTime parseTime formatTime quote unquote equal_fold
             sprint_goods o req = Some (createGood o (request_body req)))
  /\ (path req = "/good/update"%string -> method req = "PATCH"%string ->
      router zeroTime parseTime formatTime quote unquote equal_fold
             sprint_goods o req = Some (updateGood o (request_body req)))
  /\ (path req = "/good/delete"%string -> method req = "DELETE"%string ->
      router zeroTime parseTime formatTime quote unquote equal_fold
             sprint_goods o req = Some (removeGood o))
  /\ (path req = "/goods/reprioritize"%string ->
      method req = "PATCH"%string ->
      router zeroTime parseTime formatTime quote unquote equal_fold
             sprint_goods o req
      = Some (reprioritizeGood o (request_body req)))
  /\ (router zeroTime parseTime formatTime quote unquote equal_fold
             sprint_goods o req <> None ->
      In (path req, method req)
         [("/projects", "GET"); ("/goods/list", "GET");
          ("/good/create", "POST"); ("/good/update", "PATCH");
          ("/good/delete", "DELETE"); ("/goods/reprioritize", "PATCH")]%string).
Proof.
  unfold router, routes.
  repeat split; try (intros -> ->; reflexivity).
  cbn [find fst snd].
  repeat match goal with
         | |- context [String.eqb ?a ?b] =>
             destruct (String.eqb_spec a b) as [<-|?]
         end; cbn [andb option_map]; intros H; try congruence; cbn; tauto.
Qed.

(** ** What is encoded is read back *)

Lemma string_reads_back_spec (s : string) :
  string_reads_back quote unquote s = true ->
  JSONText.literal_text (quote s) /\ unquote (quote s) = s.
Proof.
  unfold string_reads_back. intros H. apply andb_true_iff in H as [Hl He].
  split; [apply JSONTextFacts.is_literal_spec, Hl|apply String.eqb_eq, He].
Qed.

Lemma keys_read_back_spec (f : GoodsField) :
  keys_read_back unquote = true -> unquote (tag f) = tag f.
Proof.
  unfold keys_read_back, goods_fields. cbn [forallb]. intros H.
  repeat (apply andb_true_iff in H as [?H H]).
  destruct f; apply String.eqb_eq; assumption.
Qed.

Lemma field_named_tag (f : GoodsField) :
  field_named equal_fold goods_fields tag (tag f) = Some f.
Proof. destruct f; reflexivity. Qed.

Lemma json_Goods_well_formed (g : Goods) (j : json) :
  reads_back parseTime formatTime quote unquote g ->
  json_Goods formatTime quote g = Some j -> JSONText.well_formed j.
Proof.
  intros (_ & Hn & Hd & (x & Hf & Hx & _)) Hj. unfold json_Goods in Hj.
  rewrite Hf in Hj. injection Hj as <-.
  apply string_reads_back_spec in Hn as [Hn _].
  apply string_reads_back_spec in Hd as [Hd _].
  cbn [JSONText.well_formed fst snd]. unfold json_int.
  repeat split;
    first [ apply JSONTextFacts.pretty_number_text
          | apply JSONTextFacts.is_literal_spec; reflexivity
          | assumption
          | apply JSONTextFacts.is_literal_spec; assumption ].
Qed.

(** A good written by the encoder is decoded to itself, whatever the
    target held. *)
Lemma decode_json_Goods (g : Goods) (j : json) :
  keys_read_back unquote = true ->
  reads_back parseTime formatTime quote unquote g ->
  json_Goods formatTime quote g = Some j ->
  decode_Goods zeroTime parseTime unquote equal_fold (zeroGoods zeroTime) j
  = (g, Clean).
Proof.
  intros Hk (Hi & Hn & Hd & (x & Hf & Hx & Hp)) Hj. unfold json_Goods in Hj.
  rewrite Hf in Hj. injection Hj as <-.
  apply string_reads_back_spec in Hn as [_ Hn].
  apply string_reads_back_spec in Hd as [_ Hd].
  unfold ints_fit in Hi.
  apply andb_true_iff in Hi as [Hi Hpr]. apply andb_true_iff in Hi as [Hid Hpid].
  pose proof (keys_read_back_spec FID Hk) as K1.
  pose proof (keys_read_back_spec FProjectID Hk) as K2.
  pose proof (keys_read_back_spec FName Hk) as K3.
  pose proof (keys_read_back_spec FDescription Hk) as K4.
  pose proof (keys_read_back_spec FPriority Hk) as K5.
  pose proof (keys_read_back_spec FRemoved Hk) as K6.
  pose proof (keys_read_back_spec FCreatedAt Hk) as K7.
  cbn [tag] in K1, K2, K3, K4, K5, K6, K7.
  unfold decode_Goods. cbn [decode_members].
  rewrite K1, K2, K3, K4, K5, K6, K7.
  pose proof (field_named_tag FID) as F1.
  pose proof (field_named_tag FProjectID) as F2.
  pose proof (field_named_tag FName) as F3.
  pose proof (field_named_tag FDescription) as F4.
  pose proof (field_named_tag FPriority) as F5.
  pose proof (field_named_tag FRemoved) as F6.
  pose proof (field_named_tag FCreatedAt) as F7.
  cbn [tag] in F1, F2, F3, F4, F5, F6, F7.
  rewrite F1, F2, F3, F4, F5, F6, F7.
  unfold store_field, json_int, decode_int, decode_string, decode_bool,
    decode_time, with_Priority.
  rewrite !JSONTextFacts.parse_int_pretty by assumption.
  cbn [ID ProjectID Name Description Priority Removed CreatedAt zeroGoods
       worse].
  rewrite Hp, Hn, Hd. destruct g; reflexivity.
Qed.

Lemma json_all_Goods (gs : list Goods) (js : list json) :
  keys_read_back unquote = true ->
  Forall (reads_back parseTime formatTime quote unquote) gs ->
  json_all (json_Goods formatTime quote) gs = Some js ->
  JSONText.well_formed (JArr js)
  /\ forall acc,
       decode_elements zeroTime parseTime unquote equal_fold acc js
       = (acc ++ gs, Clean).
Proof.
  intros Hk. revert js. induction gs as [|g gs IH]; intros js Hall Hj.
  - injection Hj as <-. split; [exact I|]. intros acc.
    rewrite app_nil_r. reflexivity.
  - apply Forall_cons_iff in Hall as [Hg Hall]. cbn [json_all] in Hj.
    destruct (json_Goods formatTime quote g) as [j|] eqn:Ej; [|discriminate Hj].
    destruct (json_all (json_Goods formatTime quote) gs) as [js'|] eqn:Ejs;
      [|discriminate Hj].
    injection Hj as <-. destruct (IH js' Hall eq_refl) as [Hw Hdec].
    split.
    + apply JSONTextFacts.well_formed_array_cons.
      split; [exact (json_Goods_well_formed g j Hg Ej)|exact Hw].
    + intros acc. cbn [decode_elements].
      rewrite (decode_json_Goods g j Hk Hg Ej), Hdec, <- app_assoc.
      reflexivity.
Qed.

(** Goods whose times can be written can be encoded. *)
Lemma json_all_Goods_total (gs : list Goods) :
  Forall (reads_back parseTime formatTime quote unquote) gs ->
  exists js, json_all (json_Goods formatTime quote) gs = Some js.
Proof.
  induction gs as [|g gs IH]; intros Hall; [exists []; reflexivity|].
  apply Forall_cons_iff in Hall as [(_ & _ & _ & (x & Hf & _)) Hall].
  destruct (IH Hall) as [js Hjs]. cbn [json_all]. unfold json_Goods at 1.
  rewrite Hf, Hjs. eexists. reflexivity.
Qed.

(** [json.Unmarshal] into a nil slice reads back the slice [json.Marshal]
    wrote: nil from null, the elements in their order otherwise. *)
Lemma Unmarshal_Marshal (s : slice Goods) (text : string) :
  keys_read_back unquote = true ->
  Forall (reads_back parseTime formatTime quote unquote) (elems s) ->
  Marshal_GoodsList s = Some text ->
  Unmarshal_GoodsList text = (s, true).
Proof.
  intros Hk Hall Hm. unfold_encoders_in Hm. unfold_decoders.
  destruct s as [gs|].
  - destruct (json_all (json_Goods formatTime quote) gs) as [js|] eqn:Ejs;
      [|discriminate Hm].
    cbn [option_map] in Hm. injection Hm as <-.
    destruct (json_all_Goods gs js Hk Hall Ejs) as [Hw Hdec].
    rewrite <- JSONTextFacts.render_array,
      (JSONTextFacts.whole_value_render (JArr js) Hw).
    rewrite (Hdec []). reflexivity.
  - injection Hm as <-. reflexivity.
Qed.

(** [Decode] reads back the good [json.Marshal] wrote, and leaves what
    follows it unread. *)
Lemma Decode_Marshal (g : Goods) (data rest : string) :
  keys_read_back unquote = true ->
  reads_back parseTime formatTime quote unquote g ->
  JSONText.stops rest ->
  Marshal_Goods g = Some data ->
  Decode_Goods (data +:+ rest) = Some g.
Proof.
  intros Hk Hg Hs Hm. unfold_encoders_in Hm.
  destruct (json_Goods formatTime quote g) as [j|] eqn:Ej; [|discriminate Hm].
  cbn [option_map] in Hm. injection Hm as <-. unfold_decoders.
  rewrite (JSONTextFacts.first_value_render j rest
             (json_Goods_well_formed g j Hg Ej) Hs).
  fold (decode_Goods zeroTime parseTime unquote equal_fold (zeroGoods zeroTime) j).
  rewrite (decode_json_Goods g j Hk Hg Ej). reflexivity.
Qed.

Lemma Marshal_Goods_total (g : Goods) :
  reads_back parseTime formatTime quote unquote g ->
  exists data, Marshal_Goods g = Some data.
Proof.
  intros (_ & _ & _ & (x & Hf & _)). unfold_encoders. unfold json_Goods.
  rewrite Hf. eexists. reflexivity.
Qed.

(** What [rows.Scan] accepted fits Go's [int]. *)
Lemma scan_all_Goods_fit (rows : list (@GoodsRow Time)) (gs : list Goods) :
  scan_all scan_Goods rows = Some gs ->
  Forall (fun g : Goods => ints_fit g = true) gs.
Proof.
  revert gs. induction rows as [|r rows IH]; intros gs H.
  - injection H as <-. constructor.
  - cbn [scan_all] in H.
    destruct (scan_Goods r) as [g|] eqn:Eg; [|discriminate H].
    destruct (scan_all scan_Goods rows) as [gs'|]; [|discriminate H].
    injection H as <-. constructor; [|apply IH; reflexivity].
    unfold scan_Goods, scan_int in Eg.
    destruct (GoInt.in_range (r_id r)) eqn:E1; [|discriminate Eg].
    destruct (r_project_id r) as [pid|]; [|discriminate Eg].
    destruct (GoInt.in_range (r_priority r)) eqn:E2; [|discriminate Eg].
    destruct (GoInt.in_range pid) eqn:E3; [|discriminate Eg].
    injection Eg as <-. unfold ints_fit. cbn. rewrite E1, E2, E3. reflexivity.
Qed.

(** X15.  The goods list answered on a cold cache is the list the next request
    is answered with from the cache: the second request makes one call, the
    cache read, and its answer names the rows the first one scanned, nil
    when there were none.  That holds also when the first request failed to
    publish; when it published, both answers are the same. *)
Theorem warm_list_repeats_the_cold_list
    (o o' : Oracle) (w : World) (gs : list Goods) :
  cache_get_error o <> None \/ cache w !! "goods"%string = None ->
  query_error o = None -> rows_error o = None ->
  scan_all scan_Goods (tbl_goods w) = Some gs ->
  keys_read_back unquote = true ->
  Forall (texts_read_back parseTime formatTime quote unquote) gs ->
  cache_set_error o = None ->
  cache_get_error o' = None ->
  let w1 := fst (run (listGoods o) w) in
  run (listGoods o') w1
  = (log w1 (CacheGet "goods"),
     respondWithJSON 200 [OfGoods (extend None gs)])
  /\ (publish_error o = None ->
      snd (run (listGoods o) w)
      = respondWithJSON 200 [OfGoods (extend None gs)]).
Proof.
  intros Hmiss Hq Hr Hs Hk Ht Hset Hget. cbv zeta.
  assert (Hrb : Forall (reads_back parseTime formatTime quote unquote) gs).
  { pose proof (scan_all_Goods_fit _ _ Hs) as Hfit.
    rewrite List.Forall_forall in *. intros g Hg. split; auto. }
  assert (He : elems (extend None gs) = gs)
    by (rewrite extend_None; destruct gs; reflexivity).
  assert (Hm : exists data, Marshal_GoodsList (extend None gs) = Some data).
  { unfold_encoders. destruct (extend None gs) as [l|] eqn:El.
    - cbn [elems] in He. subst l.
      destruct (json_all_Goods_total gs Hrb) as [js ->]. eexists. reflexivity.
    - eexists. reflexivity. }
  destruct Hm as [data Hm].
  assert (Hu : Unmarshal_GoodsList data = (extend None gs, true)).
  { apply Unmarshal_Marshal; [exact Hk|rewrite He; exact Hrb|exact Hm]. }
  rewrite (list_miss o w gs data Hmiss Hq Hr Hs Hm). cbv zeta. rewrite Hset.
  split.
  - destruct (publish_error o); cbn [fst];
      apply (list_hit o' _ data redisCacheTime _ Hget);
      solve [exact Hu | cbn; apply lookup_insert_eq].
  - intros ->. reflexivity.
Qed.

(** X16.  The message of a create that went through is a body the service reads
    back as the good it answered with, the server's priority included; the
    message of an update is read back as the good of the request. *)
Theorem notifications_are_bodies_of_the_same_good
    (o : Oracle) (w : World) (gbody : string) (g : Goods) (m : Z) :
  Decode_Goods gbody = Some g ->
  writes_through o -> publish_error o = None ->
  keys_read_back unquote = true ->
  (scan_int (max_priority (tbl_goods w)) = Some m ->
   reads_back parseTime formatTime quote unquote
     (with_Priority g (GoInt.add m 1)) ->
   exists data,
     published (fst (run (createGood o gbody) w))
     = published w ++ [("new_good_created"%string, data)]
     /\ Decode_Goods data = Some (with_Priority g (GoInt.add m 1)))
  /\ (reads_back parseTime formatTime quote unquote g ->
      exists data,
        published (fst (run (updateGood o gbody) w))
        = published w ++ [("good_updated"%string, data)]
        /\ Decode_Goods data = Some g).
Proof.
  intros Hd (Hq & Hb & He & Hc) Hp Hk. split.
  - intros Hs Hg. destruct (Marshal_Goods_total _ Hg) as [data Hm].
    exists data. split.
    + apply (create_succeeds o w gbody g m data Hd Hq Hs Hb He Hc Hm Hp).
    + rewrite <- (JSONTextFacts.append_nil_r data).
      apply Decode_Marshal; [exact Hk|exact Hg|exact I|exact Hm].
  - intros Hg. destruct (Marshal_Goods_total _ Hg) as [data Hm].
    exists data. split.
    + unfold updateGoodHandler. unfold_monad.
      rewrite Hd, Hb, He, Hc. cbn -[pretty]. rewrite Hm. cbn -[pretty].
      rewrite Hp. destruct (cache_set_error o); reflexivity.
    + rewrite <- (JSONTextFacts.append_nil_r data).
      apply Decode_Marshal; [exact Hk|exact Hg|exact I|exact Hm].
Qed.

(** ** Priorities after a bulk write *)

Lemma fold_max_same (l : list Z) (p : Z) :
  Forall (fun x => x = p) l -> fold_left Z.max l p = p.
Proof.
  induction l as [|x l IH]; intros H; [reflexivity|].
  apply Forall_cons_iff in H as [-> H]. cbn [fold_left].
  rewrite Z.max_id. exact (IH H).
Qed.

Lemma max_priority_constant (rel : list (@GoodsRow Time))
    (f : @GoodsRow Time -> @GoodsRow Time) (p : Z) :
  rel <> [] -> (forall r, r_priority (f r) = p) ->
  max_priority (map f rel) = p.
Proof.
  intros Hne Hf. unfold max_priority. rewrite map_map.
  destruct rel as [|r rel]; [congruence|]. cbn [map]. rewrite Hf.
  apply fold_max_same. apply List.Forall_forall. intros x Hx.
  apply in_map_iff in Hx as (r' & <- & _). apply Hf.
Qed.

Lemma parse_int_fits (lit : string) (n : Z) :
  parse_int lit = Some n -> GoInt.in_range n = true.
Proof.
  unfold parse_int.
  destruct (match lit with
            | String "-" r => (true, r)
            | _ => (false, lit)
            end) as [neg ds].
  destruct ds as [|c ds]; [discriminate|].
  destruct (decimal (String c ds) 0) as [v|]; [|discriminate].
  destruct (GoInt.in_range (if neg then - v else v)) eqn:E; [|discriminate].
  intros H. injection H as <-. exact E.
Qed.

(** A decoded reprioritization request names a value of Go's [int]. *)
Lemma Decode_NewPriority_fits (pbody : string) (p : NewPriority) :
  Decode_NewPriority pbody = Some p ->
  GoInt.in_range (n_NewPriority p) = true.
Proof.
  unfold_decoders. destruct (JSONText.first_value pbody) as [j|]; [|discriminate].
  assert (Hfold : forall ms acc,
             GoInt.in_range (n_NewPriority (fst acc)) = true ->
             GoInt.in_range
               (n_NewPriority
                  (fst (fold_left
                          (fun (acc : NewPriority * outcome)
                               (kv : string * json) =>
                             match field_named equal_fold [tt]
                                     (fun _ => "newPriority"%string)
                                     (unquote (fst kv)) with
                             | None => acc
                             | Some _ =>
                                 let '(x, o) :=
                                   decode_int (n_NewPriority (fst acc))
                                              (snd kv) in
                                 ({| n_NewPriority := x |}, worse (snd acc) o)
                             end) ms acc))) = true).
  { induction ms as [|kv ms IH]; intros acc Hacc; [exact Hacc|].
    cbn [fold_left]. apply IH.
    destruct (field_named equal_fold [tt] _ _); [|exact Hacc].
    unfold decode_int. destruct (snd kv) as [| |lit| | |]; try exact Hacc.
    destruct (parse_int lit) as [n|] eqn:En; [|exact Hacc].
    exact (parse_int_fits lit n En). }
  destruct j as [| | | | |ms]; try discriminate.
  - intros H. injection H as <-. reflexivity.
  - specialize (Hfold ms (zeroNewPriority, Clean) eq_refl).
    destruct (fold_left _ ms _) as [q []]; try discriminate.
    intros H. injection H as <-. exact Hfold.
Qed.

(** X17.  The priority of a create follows the last bulk write.  After a delete
    that went through, the relation holds the created row alone, with
    priority 1.  After a reprioritization to [p] of a relation that is
    not empty, the created row has priority [p + 1], whatever the
    priorities were before. *)
Theorem create_priority_follows_the_last_bulk_write
    (o o' : Oracle) (w : World) (gbody pbody : string) (g : Goods)
    (p : NewPriority) :
  Decode_Goods gbody = Some g ->
  Decode_NewPriority pbody = Some p ->
  begin_error o = None -> exec_error o = None -> commit_error o = None ->
  writes_through o' ->
  (exists r,
      tbl_goods (fst (run (createGood o' gbody) (fst (run (removeGood o) w))))
      = [r]
      /\ r_priority r = 1)
  /\ (tbl_goods w <> [] ->
      n_NewPriority p < GoInt.max_int ->
      exists r,
        tbl_goods (fst (run (createGood o' gbody)
                          (fst (run (reprioritizeGood o pbody) w))))
        = map (reprioritize_row (n_NewPriority p)) (tbl_goods w) ++ [r]
        /\ r_priority r = n_NewPriority p + 1).
Proof.
  intros Hd Hpd Hb He Hc (Hq' & Hb' & He' & Hc').
  assert (Hdel : tbl_goods (fst (run (removeGood o) w)) = []).
  { unfold removeGoodHandler. unfold_monad. rewrite Hb, He, Hc. crunch. }
  assert (Hrep : tbl_goods (fst (run (reprioritizeGood o pbody) w))
                 = map (reprioritize_row (n_NewPriority p)) (tbl_goods w)).
  { unfold reprioritizeGoodHandler. unfold_monad.
    rewrite Hpd, Hb, He, Hc. crunch. }
  split.
  - rewrite (create_commits o' _ gbody g 0 Hd Hq'); try assumption.
    + rewrite Hdel. eexists. split; reflexivity.
    + rewrite Hdel. reflexivity.
  - intros Hne Hlt.
    pose proof (Decode_NewPriority_fits pbody p Hpd) as Hr.
    assert (Hmax : max_priority
                     (tbl_goods (fst (run (reprioritizeGood o pbody) w)))
                   = n_NewPriority p).
    { rewrite Hrep. apply max_priority_constant; [exact Hne|reflexivity]. }
    rewrite (create_commits o' _ gbody g (n_NewPriority p) Hd Hq');
      try assumption.
    + rewrite Hrep. eexists. split; [reflexivity|]. cbn [r_priority].
      apply GoIntFacts.add_one_below_max; assumption.
    + rewrite Hmax. unfold scan_int. rewrite Hr. reflexivity.
Qed.

(** ** What of a body reaches the store *)

(** X18.  The store sees of a body only the fields the statement names.  Two
    update bodies that agree on name, description, priority and removed
    leave the same relation, whatever ids, projects and creation times
    they carry; two create bodies that agree on name, description and
    removed leave the same relation, whatever priorities they carry
    besides. *)
Theorem store_sees_only_the_named_fields
    (o : Oracle) (w : World) (body1 body2 : string) (g1 g2 : Goods) :
  Decode_Goods body1 = Some g1 ->
  Decode_Goods body2 = Some g2 ->
  Name g1 = Name g2 -> Description g1 = Description g2 ->
  Removed g1 = Removed g2 ->
  (Priority g1 = Priority g2 ->
   tbl_goods (fst (run (updateGood o body1) w))
   = tbl_goods (fst (run (updateGood o body2) w)))
  /\ tbl_goods (fst (run (createGood o body1) w))
     = tbl_goods (fst (run (createGood o body2) w)).
Proof.
  intros Hd1 Hd2 Hn Hde Hr. split.
  - intros Hp. unfold updateGoodHandler. unfold_monad.
    rewrite Hd1, Hd2, Hn, Hde, Hp, Hr. crunch.
  - unfold createGoodHandler. unfold_monad.
    rewrite Hd1, Hd2. cbn -[pretty]. rewrite Hn, Hde, Hr. crunch.
Qed.

(** ** A goods list that cannot read the store *)

(** X19.  When the cache does not answer the goods list and the store read
    fails (the query is refused, the result set breaks off, or a row does
    not fit), the answer is 500, nothing is cached and nothing is
    published: the only calls are the cache read and the query. *)
Theorem failed_list_read_caches_nothing
    (o : Oracle) (w : World) :
  cache_get_error o <> None \/ cache w !! "goods"%string = None ->
  query_error o <> None \/ rows_error o <> None
  \/ scan_all scan_Goods (tbl_goods w) = None ->
  status (snd (run (listGoods o) w)) = 500
  /\ fst (run (listGoods o) w)
     = log (log w (CacheGet "goods")) (Query "goods").
Proof.
  intros Hmiss Hfail. unfold listGoodsHandler. unfold_monad.
  destruct (cache_get_error o) eqn:Hg; cbn -[db_Query].
  2: destruct (cache w !! "goods"%string) as [[text ttl]|] eqn:Hl;
     [exfalso; destruct Hmiss; congruence|]; cbn -[db_Query].
  all: rewrite db_Query_spec; cbv zeta; cbn [tbl_goods log];
    destruct (query_error o) eqn:Hq; [split; reflexivity|];
    destruct (rows_error o) as [[n e']|] eqn:Hr;
    [destruct (scan_all scan_Goods (firstn n (tbl_goods w)));
     split; reflexivity|];
    destruct (scan_all scan_Goods (tbl_goods w)) eqn:Hs;
    [exfalso; destruct Hfail as [H|[H|H]]; congruence|split; reflexivity].
Qed.

End Properties.

(** * Concrete runs *)

(** C1 on two goods named a and b with priorities 1 and 2: after the
    update both are named Widget with priority 99, after the delete none is
    left, after the reprioritization both have priority 5; neither row is
    what it was. *)
Lemma bulk_statements_touch_every_row_witness :
  let updated :=
    tbl_goods (fst (run (Reference.updateGood Reference.all_well
                                              Reference.widget_body)
                        Reference.two_goods)) in
  let reprioritized :=
    tbl_goods (fst (run (Reference.reprioritizeGood Reference.all_well
                                                    Reference.five_body)
                        Reference.two_goods)) in
  (map r_name (tbl_goods Reference.two_goods) = ["a"; "b"]%string
   /\ map r_priority (tbl_goods Reference.two_goods) = [1; 2])
  /\ (map r_id updated = [1; 2]
      /\ map r_name updated = ["Widget"; "Widget"]%string
      /\ map r_description updated = ["d"; "d"]%string
      /\ map r_priority updated = [99; 99]
      /\ Forall (fun r => r_name r = "Widget"%string
                          /\ r_description r = "d"%string
                          /\ r_priority r = 99
                          /\ r_removed r = false) updated
      /\ nth_error updated 0 <> Some (Reference.row 1 "a" 1)
      /\ nth_error updated 1 <> Some (Reference.row 2 "b" 2))
  /\ tbl_goods (fst (run (Reference.removeGood Reference.all_well)
                         Reference.two_goods)) = []
  /\ (map r_id reprioritized = [1; 2]
      /\ map r_priority reprioritized = [5; 5]
      /\ Forall (fun r => r_priority r = 5) reprioritized
      /\ nth_error reprioritized 0 <> Some (Reference.row 1 "a" 1)
      /\ nth_error reprioritized 1 <> Some (Reference.row 2 "b" 2)).
Proof.
  cbv zeta.
  destruct (bulk_statements_touch_every_row
              Reference.zeroTime Reference.parseTime Reference.formatTime
              Reference.quote Reference.unquote Reference.equal_fold
              Reference.all_well Reference.two_goods
              Reference.widget_body Reference.widget
              Reference.five_body {| n_NewPriority := 5 |})
    as ((Uid & Uall & Udiff) & Del & (Rid & Rall & Rdiff)).
  - reflexivity.
  - reflexivity.
  - reflexivity.
  - vm_compute. reflexivity.
  - vm_compute. reflexivity.
  - unfold Reference.updateGood, Reference.removeGood,
      Reference.reprioritizeGood.
    split; [split; reflexivity|]. split; [|split; [exact Del|]].
    + split; [exact Uid|]. split; [vm_compute; reflexivity|].
      split; [vm_compute; reflexivity|]. split; [vm_compute; reflexivity|].
      split; [exact Uall|]. split.
      * intros H. apply (Udiff 0%nat (Reference.row 1 "a" 1) _ eq_refl H).
        -- left. discriminate.
        -- reflexivity.
      * intros H. apply (Udiff 1%nat (Reference.row 2 "b" 2) _ eq_refl H).
        -- left. discriminate.
        -- reflexivity.
    + split; [exact Rid|]. split; [vm_compute; reflexivity|].
      split; [exact Rall|]. split.
      * intros H. apply (Rdiff 0%nat (Reference.row 1 "a" 1) _ eq_refl H).
        -- discriminate.
        -- reflexivity.
      * intros H. apply (Rdiff 1%nat (Reference.row 2 "b" 2) _ eq_refl H).
        -- discriminate.
        -- reflexivity.
Defined.

(** C2 as stated fails where the maximum priority is the largest Go int:
    the inserted row carries the smallest one, not the maximum plus 1. *)
Lemma create_priority_wraps_at_max_int :
  let w := Reference.at_max_int in
  let w' := fst (run (Reference.createGood Reference.all_well
                                           Reference.gadget_body) w) in
  max_priority (tbl_goods w) = 9223372036854775807
  /\ map r_priority (tbl_goods w')
     = [9223372036854775807; -9223372036854775808]
  /\ ~ (exists r,
           tbl_goods w' = tbl_goods w ++ [r]
           /\ r_priority r = max_priority (tbl_goods w) + 1).
Proof.
  cbv zeta. split; [reflexivity|]. split; [vm_compute; reflexivity|].
  intros (r & Hr & Hp). vm_compute in Hr.
  injection Hr as <-. vm_compute in Hp. discriminate Hp.
Qed.

(** C2 as amended, on two goods of priorities 1 and 2. *)
Lemma create_priority_is_max_plus_one_witness :
  Reference.decodeGood Reference.widget_body = Some Reference.widget
  /\ max_priority (tbl_goods Reference.two_goods) = 2
  /\ exists r,
      tbl_goods (fst (run (Reference.createGood Reference.all_well
                                                Reference.widget_body)
                          Reference.two_goods))
      = tbl_goods Reference.two_goods ++ [r]
      /\ r_priority r = max_priority (tbl_goods Reference.two_goods) + 1
      /\ Forall (fun x => r_priority x < r_priority r)
                (tbl_goods Reference.two_goods)
      /\ (tbl_goods Reference.two_goods = [] -> r_priority r = 1).
Proof.
  split; [vm_compute; reflexivity|]. split; [reflexivity|].
  unfold Reference.createGood.
  apply (create_priority_is_max_plus_one
           Reference.zeroTime Reference.parseTime Reference.formatTime
           Reference.quote Reference.unquote Reference.equal_fold
           Reference.all_well Reference.two_goods
           Reference.widget_body Reference.widget);
    vm_compute; reflexivity.
Defined.

(** The first good of an empty store gets priority 1 and the answer 201. *)
Example create_in_empty_store :
  let r := run (Reference.createGood
                  Reference.all_well
                  (JSONText.dq "{'name':'Widget','description':'d'}"))
               (Reference.world_of [] [] ∅) in
  status (snd r) = 201 /\ map r_priority (tbl_goods (fst r)) = [1].
Proof. vm_compute. split; reflexivity. Qed.

(** C3 with the broker down: four answers of 500, four writes kept. *)
Lemma publish_failure_keeps_committed_write_witness :
  publish_error Reference.broker_down
  = Some (DriverError "nats: connection closed")
  /\ (let r := run (Reference.createGood Reference.broker_down
                                         Reference.widget_body)
                   Reference.two_goods in
      status (snd r) = 500
      /\ published (fst r) = []
      /\ map r_name (tbl_goods (fst r)) = ["a"; "b"; "Widget"]%string)
  /\ (let r := run (Reference.updateGood Reference.broker_down
                                         Reference.widget_body)
                   Reference.two_goods in
      status (snd r) = 500
      /\ map r_name (tbl_goods (fst r)) = ["Widget"; "Widget"]%string)
  /\ (let r := run (Reference.removeGood Reference.broker_down)
                   Reference.two_goods in
      status (snd r) = 500 /\ tbl_goods (fst r) = [])
  /\ (let r := run (Reference.reprioritizeGood Reference.broker_down
                                               Reference.five_body)
                   Reference.two_goods in
      status (snd r) = 500
      /\ map r_priority (tbl_goods (fst r)) = [5; 5]).
Proof.
  split; [reflexivity|].
  destruct (publish_failure_keeps_committed_write
              Reference.zeroTime Reference.parseTime Reference.formatTime
              Reference.quote Reference.unquote Reference.equal_fold
              Reference.broker_down Reference.two_goods
              Reference.widget_body Reference.widget
              Reference.five_body {| n_NewPriority := 5 |} 2
              (DriverError "nats: connection closed"))
    as ((C1 & C2 & C3) & (U1 & _ & U3) & (D1 & _ & D3) & (R1 & _ & R3));
    try (vm_compute; reflexivity).
  unfold Reference.createGood, Reference.updateGood, Reference.removeGood,
    Reference.reprioritizeGood. cbv zeta.
  rewrite C1, C2, C3, U1, U3, D1, D3, R1, R3.
  repeat split; reflexivity.
Defined.

(** C4 as stated fails on the body: PATCH /goods/reprioritize answers the
    object inside an array, not the object. *)
Lemma reprioritize_body_is_not_the_bare_object :
  exists h,
    Reference.serve Reference.all_well Reference.patch_reprioritize = Some h
    /\ status (snd (run h Reference.two_goods)) = 200
    /\ body (snd (run h Reference.two_goods))
       = Written ((JSONText.dq "[{'priorities':[{'id':0,'priority':5}]}]")
                  +:+ String "010" EmptyString)
    /\ body (snd (run h Reference.two_goods))
       <> Written (JSONText.dq "{'priorities':[{'id':0,'priority':5}]}").
Proof.
  eexists. split; [reflexivity|]. split; [reflexivity|].
  split; [vm_compute; reflexivity|]. vm_compute. discriminate.
Qed.

(** C4 as amended, through the router. *)
Lemma reprioritize_two_goods_to_five_witness :
  Reference.serve Reference.all_well Reference.patch_reprioritize
  = Some (Reference.reprioritizeGood Reference.all_well Reference.five_body)
  /\ map r_priority (tbl_goods Reference.two_goods) = [1; 2]
  /\ (let r := run (Reference.reprioritizeGood Reference.all_well
                                               (JSONText.dq "{'newPriority': 5}"))
                   Reference.two_goods in
      tbl_goods (fst r)
      = [reprioritize_row 5 (Reference.row 1 "a" 1);
         reprioritize_row 5 (Reference.row 2 "b" 2)]
      /\ map r_priority (tbl_goods (fst r)) = [5; 5]
      /\ snd r
         = {| status := 200;
              content_type := Some "application/json"%string;
              body := Written
                        ((JSONText.dq "[{'priorities':[{'id':0,'priority':5}]}]")
                         +:+ String "010" EmptyString) |}).
Proof.
  split; [reflexivity|]. split; [reflexivity|].
  unfold Reference.reprioritizeGood.
  apply (reprioritize_two_goods_to_five
           Reference.zeroTime Reference.formatTime Reference.quote
           Reference.unquote Reference.equal_fold
           Reference.all_well Reference.two_goods
           (Reference.row 1 "a" 1) (Reference.row 2 "b" 2));
    reflexivity.
Defined.

(** C5 with a store that refuses every statement. *)
Lemma store_error_leaves_goods_unchanged_witness :
  write_fails Reference.store_down
  /\ refused (Reference.createGood Reference.store_down
                                   Reference.widget_body)
             Reference.two_goods
  /\ refused (Reference.updateGood Reference.store_down
                                   Reference.widget_body)
             Reference.two_goods
  /\ refused (Reference.removeGood Reference.store_down) Reference.two_goods
  /\ refused (Reference.reprioritizeGood Reference.store_down
                                         Reference.five_body)
             Reference.two_goods
  /\ commit_follows_exec Reference.store_down
       (Reference.removeGood Reference.store_down) Reference.two_goods.
Proof.
  assert (Hf : write_fails Reference.store_down)
    by (right; left; vm_compute; discriminate).
  destruct (store_error_leaves_goods_unchanged
              Reference.zeroTime Reference.parseTime Reference.formatTime
              Reference.quote Reference.unquote Reference.equal_fold
              Reference.store_down Reference.two_goods
              Reference.widget_body Reference.widget
              Reference.five_body {| n_NewPriority := 5 |})
    as (C & W & _ & _ & Cd & _ & _); try (vm_compute; reflexivity).
  destruct (W Hf) as (U & D & R).
  split; [exact Hf|]. split; [exact (C (or_introl Hf))|].
  split; [exact U|]. split; [exact D|]. split; [exact R|exact Cd].
Defined.



(** A cached text that is JSON but does not fit leaves what was decoded of
    it in the slice the store's rows are appended to: the list answered
    and cached starts with an element no row of the store holds. *)
Example ill_typed_cache_leaks_into_the_list :
  let r := run (Reference.listGoods Reference.all_well) Reference.ill_typed in
  map r_id (tbl_goods Reference.ill_typed) = [1]
  /\ status (snd r) = 200
  /\ option_map fst (cache (fst r) !! "goods"%string)
     = Some ((JSONText.dq "[{'id':0,'project_id':0,'name':'','description':'',")
             +:+ (JSONText.dq "'priority':0,'removed':false,")
             +:+ (JSONText.dq "'created_at':'0001-01-01T00:00:00Z'},")
             +:+ (JSONText.dq "{'id':1,'project_id':1,'name':'a',")
             +:+ (JSONText.dq "'description':'','priority':1,'removed':false,")
             +:+ (JSONText.dq "'created_at':'2024-05-01T10:00:00Z'}]"))%string.
Proof. vm_compute. repeat split; reflexivity. Qed.

(** C7 with the cache down. *)
Lemma cache_failures_fall_through_witness :
  cache_get_error Reference.cache_down <> None
  /\ firstn 2 (new_calls Reference.warm
                 (fst (run (Reference.listGoods Reference.cache_down)
                           Reference.warm)))
     = [CacheGet "goods"; Query "goods"]
  /\ status (snd (run (Reference.listGoods Reference.cache_down)
                      Reference.warm)) = 200
  /\ snd (run (Reference.listGoods
                 (with_cache_set_error Reference.all_well
                    (Some (DriverError "redis: connection refused"))))
              Reference.two_goods)
     = snd (run (Reference.listGoods Reference.all_well) Reference.two_goods).
Proof.
  assert (Hg : cache_get_error Reference.cache_down <> None)
    by (vm_compute; discriminate).
  destruct (cache_failures_fall_through
              Reference.zeroTime Reference.parseTime Reference.formatTime
              Reference.quote Reference.unquote Reference.equal_fold
              Reference.sprint_goods Reference.cache_down Reference.warm)
    as (Fall & _ & _ & _).
  destruct (cache_failures_fall_through
              Reference.zeroTime Reference.parseTime Reference.formatTime
              Reference.quote Reference.unquote Reference.equal_fold
              Reference.sprint_goods Reference.all_well Reference.two_goods)
    as (_ & _ & Set_ & _).
  split; [exact Hg|]. split; [exact (Fall (or_introl Hg))|].
  split; [vm_compute; reflexivity|]. apply Set_.
Defined.

(** C8 as stated fails on the id: a body with "id":7 is answered and
    published with "id":7. *)
Lemma create_response_carries_submitted_id :
  let r := run (Reference.createGood Reference.all_well
                                     Reference.widget_body)
               Reference.two_goods in
  status (snd r) = 201
  /\ body (snd r)
     = Written
         ((JSONText.dq "[{'id':7,'project_id':4,'name':'Widget',")
          +:+ (JSONText.dq "'description':'d','priority':3,'removed':false,")
          +:+ (JSONText.dq "'created_at':'2020-02-29T03:04:05Z'}]")
          +:+ String "010" EmptyString)
  /\ published (fst r)
     = [("new_good_created"%string,
         (JSONText.dq "{'id':7,'project_id':4,'name':'Widget',")
         +:+ (JSONText.dq "'description':'d','priority':3,'removed':false,")
         +:+ (JSONText.dq "'created_at':'2020-02-29T03:04:05Z'}"))]
  /\ ~ (exists g, ID g = 0 /\ snd r = Reference.respond 201 [OfGood g]).
Proof.
  cbv zeta. split; [vm_compute; reflexivity|].
  split; [vm_compute; reflexivity|]. split; [vm_compute; reflexivity|].
  intros ([i pid n d pr rm t] & Hi & Hr). cbn in Hi. subst i.
  vm_compute in Hr. discriminate Hr.
Qed.

(** C8 as amended, on the same request. *)
Lemma create_echoes_id_and_stores_server_values_witness :
  Reference.decodeGood Reference.widget_body = Some Reference.widget
  /\ (let echoed := with_Priority Reference.widget 3 in
      let r := run (Reference.createGood Reference.all_well
                                         Reference.widget_body)
                   Reference.two_goods in
      snd r = Reference.respond 201 [OfGood echoed]
      /\ published (fst r)
         = [("new_good_created"%string, Reference.widget_json)]
      /\ ID echoed = 7
      /\ CreatedAt echoed = "2020-02-29T03:04:05Z"%string
      /\ Priority echoed = 3
      /\ tbl_goods (fst r)
         = tbl_goods Reference.two_goods
           ++ [{| r_id := 3; r_project_id := None; r_name := "Widget";
                  r_description := "d"; r_priority := 3;
                  r_removed := false;
                  r_created_at := Reference.noon |}]).
Proof.
  split; [vm_compute; reflexivity|].
  destruct (create_echoes_id_and_stores_server_values
              Reference.zeroTime Reference.parseTime Reference.formatTime
              Reference.quote Reference.unquote Reference.equal_fold
              Reference.all_well Reference.two_goods
              Reference.widget_body Reference.widget 2
              Reference.widget_json)
    as (Hr & Hp & Hi & Ht & Hpr & Hs); try (vm_compute; reflexivity).
  cbv zeta. unfold Reference.createGood. rewrite Hr, Hp, Hs.
  repeat split; reflexivity.
Defined.

(** C9 as stated fails for a project whose creation time the encoder
    refuses: the store read goes through, the projects list answers 200 as
    JSON, and the body is empty, not an array around the payload. *)
Lemma unencodable_project_gets_an_empty_body :
  let r := run (listProjectsHandler Reference.marshalTime Reference.quote
                                    Reference.all_well)
               Reference.one_late_project in
  scan_all scan_Projects (tbl_projects Reference.one_late_project)
  = Some [Reference.late_project]
  /\ Reference.marshalTime (p_CreatedAt Reference.late_project) = None
  /\ snd r = {| status := 200;
                content_type := Some "application/json"%string;
                body := Written EmptyString |}
  /\ forall j : json,
       body (snd r)
       <> Written (("[" +:+ JSONText.render j +:+ "]")
                   +:+ String "010" EmptyString).
Proof.
  cbv zeta. split; [reflexivity|]. split; [reflexivity|].
  split; [vm_compute; reflexivity|].
  intros j H.
  assert (Hb : body (snd (run (listProjectsHandler
                                 Reference.marshalTime Reference.quote
                                 Reference.all_well)
                              Reference.one_late_project))
               = Written EmptyString) by (vm_compute; reflexivity).
  rewrite Hb in H. injection H as H.
  rewrite !JSONTextFacts.append_cons in H. discriminate H.
Qed.

(** C9 as amended on the priorities object, a created good, an empty
    projects table and a project whose creation time cannot be encoded. *)
Lemma responder_wraps_payload_in_array_witness :
  Reference.respond 200 [OfPriorities [(0, 5)]]
  = {| status := 200;
       content_type := Some "application/json"%string;
       body := Written ((JSONText.dq "[{'priorities':[{'id':0,'priority':5}]}]")
                        +:+ String "010" EmptyString) |}
  /\ (exists g m j,
         Reference.decodeGood Reference.widget_body = Some g
         /\ snd (run (Reference.createGood Reference.all_well
                                           Reference.widget_body)
                     Reference.two_goods)
            = Reference.respond 201 [OfGood (with_Priority g m)]
         /\ json_Payload Reference.formatTime Reference.quote
              (OfGood (with_Priority g m)) = Some j)
  /\ (exists p j,
         Reference.decodePriority Reference.five_body = Some p
         /\ snd (run (Reference.reprioritizeGood Reference.all_well
                                                 Reference.five_body)
                     Reference.two_goods)
            = Reference.respond 200 [OfPriorities [(0, n_NewPriority p)]]
         /\ json_Payload Reference.formatTime Reference.quote
              (OfPriorities [(0, n_NewPriority p)]) = Some j)
  /\ body (snd (run (Reference.listProjects Reference.all_well)
                    Reference.two_goods))
     = Written ("[null]" +:+ String "010" EmptyString)
  /\ respondWithJSON Reference.marshalTime Reference.quote 200
       [OfProjects (Some [Reference.late_project])]
     = {| status := 200;
          content_type := Some "application/json"%string;
          body := Written EmptyString |}.
Proof.
  destruct (responder_wraps_payload_in_array
              Reference.zeroTime Reference.parseTime Reference.formatTime
              Reference.quote Reference.unquote Reference.equal_fold
              Reference.sprint_goods Reference.all_well Reference.two_goods
              Reference.widget_body Reference.five_body)
    as (Wrap & _ & _ & _ & Created & _ & Reprio & Empty).
  destruct (responder_wraps_payload_in_array
              Reference.zeroTime Reference.parseTime Reference.marshalTime
              Reference.quote Reference.unquote Reference.equal_fold
              Reference.sprint_goods Reference.all_well
              Reference.one_late_project
              Reference.widget_body Reference.five_body)
    as (_ & Bare & _).
  split; [|split; [|split; [|split]]].
  - exact (Wrap 200 (OfPriorities [(0, 5)])
                 (JObj [("priorities"%string,
                         JArr [JObj [("id"%string, JNum "0");
                                     ("priority"%string, JNum "5")]])])
                 eq_refl).
  - apply Created. vm_compute. reflexivity.
  - apply Reprio. vm_compute. reflexivity.
  - apply Empty; reflexivity.
  - apply Bare. reflexivity.
Defined.

(** C10 on two bodies naming projects 4 and 9. *)
Lemma create_leaves_project_id_to_the_store_witness :
  (ProjectID Reference.widget = 4 /\ ProjectID Reference.gadget = 9)
  /\ (exists r,
         tbl_goods (fst (run (Reference.createGood Reference.all_well
                                                   Reference.widget_body)
                             Reference.two_goods))
         = tbl_goods Reference.two_goods ++ [r]
         /\ r_project_id r = None)
  /\ map r_project_id
         (tbl_goods (fst (run (Reference.createGood Reference.all_well
                                                    Reference.widget_body)
                              Reference.two_goods)))
     = map r_project_id
           (tbl_goods (fst (run (Reference.createGood Reference.all_well
                                                      Reference.gadget_body)
                                Reference.two_goods)))
  /\ (exists g,
         snd (run (Reference.createGood Reference.all_well
                                        Reference.widget_body)
                  Reference.two_goods)
         = Reference.respond 201 [OfGood g]
         /\ ProjectID g = 4).
Proof.
  split; [split; reflexivity|].
  destruct (create_leaves_project_id_to_the_store
              Reference.zeroTime Reference.parseTime Reference.formatTime
              Reference.quote Reference.unquote Reference.equal_fold
              Reference.all_well Reference.two_goods
              Reference.widget_body Reference.gadget_body
              Reference.widget Reference.gadget 2)
    as (Stored & Same & Echo); try (vm_compute; reflexivity).
  split; [exact Stored|]. split; [exact Same|].
  destruct (Reference.marshalGood (with_Priority Reference.widget 3))
    as [data|] eqn:Hm; [|vm_compute in Hm; discriminate Hm].
  apply (Echo data); [exact Hm|reflexivity].
Defined.

(** * Concrete runs of the further properties *)

(** A delete publishes its message when it answers 204, and nothing when
    the broker is down. *)
Lemma a_message_is_published_exactly_on_success_witness :
  status (snd (run (Reference.removeGood Reference.all_well)
                   Reference.two_goods)) = 204
  /\ published (fst (run (Reference.removeGood Reference.all_well)
                         Reference.two_goods))
     = published Reference.two_goods
       ++ [("good_deleted", "Goods with deleted")]%string
  /\ status (snd (run (Reference.removeGood Reference.broker_down)
                      Reference.two_goods)) <> 204
  /\ published (fst (run (Reference.removeGood Reference.broker_down)
                         Reference.two_goods))
     = published Reference.two_goods.
Proof.
  pose proof (a_message_is_published_exactly_on_success
                Reference.zeroTime Reference.parseTime Reference.formatTime
                Reference.quote Reference.unquote Reference.equal_fold
                Reference.sprint_goods Reference.all_well Reference.two_goods
                Reference.widget_body) as Hok.
  pose proof (a_message_is_published_exactly_on_success
                Reference.zeroTime Reference.parseTime Reference.formatTime
                Reference.quote Reference.unquote Reference.equal_fold
                Reference.sprint_goods Reference.broker_down
                Reference.two_goods Reference.widget_body) as Hno.
  cbv zeta in Hok, Hno.
  destruct Hok as (_ & _ & [Dok _] & _). destruct Hno as (_ & _ & [_ Dno] & _).
  assert (H204 : status (snd (run (Reference.removeGood Reference.all_well)
                                  Reference.two_goods)) = 204)
    by (vm_compute; reflexivity).
  assert (H500 : status (snd (run (Reference.removeGood Reference.broker_down)
                                  Reference.two_goods)) <> 204)
    by (vm_compute; discriminate).
  split; [exact H204|]. split; [exact (Dok H204)|].
  split; [exact H500|exact (Dno H500)].
Defined.

(** The goods list on two goods leaves both relations as they were. *)
Lemma projects_and_reads_stay_untouched_witness :
  tx Reference.two_goods = None
  /\ tbl_goods (fst (run (Reference.listGoods Reference.all_well)
                         Reference.two_goods))
     = tbl_goods Reference.two_goods
  /\ tx (fst (run (Reference.createGood Reference.store_down
                                        Reference.widget_body)
                  Reference.two_goods)) = None.
Proof.
  pose proof (projects_and_reads_stay_untouched
                Reference.zeroTime Reference.parseTime Reference.formatTime
                Reference.quote Reference.unquote Reference.equal_fold
                Reference.sprint_goods Reference.all_well Reference.two_goods
                Reference.widget_body eq_refl) as Hwell.
  pose proof (projects_and_reads_stay_untouched
                Reference.zeroTime Reference.parseTime Reference.formatTime
                Reference.quote Reference.unquote Reference.equal_fold
                Reference.sprint_goods Reference.store_down
                Reference.two_goods Reference.widget_body eq_refl) as Hdown.
  cbv zeta in Hwell, Hdown.
  destruct Hwell as (_ & (_ & Hl & _) & _).
  destruct Hdown as (_ & _ & (_ & Hc) & _).
  split; [reflexivity|]. split; [exact Hl|exact Hc].
Defined.

(** A body that is a number is refused by the create handler. *)
Lemma bodies_that_are_not_objects_are_refused_witness :
  JSONText.first_value "7" = Some (JNum "7")
  /\ run (Reference.createGood Reference.all_well "7") Reference.two_goods
     = (Reference.two_goods, http_Error JSONDecodeError 400)
  /\ run (Reference.reprioritizeGood Reference.all_well "7")
         Reference.two_goods
     = (Reference.two_goods, http_Error JSONDecodeError 400).
Proof.
  destruct (bodies_that_are_not_objects_are_refused
              Reference.zeroTime Reference.parseTime Reference.formatTime
              Reference.quote Reference.unquote Reference.equal_fold
              Reference.all_well Reference.two_goods "7")
    as (Hc & _ & Hr).
  - right. exists (JNum "7"). split; vm_compute; reflexivity.
  - split; [vm_compute; reflexivity|]. split; [exact Hc|exact Hr].
Defined.

(** An update with the body {} on two goods. *)
Lemma empty_update_blanks_every_row_witness :
  JSONText.first_value "{}" = Some (JObj [])
  /\ map r_name (tbl_goods (fst (run (Reference.updateGood Reference.all_well
                                                           "{}")
                                     Reference.two_goods)))
     = [""; ""]%string
  /\ map r_priority (tbl_goods (fst (run (Reference.updateGood
                                            Reference.all_well "{}")
                                         Reference.two_goods)))
     = [0; 0].
Proof.
  destruct (empty_update_blanks_every_row
              Reference.zeroTime Reference.parseTime Reference.formatTime
              Reference.quote Reference.unquote Reference.equal_fold
              Reference.all_well Reference.two_goods "{}")
    as [_ Hrel]; try reflexivity.
  - right. vm_compute. reflexivity.
  - split; [vm_compute; reflexivity|].
    unfold Reference.updateGood. rewrite Hrel. split; reflexivity.
Defined.

(** Two creates on goods of priorities 1 and 2 store 3 and 4. *)
Lemma consecutive_creates_get_consecutive_priorities_witness :
  exists r1 r2,
    tbl_goods (fst (run (Reference.createGood Reference.all_well
                                              Reference.gadget_body)
                        (fst (run (Reference.createGood Reference.all_well
                                                        Reference.widget_body)
                                  Reference.two_goods))))
    = tbl_goods Reference.two_goods ++ [r1; r2]
    /\ r_priority r1 = 3 /\ r_priority r2 = 4.
Proof.
  destruct (consecutive_creates_get_consecutive_priorities
              Reference.zeroTime Reference.parseTime Reference.formatTime
              Reference.quote Reference.unquote Reference.equal_fold
              Reference.all_well Reference.all_well Reference.two_goods
              Reference.widget_body Reference.gadget_body
              Reference.widget Reference.gadget)
    as (r1 & r2 & Hrel & H1 & H2);
    try (vm_compute; reflexivity);
    try (repeat split; reflexivity).
  exists r1, r2. split; [exact Hrel|]. split; [exact H1|exact H2].
Defined.

(** With sql.ErrNoRows from the read, a create on goods of priorities 1
    and 2 stores priority 1. *)
Lemma create_after_no_rows_error_stores_priority_one_witness :
  map r_priority (tbl_goods Reference.two_goods) = [1; 2]
  /\ exists r,
       tbl_goods (fst (run (Reference.createGood Reference.no_rows
                                                 Reference.widget_body)
                           Reference.two_goods))
       = tbl_goods Reference.two_goods ++ [r]
       /\ r_priority r = 1.
Proof.
  split; [reflexivity|].
  apply (create_after_no_rows_error_stores_priority_one
           Reference.zeroTime Reference.parseTime Reference.formatTime
           Reference.quote Reference.unquote Reference.equal_fold
           Reference.no_rows Reference.two_goods Reference.widget_body
           Reference.widget);
    reflexivity.
Defined.

(** With a goods list in the cache, the list after a delete is still the
    cached one. *)
Lemma writes_leave_the_cached_list_in_place_witness :
  tbl_goods (fst (run (Reference.removeGood Reference.all_well)
                      Reference.warm)) = []
  /\ snd (run (Reference.listGoods Reference.all_well)
              (fst (run (Reference.removeGood Reference.all_well)
                        Reference.warm)))
     = Reference.respond 200
         [OfGoods (Some [{| ID := 1; ProjectID := 0; Name := "a";
                            Description := ""; Priority := 0;
                            Removed := false;
                            CreatedAt := Reference.zeroTime |}])].
Proof.
  split; [vm_compute; reflexivity|].
  apply (writes_leave_the_cached_list_in_place
           Reference.zeroTime Reference.parseTime Reference.formatTime
           Reference.quote Reference.unquote Reference.equal_fold
           Reference.sprint_goods Reference.all_well Reference.all_well
           Reference.warm Reference.widget_body Reference.cached_text
           redisCacheTime);
    vm_compute; reflexivity.
Defined.

(** With the broker down the goods list answers 500 and has cached the
    two goods. *)
Lemma list_caches_before_it_publishes_witness :
  snd (run (Reference.listGoods Reference.broker_down) Reference.two_goods)
  = http_Error (DriverError "nats: connection closed") 500
  /\ cache (fst (run (Reference.listGoods Reference.broker_down)
                     Reference.two_goods)) !! "goods"%string
     = Some (Reference.two_goods_json, redisCacheTime).
Proof.
  apply (list_caches_before_it_publishes
           Reference.zeroTime Reference.parseTime Reference.formatTime
           Reference.quote Reference.unquote Reference.equal_fold
           Reference.sprint_goods Reference.broker_down Reference.two_goods
           Reference.two_goods_listed);
    try (vm_compute; reflexivity).
  right. reflexivity.
Defined.

(** After a create whose row gets a NULL project_id the goods list
    answers 500. *)
Lemma null_project_of_a_create_breaks_the_list_witness :
  default_project Reference.all_well = None
  /\ snd (run (Reference.listGoods Reference.all_well)
              (fst (run (Reference.createGood Reference.all_well
                                              Reference.widget_body)
                        Reference.two_goods)))
     = http_Error ScanError 500.
Proof.
  split; [reflexivity|].
  apply (null_project_of_a_create_breaks_the_list
           Reference.zeroTime Reference.parseTime Reference.formatTime
           Reference.quote Reference.unquote Reference.equal_fold
           Reference.sprint_goods Reference.all_well Reference.all_well
           Reference.two_goods Reference.widget_body Reference.widget 2);
    try (vm_compute; reflexivity).
  - repeat split; reflexivity.
  - right. vm_compute. reflexivity.
Defined.

(** The projects list on a store without projects, and with the store
    down. *)
Lemma projects_list_reads_once_witness :
  snd (run (Reference.listProjects Reference.all_well) Reference.two_goods)
  = Reference.respond 200 [OfProjects None]
  /\ fst (run (Reference.listProjects Reference.all_well)
              Reference.two_goods)
     = log Reference.two_goods (Query "projects").
Proof.
  destruct (projects_list_reads_once
              Reference.zeroTime Reference.formatTime Reference.quote
              Reference.all_well Reference.two_goods)
    as (Hw & _ & _ & Hok).
  split; [|exact Hw]. apply (Hok []); reflexivity.
Defined.

(** A create of the widget caches it under "goods: 7", though the store
    gave the row the id 3; the goods list does not look at that entry. *)
Lemma per_good_entries_are_written_and_never_read_witness :
  Reference.decodeGood Reference.widget_body = Some Reference.widget
  /\ serial Reference.all_well = 3
  /\ cache (fst (run (Reference.createGood Reference.all_well
                                           Reference.widget_body)
                     Reference.two_goods))
     = <["goods: 7"%string := (Reference.widget_json, redisCacheTime)]>
         (cache Reference.two_goods)
  /\ snd (run (Reference.listGoods Reference.all_well)
              (set_cache Reference.two_goods
                 (<["goods: 7"%string := (Reference.widget_json,
                                          redisCacheTime)]> ∅)))
     = snd (run (Reference.listGoods Reference.all_well)
                Reference.two_goods).
Proof.
  assert (Hd : Reference.decodeGood Reference.widget_body
               = Some Reference.widget) by (vm_compute; reflexivity).
  destruct (per_good_entries_are_written_and_never_read
              Reference.zeroTime Reference.parseTime Reference.formatTime
              Reference.quote Reference.unquote Reference.equal_fold
              Reference.sprint_goods Reference.all_well Reference.two_goods
              Reference.widget_body Reference.widget 2 Hd)
    as (Hc & _ & Hl).
  split; [exact Hd|]. split; [reflexivity|]. split.
  - apply (Hc Reference.widget_json); try (vm_compute; reflexivity).
    repeat split; reflexivity.
  - apply Hl. vm_compute. reflexivity.
Defined.

(** PATCH /goods/reprioritize reaches its handler; POST /projects reaches
    none. *)
Lemma router_serves_six_routes_witness :
  Reference.serve Reference.all_well Reference.patch_reprioritize
  = Some (Reference.reprioritizeGood Reference.all_well Reference.five_body)
  /\ Reference.serve Reference.all_well Reference.get_projects
     = Some (Reference.listProjects Reference.all_well).
Proof.
  destruct (router_serves_six_routes
              Reference.zeroTime Reference.parseTime Reference.formatTime
              Reference.quote Reference.unquote Reference.equal_fold
              Reference.sprint_goods Reference.all_well
              Reference.patch_reprioritize)
    as (_ & _ & _ & _ & _ & Hr & _).
  destruct (router_serves_six_routes
              Reference.zeroTime Reference.parseTime Reference.formatTime
              Reference.quote Reference.unquote Reference.equal_fold
              Reference.sprint_goods Reference.all_well
              Reference.get_projects)
    as (Hp & _).
  split; [exact (Hr eq_refl eq_refl)|exact (Hp eq_refl eq_refl)].
Defined.

(** The goods list twice on two goods and an empty cache: the second
    answer comes from the cache and is the first one. *)
Lemma warm_list_repeats_the_cold_list_witness :
  cache Reference.two_goods !! "goods"%string = None
  /\ run (Reference.listGoods Reference.all_well)
         (fst (run (Reference.listGoods Reference.all_well)
                   Reference.two_goods))
     = (log (fst (run (Reference.listGoods Reference.all_well)
                      Reference.two_goods))
            (CacheGet "goods"),
        Reference.respond 200 [OfGoods (Some Reference.two_goods_listed)])
  /\ snd (run (Reference.listGoods Reference.all_well) Reference.two_goods)
     = Reference.respond 200 [OfGoods (Some Reference.two_goods_listed)].
Proof.
  destruct (warm_list_repeats_the_cold_list
              Reference.zeroTime Reference.parseTime Reference.formatTime
              Reference.quote Reference.unquote Reference.equal_fold
              Reference.sprint_goods Reference.all_well Reference.all_well
              Reference.two_goods Reference.two_goods_listed)
    as [Hwarm Hcold].
  - right. reflexivity.
  - reflexivity.
  - reflexivity.
  - vm_compute. reflexivity.
  - vm_compute. reflexivity.
  - assert (Ht : time_reads_back Reference.parseTime Reference.formatTime
                   "2024-05-01T10:00:00Z"%string)
      by (exists "2024-05-01T10:00:00Z"%string;
          split; [reflexivity|split; vm_compute; reflexivity]).
    assert (Ha : string_reads_back Reference.quote Reference.unquote "a"
                 = true) by (vm_compute; reflexivity).
    assert (Hb : string_reads_back Reference.quote Reference.unquote "b"
                 = true) by (vm_compute; reflexivity).
    assert (He : string_reads_back Reference.quote Reference.unquote ""
                 = true) by (vm_compute; reflexivity).
    repeat constructor; assumption.
  - reflexivity.
  - reflexivity.
  - split; [reflexivity|]. split; [exact Hwarm|exact (Hcold eq_refl)].
Defined.

(** The message of a create of the widget on two goods decodes to the
    widget with priority 3; the message of an update to the widget. *)
Lemma notifications_are_bodies_of_the_same_good_witness :
  (exists data,
      published (fst (run (Reference.createGood Reference.all_well
                                                Reference.widget_body)
                          Reference.two_goods))
      = published Reference.two_goods ++ [("new_good_created"%string, data)]
      /\ Reference.decodeGood data = Some Reference.widget_third)
  /\ (exists data,
         published (fst (run (Reference.updateGood Reference.all_well
                                                   Reference.widget_body)
                             Reference.two_goods))
         = published Reference.two_goods ++ [("good_updated"%string, data)]
         /\ Reference.decodeGood data = Some Reference.widget).
Proof.
  assert (Ht : time_reads_back Reference.parseTime Reference.formatTime
                 (CreatedAt Reference.widget))
    by (exists "2020-02-29T03:04:05Z"%string;
        split; [reflexivity|split; vm_compute; reflexivity]).
  destruct (notifications_are_bodies_of_the_same_good
              Reference.zeroTime Reference.parseTime Reference.formatTime
              Reference.quote Reference.unquote Reference.equal_fold
              Reference.all_well Reference.two_goods Reference.widget_body
              Reference.widget 2)
    as [Hc Hu].
  - vm_compute. reflexivity.
  - repeat split; reflexivity.
  - reflexivity.
  - vm_compute. reflexivity.
  - split.
    + apply Hc; [vm_compute; reflexivity|].
      split; [vm_compute; reflexivity|].
      split; [vm_compute; reflexivity|].
      split; [vm_compute; reflexivity|exact Ht].
    + apply Hu.
      split; [vm_compute; reflexivity|].
      split; [vm_compute; reflexivity|].
      split; [vm_compute; reflexivity|exact Ht].
Defined.

(** A create after a delete, and after a reprioritization to 5, of two
    goods. *)
Lemma create_priority_follows_the_last_bulk_write_witness :
  (exists r,
      tbl_goods (fst (run (Reference.createGood Reference.all_well
                                                Reference.widget_body)
                          (fst (run (Reference.removeGood Reference.all_well)
                                    Reference.two_goods))))
      = [r]
      /\ r_priority r = 1)
  /\ (exists r,
         tbl_goods (fst (run (Reference.createGood Reference.all_well
                                                   Reference.widget_body)
                             (fst (run (Reference.reprioritizeGood
                                          Reference.all_well
                                          Reference.five_body)
                                       Reference.two_goods))))
         = map (reprioritize_row 5) (tbl_goods Reference.two_goods) ++ [r]
         /\ r_priority r = 5 + 1).
Proof.
  destruct (create_priority_follows_the_last_bulk_write
              Reference.zeroTime Reference.parseTime Reference.formatTime
              Reference.quote Reference.unquote Reference.equal_fold
              Reference.all_well Reference.all_well Reference.two_goods
              Reference.widget_body Reference.five_body Reference.widget
              {| n_NewPriority := 5 |})
    as [Hd Hr]; try (vm_compute; reflexivity).
  - repeat split; reflexivity.
  - split; [exact Hd|]. apply Hr; [discriminate|vm_compute; reflexivity].
Defined.

(** Two bodies for the widget, one with and one without id, project and
    creation time, do the same to the store. *)
Lemma store_sees_only_the_named_fields_witness :
  Reference.decodeGood Reference.widget_body = Some Reference.widget
  /\ Reference.decodeGood Reference.bare_widget_body
     = Some Reference.bare_widget
  /\ tbl_goods (fst (run (Reference.updateGood Reference.all_well
                                               Reference.widget_body)
                         Reference.two_goods))
     = tbl_goods (fst (run (Reference.updateGood Reference.all_well
                                                 Reference.bare_widget_body)
                           Reference.two_goods))
  /\ tbl_goods (fst (run (Reference.createGood Reference.all_well
                                               Reference.widget_body)
                         Reference.two_goods))
     = tbl_goods (fst (run (Reference.createGood Reference.all_well
                                                 Reference.bare_widget_body)
                           Reference.two_goods)).
Proof.
  assert (H1 : Reference.decodeGood Reference.widget_body
               = Some Reference.widget) by (vm_compute; reflexivity).
  assert (H2 : Reference.decodeGood Reference.bare_widget_body
               = Some Reference.bare_widget) by (vm_compute; reflexivity).
  destruct (store_sees_only_the_named_fields
              Reference.zeroTime Reference.parseTime Reference.formatTime
              Reference.quote Reference.unquote Reference.equal_fold
              Reference.all_well Reference.two_goods
              Reference.widget_body Reference.bare_widget_body
              Reference.widget Reference.bare_widget H1 H2)
    as [Hu Hc]; try reflexivity.
  split; [exact H1|]. split; [exact H2|]. split; [exact (Hu eq_refl)|exact Hc].
Defined.

(** The goods list on two goods when the result set breaks off. *)
Lemma failed_list_read_caches_nothing_witness :
  status (snd (run (Reference.listGoods Reference.rows_break)
                   Reference.two_goods)) = 500
  /\ cache (fst (run (Reference.listGoods Reference.rows_break)
                     Reference.two_goods)) = ∅
  /\ published (fst (run (Reference.listGoods Reference.rows_break)
                         Reference.two_goods)) = [].
Proof.
  destruct (failed_list_read_caches_nothing
              Reference.zeroTime Reference.parseTime Reference.formatTime
              Reference.quote Reference.unquote Reference.equal_fold
              Reference.sprint_goods Reference.rows_break
              Reference.two_goods)
    as [Hs Hw].
  - right. reflexivity.
  - right. left. discriminate.
  - split; [exact Hs|]. unfold Reference.listGoods. rewrite Hw.
    split; reflexivity.
Defined.
